(** * RF_model.py: the residual-correction pipeline

    A shallow embedding of [Codes/Machine Learning model/RF_model.py]:
    the spatial sampler [semi_random_sample] and the methods of the class
    [RF_Correction_Model] ([__init__], [split_data], [trainRF], [test]).

    Conventions of the embedding.
    - Python integers are [Z].  [a // b] is [Z.div] (floor), [int (a / b)]
      is [Z.quot] (truncation of the true quotient), [int (np.sqrt k)] is
      [Z.sqrt k].  The two float detours are exact for every grid side and
      sample count below [2^26], far above any raster that fits in memory.
    - Raster cells and table cells are floats; in "exact arithmetic" a float
      is a rational number ([Qc]) or NaN ([None]).
    - Python exceptions are the constructors of [exn]; a statement either
      returns ([Ok]), raises ([Raise]) or, for the one [while] loop, could
      exhaust the fuel of its model ([Timeout]); the latter is proved
      unreachable.
    - [np.random] is unseeded: the generator is an arbitrary infinite
      sequence of raw draws with a cursor; [randint low high] maps the next
      raw draw into [low, high).
    - [glob], [gdal] and scikit-learn are collaborators: they enter as
      section variables. *)

From stdpp Require Import base numbers list strings gmap pretty.
From Stdlib Require Import Ascii ZArith QArith Qcanon Lia Mergesort Orders.

Open Scope Z_scope.

(** ** Outcomes, exceptions and the state-and-exception monad *)

Inductive exn : Set :=
| ZeroDivisionError
| ValueError
| IndexError
| KeyError
| TypeError
| AttributeError.

Inductive outcome (A : Type) : Type :=
| Ok (a : A)
| Raise (e : exn)
| Timeout.
Arguments Ok {A} a.
Arguments Raise {A} e.
Arguments Timeout {A}.

Definition M (St A : Type) : Type := St -> outcome A * St.

Definition ret {St A} (a : A) : M St A := fun s => (Ok a, s).

Definition raise {St A} (e : exn) : M St A := fun s => (Raise e, s).

Definition bind {St A B} (m : M St A) (k : A -> M St B) : M St B :=
  fun s =>
    match m s with
    | (Ok a, s') => k a s'
    | (Raise e, s') => (Raise e, s')
    | (Timeout, s') => (Timeout, s')
    end.

Declare Scope py_scope.
Delimit Scope py_scope with py.
Notation "x <- c1 ;; c2" := (bind c1 (fun x => c2))
  (at level 100, c1 at next level, right associativity) : py_scope.
Notation "c1 ;;; c2" := (bind c1 (fun _ => c2))
  (at level 100, right associativity) : py_scope.
Open Scope py_scope.

(** Statements that do not touch the state run in the exception monad
    alone; [call] runs them inside a method. *)
Definition obind {A B} (r : outcome A) (k : A -> outcome B) : outcome B :=
  match r with
  | Ok a => k a
  | Raise e => Raise e
  | Timeout => Timeout
  end.

Notation "x <~ c1 ;; c2" := (obind c1 (fun x => c2))
  (at level 100, c1 at next level, right associativity) : py_scope.

Definition call {St A} (r : outcome A) : M St A := fun s => (r, s).

(** [for a in l: s = body a s], the loop-carried variables being [s]. *)
Fixpoint for_each {St A V} (l : list A) (body : A -> V -> M St V) (v : V)
  : M St V :=
  match l with
  | [] => ret v
  | a :: l' => v' <- body a v ;; for_each l' body v'
  end.

(** [range(n)] *)
Definition py_range (n : Z) : list Z := Z.of_nat <$> seq 0 (Z.to_nat n).

(** [len(l)] *)
Definition len {A} (l : list A) : Z := Z.of_nat (length l).

(** ** Integer arithmetic as the sampler uses it *)

(** [a // b] *)
Definition floordiv {St} (a b : Z) : M St Z :=
  if b =? 0 then raise ZeroDivisionError else ret (a / b).

(** [int(a / b)]: true division, then truncation toward zero. *)
Definition int_truediv {St} (a b : Z) : M St Z :=
  if b =? 0 then raise ZeroDivisionError else ret (Z.quot a b).

(** [int(np.sqrt(k))]: the square root of a negative number is NaN, and
    [int(nan)] raises [ValueError]. *)
Definition int_sqrt {St} (k : Z) : M St Z :=
  if k <? 0 then raise ValueError else ret (Z.sqrt k).

(** ** The random source *)

Record rng : Type := { rng_draws : nat -> Z; rng_pos : nat }.

Definition rng_next (g : rng) : Z * rng :=
  (rng_draws g (rng_pos g),
   {| rng_draws := rng_draws g; rng_pos := S (rng_pos g) |}).

(** [np.random.randint(low, high)]: an integer of [low, high); [ValueError]
    when the range is empty. *)
Definition randint (low high : Z) : M rng Z :=
  fun g =>
    if high <=? low then (Raise ValueError, g)
    else let '(r, g') := rng_next g in (Ok (low + r `mod` (high - low)), g').

(** ** semi_random_sample *)

(** Lines 38-46: one pixel of every block [(i, j)]. *)
Definition blocked_phase (matrix_size submat_size submat_steps : Z)
  : M rng (list Z) :=
  for_each (py_range submat_steps) (fun i points =>
    for_each (py_range submat_steps) (fun j points =>
      let x_start := i * submat_size in
      let x_end := (i + 1) * submat_size in
      let y_start := j * submat_size in
      let y_end := (j + 1) * submat_size in
      x <- randint x_start x_end ;;
      y <- randint y_start y_end ;;
      ret (points ++ [x * matrix_size + y])) points) [].

(** Lines 48-51: [while len(points) < 1000]. *)
Fixpoint top_up (fuel : nat) (matrix_size : Z) (points : list Z)
  : M rng (list Z) :=
  if len points <? 1000 then
    match fuel with
    | O => fun g => (Timeout, g)
    | S fuel' =>
        x <- randint 0 matrix_size ;;
        y <- randint 0 matrix_size ;;
        top_up fuel' matrix_size (points ++ [x * matrix_size + y])
    end
  else ret points.

Definition semi_random_sample_fuel (fuel : nat) (matrix_size num_samples : Z)
  : M rng (list Z) :=
  root <- int_sqrt num_samples ;;
  submat_size <- floordiv matrix_size root ;;
  submat_steps <- int_truediv matrix_size submat_size ;;
  points <- blocked_phase matrix_size submat_size submat_steps ;;
  top_up fuel matrix_size points.

(** The loop adds one point per round and stops at 1000 points: 1000 rounds
    of fuel are never used up ([semi_random_sample_total_iff]). *)
Definition semi_random_sample : Z -> Z -> M rng (list Z) :=
  semi_random_sample_fuel 1000.

(** The sampler's domain, and the number of blocks per side the code uses. *)
Definition in_domain (N K : Z) : Prop := 1 <= Z.sqrt K <= N.

Definition block_size (N K : Z) : Z := N / Z.sqrt K.

Definition block_count (N K : Z) : Z := Z.quot N (block_size N K).


(** A flat index of the [N] x [N] grid. *)
Definition in_grid (N p : Z) : Prop := 0 <= p < N * N.

(** [p] is the flat index of a pixel of block [(i, j)], blocks having side
    [sz]. *)
Definition in_block (N sz i j p : Z) : Prop :=
  exists x y, p = x * N + y /\
    i * sz <= x < (i + 1) * sz /\ j * sz <= y < (j + 1) * sz.

(** The points of the blocked phase, block after block: the point at
    position [i * steps + j] is a pixel of block [(i, j)]. *)
Definition one_per_block (N sz : Z) (steps : nat) (points : list Z) : Prop :=
  length points = (steps * steps)%nat /\
  forall i j, (i < steps)%nat -> (j < steps)%nat ->
    exists p, points !! (i * steps + j)%nat = Some p /\
              in_block N sz (Z.of_nat i) (Z.of_nat j) p.

(** ** Strings, lists and dicts as the pipeline uses them *)


(** [s.split('/')[-1]] *)
Fixpoint has_slash (s : string) : bool :=
  match s with
  | EmptyString => false
  | String c s' => if Ascii.eqb c "/"%char then true else has_slash s'
  end.

Fixpoint last_component (s : string) : string :=
  match s with
  | EmptyString => EmptyString
  | String c s' =>
      if Ascii.eqb c "/"%char then last_component s'
      else if has_slash s' then last_component s' else s
  end.

(** [s[:-n]] for a positive [n] *)
Definition drop_last (n : nat) (s : string) : string :=
  String.substring 0 (String.length s - n) s.

(** [l[::k]] *)
Definition every_nth {A} (k : nat) (l : list A) : list A :=
  omap (fun i => l !! (i * k)%nat) (seq 0 (length l)).

(** [l.sort()] on a list of strings *)
Module StringOrder <: TotalLeBool.
Definition t := string.
Definition leb := String.leb.
Definition leb_total := String.leb_total.
End StringOrder.

Module StringSort := Sort StringOrder.

Definition sorted (l : list string) : list string := StringSort.sort l.

(** A Python dict with string keys, in insertion order (the order of the
    columns of a [DataFrame] built from it). *)
Abbreviation pydict A := (list (string * A)) (only parsing).

Fixpoint dict_get {A} (k : string) (d : pydict A) : option A :=
  match d with
  | [] => None
  | (k', v) :: d' => if String.eqb k k' then Some v else dict_get k d'
  end.

(** [d[k] = v] *)
Fixpoint dict_set {A} (k : string) (v : A) (d : pydict A) : pydict A :=
  match d with
  | [] => [(k, v)]
  | (k', v') :: d' =>
      if String.eqb k k' then (k, v) :: d' else (k', v') :: dict_set k v d'
  end.

(** [d[k] += l] *)
Definition dict_extend {A} (k : string) (l : list A) (d : pydict (list A))
  : outcome (pydict (list A)) :=
  match dict_get k d with
  | Some old => Ok (dict_set k (old ++ l) d)
  | None => Raise KeyError
  end.

(** ** numpy arrays *)

(** A float: a rational number, or NaN. *)
Definition cell : Type := option Qc.

Definition cell_sub (a b : cell) : cell :=
  match a, b with
  | Some x, Some y => Some (x - y)%Qc
  | _, _ => None
  end.

(** The position an index denotes in an array of [n] elements: negative
    indices count from the end. *)
Definition norm_index (n i : Z) : option nat :=
  if (0 <=? i) && (i <? n) then Some (Z.to_nat i)
  else if (- n <=? i) && (i <? 0) then Some (Z.to_nat (i + n))
  else None.

(** [arr[rand]] for a list of indices [rand] *)
Definition np_take {A} (arr : list A) (rand : list Z) : outcome (list A) :=
  match mapM (fun i => norm_index (len arr) i ≫= fun k => arr !! k) rand with
  | Some l => Ok l
  | None => Raise IndexError
  end.

(** [arr[rand] = v] *)
Definition np_put {A} (arr : list A) (rand : list Z) (v : A)
  : outcome (list A) :=
  match mapM (norm_index (len arr)) rand with
  | Some ks => Ok (foldl (fun a k => <[k := v]> a) arr ks)
  | None => Raise IndexError
  end.

(** [np.zeros((n, n)).flatten()] *)
Definition np_zeros_flat (n : Z) : outcome (list Z) :=
  if n <? 0 then Raise ValueError else Ok (replicate (Z.to_nat (n * n)) 0).

(** [a - b] and [a - c], element by element *)
Definition np_sub (a b : list cell) : outcome (list cell) :=
  if len a =? len b then Ok (zip_with cell_sub a b)
  else Raise ValueError.

Definition np_sub_scalar (a : list cell) (c : cell) : list cell :=
  (fun x => cell_sub x c) <$> a.

(** [np.nanmean(a)]: the mean of the values that are not NaN, NaN when
    there is none. *)
Definition valid_values (a : list cell) : list Qc := omap id a.

Definition Qc_sum (l : list Qc) : Qc := foldr Qcplus 0%Qc l.

Definition mean_of (l : list Qc) : Qc :=
  (Qc_sum l / Qc_of_Z (len l))%Qc.

Definition np_nanmean (a : list cell) : cell :=
  match valid_values a with
  | [] => None
  | v => Some (mean_of v)
  end.

(** [flat.reshape((n, n))]: rows of [n] consecutive elements. *)
Fixpoint chunks {A} (rows width : nat) (l : list A) : list (list A) :=
  match rows with
  | O => []
  | S r => take width l :: chunks r width (drop width l)
  end.

Definition np_reshape {A} (n : Z) (flat : list A) : outcome (list (list A)) :=
  if (0 <=? n) && (len flat =? n * n)
  then Ok (chunks (Z.to_nat n) (Z.to_nat n) flat)
  else Raise ValueError.

(** The unit offset of line 128. *)
Definition kelvin_offset : Qc := Q2Qc (27316 # 100).

(** ** pandas DataFrames *)

(** An entry of a column: a value, or a row label moved into a column by
    [reset_index]. *)
Inductive entry (A : Type) : Type :=
| Val (a : A)
| Idx (z : Z).
Arguments Val {A} a.
Arguments Idx {A} z.

Record DataFrame (A : Type) : Type := {
  df_index : list Z;
  df_columns : pydict (list (entry A))
}.
Arguments df_index {A} d.
Arguments df_columns {A} d.

(** [df.columns] *)
Definition df_names {A} (df : DataFrame A) : list string := (df_columns df).*1.

(** [len(df)] *)
Definition df_len {A} (df : DataFrame A) : Z := len (df_index df).

(** [pd.DataFrame(d)] for a dict of lists: the columns are the keys in
    insertion order; lists of different lengths raise [ValueError]. *)
Definition pd_DataFrame {A} (d : pydict (list A)) : outcome (DataFrame A) :=
  match d with
  | [] => Ok {| df_index := []; df_columns := [] |}
  | (_, c) :: _ =>
      if forallb (fun kc => len kc.2 =? len c) d
      then Ok {| df_index := py_range (len c);
                  df_columns :=
                    (fun kc : string * list A => (kc.1, Val <$> kc.2)) <$> d |}
      else Raise ValueError
  end.

(** [df[col]] *)
Definition df_col {A} (col : string) (df : DataFrame A)
  : outcome (list (entry A)) :=
  match dict_get col (df_columns df) with
  | Some c => Ok c
  | None => Raise KeyError
  end.

(** [df[col][label]]: the entry of the row labelled [label]. *)
Fixpoint label_pos (label : Z) (index : list Z) : option nat :=
  match index with
  | [] => None
  | l :: index' => if l =? label then Some O else S <$> label_pos label index'
  end.

Definition df_at {A} (col : string) (label : Z) (df : DataFrame A)
  : outcome (entry A) :=
  c <~ df_col col df ;;
  match label_pos label (df_index df) ≫= fun p => c !! p with
  | Some e => Ok e
  | None => Raise KeyError
  end.

(** The rows kept by a boolean mask. *)
Fixpoint select {A} (keep : list bool) (l : list A) : list A :=
  match keep, l with
  | b :: keep', x :: l' => if b then x :: select keep' l' else select keep' l'
  | _, _ => []
  end.

Definition df_select {A} (keep : list bool) (df : DataFrame A) : DataFrame A :=
  {| df_index := select keep (df_index df);
     df_columns :=
       (fun kc : string * list (entry A) => (kc.1, select keep kc.2))
         <$> df_columns df |}.

(** [df[df[col] == v]] *)
Definition df_where_eq (col : string) (v : string) (df : DataFrame string)
  : outcome (DataFrame string) :=
  c <~ df_col col df ;;
  Ok (df_select
         ((fun e => match e with Val s => String.eqb s v | Idx _ => false end)
            <$> c) df).

(** [df.reset_index()]: the old labels become the first column, named
    ["index"]; [ValueError] when that name is taken. *)
Definition df_reset_index {A} (df : DataFrame A) : outcome (DataFrame A) :=
  match dict_get "index" (df_columns df) with
  | Some _ => Raise ValueError
  | None =>
      Ok {| df_index := py_range (df_len df);
             df_columns := ("index"%string, Idx <$> df_index df)
                             :: df_columns df |}
  end.

(** [df.dropna()]: the rows without a missing value. *)
Definition entry_isna (e : entry cell) : bool :=
  match e with
  | Val None => true
  | _ => false
  end.

Definition row_complete (cols : pydict (list (entry cell))) (p : nat) : bool :=
  forallb (fun kc => match kc.2 !! p with
                     | Some e => negb (entry_isna e)
                     | None => true
                     end) cols.

Definition df_dropna (df : DataFrame cell) : DataFrame cell :=
  df_select (row_complete (df_columns df) <$> seq 0 (length (df_index df))) df.

(** [df.drop(names, axis = 1)]: [KeyError] when a name is not a column. *)
Definition df_drop {A} (names : list string) (df : DataFrame A)
  : outcome (DataFrame A) :=
  if forallb (fun n => bool_decide (n ∈ df_names df)) names
  then Ok {| df_index := df_index df;
              df_columns :=
                filter (fun kc : string * list (entry A) => kc.1 ∉ names)
                       (df_columns df) |}
  else Raise KeyError.

(** ** The class RF_Correction_Model *)

Section Pipeline.

(** The file system as [glob.glob] sees it, the rasters as
    [gdal.Open(path).ReadAsArray().flatten()] returns them ([None] when the
    file cannot be opened), and scikit-learn's random forest. *)
Variable glob : string -> list string.
Variable gdal_read : string -> option (list cell).
Variable Regressor : Type.
Variable rf_fit : DataFrame cell -> list (entry cell) -> outcome Regressor.
Variable rf_predict : Regressor -> DataFrame cell -> outcome (list cell).

(** The attributes of the object; those assigned after [__init__] are
    absent ([None]) until then. *)
Record RF_Correction_Model : Type := {
  self_name : string;
  self_N : Z;
  self_features : list string;
  self_unique_flights : list string;
  self_files_df : DataFrame string;
  self_train_flights : option (list string);
  self_len_of_random_pix : option Z;
  self_RF_train_df : option (DataFrame cell);
  self_mask : option (gmap string (list (list Z)));
  self_RFModel : option Regressor
}.

(** The state the methods run in: the random generator, the object and the
    arrays written by [np.save], oldest first. *)
Record world : Type := {
  w_rng : rng;
  w_self : RF_Correction_Model;
  w_saved : list (string * list (list cell))
}.

Definition with_rng {A} (m : M rng A) : M world A :=
  fun w =>
    let '(r, g) := m (w_rng w) in
    (r, {| w_rng := g; w_self := w_self w; w_saved := w_saved w |}).

Definition get_self : M world RF_Correction_Model :=
  fun w => (Ok (w_self w), w).

Definition set_self (f : RF_Correction_Model -> RF_Correction_Model)
  : M world unit :=
  fun w =>
    (Ok tt, {| w_rng := w_rng w; w_self := f (w_self w);
               w_saved := w_saved w |}).

Definition np_save (file : string) (arr : list (list cell)) : M world unit :=
  fun w =>
    (Ok tt, {| w_rng := w_rng w; w_self := w_self w;
               w_saved := w_saved w ++ [(file, arr)] |}).

(** An attribute that may not have been assigned yet. *)
Definition attr {A} (a : option A) : outcome A :=
  match a with
  | Some x => Ok x
  | None => Raise AttributeError
  end.

(** [f.split('/')[-1][:-n]] *)
Definition basename_cut (n : nat) (f : string) : string :=
  drop_last n (last_component f).

(** Lines 66-94: [__init__]. *)
Definition init {St} (path name : string) (map_size : Z)
  : M St RF_Correction_Model :=
  let features := ["TGI"; "height"; "shade"; "real_solar"; "skyview"]%string in
  let files_dict : pydict (list string) :=
    [("IR", []); ("TGI", []); ("height", []); ("shade", []);
     ("real_solar", []); ("skyview", [])]%string in
  let temp_list := sorted (glob (path +:+ "/Output data/*.tif")) in
  let files_dict := dict_set "M1" temp_list files_dict in
  let flights := basename_cut 24 <$> temp_list in
  let unique_flights := basename_cut 26 <$> every_nth 5 temp_list in
  let files_dict := dict_set "Flight" flights files_dict in
  let files_dict :=
    dict_set "MainFlight" (basename_cut 26 <$> temp_list) files_dict in
  files_dict <- for_each unique_flights (fun name files_dict =>
    files_dict <- for_each features (fun feature files_dict =>
      let tmp_list :=
        sorted (glob (path +:+ "/Input data/cropped_" +:+ name +:+ "/"
                        +:+ feature +:+ "_*.tif")) in
      call (dict_extend feature tmp_list files_dict)) files_dict ;;
    let ir_list :=
      sorted (glob (path +:+ "/Input data/cropped_" +:+ name
                      +:+ "/*thermal_ir_*.tif")) in
    call (dict_extend "IR" ir_list files_dict)) files_dict ;;
  files_df <- call (pd_DataFrame files_dict) ;;
  ret {| self_name := name; self_N := map_size; self_features := features;
         self_unique_flights := unique_flights; self_files_df := files_df;
         self_train_flights := None; self_len_of_random_pix := None;
         self_RF_train_df := None; self_mask := None; self_RFModel := None |}.

(** [gdal.Open(p).ReadAsArray().flatten()] *)
Definition read_raster (p : entry string) : outcome (list cell) :=
  match p with
  | Val f => attr (gdal_read f)
  | Idx _ => Raise TypeError
  end.

(** [gdal.Open(subset[col][crop]).ReadAsArray().flatten()] *)
Definition crop_raster (subset : DataFrame string) (col : string)
    (crop : Z) : outcome (list cell) :=
  p <~ df_at col crop subset ;; read_raster p.

(** [subset = self.files_df[self.files_df['MainFlight'] == flight]
             .reset_index()] *)
Definition flight_subset (files_df : DataFrame string) (flight : string)
  : outcome (DataFrame string) :=
  rows <~ df_where_eq "MainFlight" flight files_df ;; df_reset_index rows.

(** The centred residual of lines 127-129, for the sampled values [m1] of
    the prior model and [ir] of the ground truth. *)
Definition pred_error (m1 ir : list cell) : outcome (list cell) :=
  d <~ np_sub m1 ir ;; Ok (np_sub_scalar d (Some kelvin_offset)).

Definition centered (pred_error_m1 : list cell) : list cell :=
  np_sub_scalar pred_error_m1 (np_nanmean pred_error_m1).

(** The sample mask of lines 114-116. *)
Definition sample_mask (n : Z) (rand : list Z) : outcome (list (list Z)) :=
  m <~ np_zeros_flat n ;;
  m <~ np_put m rand 1 ;;
  np_reshape n m.

(** The key [f'{flight}_{crop}'] *)
Definition mask_key (flight : string) (crop : Z) : string :=
  flight +:+ "_" +:+ pretty crop.

(** Lines 113-129: the body of the loop over the crops of a flight; the
    loop carries [masks] and [dctRF]. *)
Definition split_data_crop (n pixels : Z) (flight : string)
    (subset : DataFrame string) (crop : Z)
    (acc : gmap string (list (list Z)) * pydict (list cell))
  : M world (gmap string (list (list Z)) * pydict (list cell)) :=
  let '(masks, dctRF) := acc in
  rand <- with_rng (semi_random_sample n pixels) ;;
  m <- call (sample_mask n rand) ;;
  let masks := <[mask_key flight crop := m]> masks in
  tgi <- call (crop_raster subset "TGI" crop) ;;
  tgi <- call (np_take tgi rand) ;;
  dctRF <- call (dict_extend "TGI" tgi dctRF) ;;
  height <- call (crop_raster subset "height" crop) ;;
  height <- call (np_take height rand) ;;
  dctRF <- call (dict_extend "Height" height dctRF) ;;
  shade <- call (crop_raster subset "shade" crop) ;;
  shade <- call (np_take shade rand) ;;
  dctRF <- call (dict_extend "Shade" shade dctRF) ;;
  real_solar <- call (crop_raster subset "real_solar" crop) ;;
  real_solar <- call (np_take real_solar rand) ;;
  dctRF <- call (dict_extend "RealSolar" real_solar dctRF) ;;
  skyview <- call (crop_raster subset "skyview" crop) ;;
  skyview <- call (np_take skyview rand) ;;
  dctRF <- call (dict_extend "Skyview" skyview dctRF) ;;
  pred_m1 <- call (crop_raster subset "M1" crop) ;;
  pred_m1 <- call (np_take pred_m1 rand) ;;
  dctRF <- call (dict_extend "PredM1" pred_m1 dctRF) ;;
  m1 <- call (crop_raster subset "M1" crop) ;;
  m1 <- call (np_take m1 rand) ;;
  ir <- call (crop_raster subset "IR" crop) ;;
  ir <- call (np_take ir rand) ;;
  pred_error_m1 <- call (pred_error m1 ir) ;;
  dctRF <- call (dict_extend "PredErrorM1" (centered pred_error_m1) dctRF) ;;
  ret (masks, dctRF).

Definition dctRF_empty : pydict (list cell) :=
  [("PredM1", []); ("PredErrorM1", []); ("TGI", []); ("Height", []);
   ("Shade", []); ("RealSolar", []); ("Skyview", [])]%string.

(** Lines 110-129: the two loops. *)
Definition split_data_loops (self : RF_Correction_Model) (pixels : Z)
    (train_flights : list string)
  : M world (gmap string (list (list Z)) * pydict (list cell)) :=
  for_each train_flights (fun flight acc =>
    subset <- call (flight_subset (self_files_df self) flight) ;;
    for_each (py_range (df_len subset))
      (split_data_crop (self_N self) pixels flight subset) acc)
    (∅, dctRF_empty).

(** Lines 96-136: [split_data]. *)
Definition split_data (pixels : Z) (train_set_maps : list string)
  : M world unit :=
  set_self (fun o =>
    {| self_name := self_name o; self_N := self_N o;
       self_features := self_features o;
       self_unique_flights := self_unique_flights o;
       self_files_df := self_files_df o;
       self_train_flights := Some train_set_maps;
       self_len_of_random_pix := Some pixels;
       self_RF_train_df := self_RF_train_df o; self_mask := self_mask o;
       self_RFModel := self_RFModel o |}) ;;;
  self <- get_self ;;
  acc <- split_data_loops self pixels train_set_maps ;;
  train_df_rf <- call (pd_DataFrame acc.2) ;;
  let train_df_rf := df_dropna train_df_rf in
  train_df_rf <- call (df_reset_index train_df_rf) ;;
  set_self (fun o =>
    {| self_name := self_name o; self_N := self_N o;
       self_features := self_features o;
       self_unique_flights := self_unique_flights o;
       self_files_df := self_files_df o;
       self_train_flights := self_train_flights o;
       self_len_of_random_pix := self_len_of_random_pix o;
       self_RF_train_df := Some train_df_rf; self_mask := Some acc.1;
       self_RFModel := self_RFModel o |}).

(** Line 142: the feature matrix of the fit. *)
Definition train_features (RF_train_df : DataFrame cell)
  : outcome (DataFrame cell) :=
  df_drop ["index"; "PredErrorM1"]%string RF_train_df.

(** Lines 138-153: [trainRF]; the score and the importances, which no
    other method reads, and the plot are left out. *)
Definition trainRF : M world unit :=
  self <- get_self ;;
  RF_train_df <- call (attr (self_RF_train_df self)) ;;
  X <- call (train_features RF_train_df) ;;
  y <- call (df_col "PredErrorM1" RF_train_df) ;;
  rf_model <- call (rf_fit X y) ;;
  y_pred <- call (rf_predict rf_model X) ;;
  set_self (fun o =>
    {| self_name := self_name o; self_N := self_N o;
       self_features := self_features o;
       self_unique_flights := self_unique_flights o;
       self_files_df := self_files_df o;
       self_train_flights := self_train_flights o;
       self_len_of_random_pix := self_len_of_random_pix o;
       self_RF_train_df := self_RF_train_df o; self_mask := self_mask o;
       self_RFModel := Some rf_model |}).

(** Lines 183-185: the feature table of one crop. *)
Definition test_table (pred_m1 tgi height shade real_solar skyview : list cell)
  : pydict (list cell) :=
  [("PredM1", pred_m1); ("TGI", tgi); ("Height", height); ("Shade", shade);
   ("RealSolar", real_solar); ("Skyview", skyview)]%string.

(** Line 188: the name of the file a correction map is saved to. *)
Definition correction_file (path sub_flight : string) : string :=
  path +:+ "/Output data/" +:+ drop_last 4 (last_component sub_flight)
       +:+ "_Correction_map.npy".

(** Lines 175-188: the body of the loop over the crops of a flight. *)
Definition test_crop (self : RF_Correction_Model) (path : string)
    (subset : DataFrame string) (crop : Z) (sub_flight : entry string)
  : M world unit :=
  sub_flight <- call (match sub_flight with
                      | Val f => Ok f
                      | Idx _ => Raise AttributeError
                      end) ;;
  tgi <- call (crop_raster subset "TGI" crop) ;;
  height <- call (crop_raster subset "height" crop) ;;
  shade <- call (crop_raster subset "shade" crop) ;;
  real_solar <- call (crop_raster subset "real_solar" crop) ;;
  skyview <- call (crop_raster subset "skyview" crop) ;;
  pred_m1 <- call (crop_raster subset "M1" crop) ;;
  dataRF <- call (pd_DataFrame
                    (test_table pred_m1 tgi height shade real_solar skyview)) ;;
  RFModel <- call (attr (self_RFModel self)) ;;
  prediction <- call (rf_predict RFModel dataRF) ;;
  m2_map <- call (np_reshape (self_N self) prediction) ;;
  np_save (correction_file path sub_flight) m2_map.

(** [enumerate(l)] *)
Definition enumerate {A} (l : list A) : list (Z * A) :=
  imap (fun i a => (Z.of_nat i, a)) l.

(** Lines 170-188: the body of the loop over the flights. *)
Definition test_flight (self : RF_Correction_Model) (path flight : string)
  : M world unit :=
  train_flights <- call (attr (self_train_flights self)) ;;
  if bool_decide (flight ∈ train_flights) then ret tt
  else
    subset <- call (flight_subset (self_files_df self) flight) ;;
    m1 <- call (df_col "M1" subset) ;;
    for_each (enumerate m1)
      (fun cs _ => test_crop self path subset cs.1 cs.2) tt.

(** Lines 165-188: [test]. *)
Definition test (path : string) : M world unit :=
  self <- get_self ;;
  for_each (self_unique_flights self)
    (fun flight _ => test_flight self path flight) tt.

End Pipeline.

Arguments self_name {Regressor} r.
Arguments self_N {Regressor} r.
Arguments self_features {Regressor} r.
Arguments self_unique_flights {Regressor} r.
Arguments self_files_df {Regressor} r.
Arguments self_train_flights {Regressor} r.
Arguments self_len_of_random_pix {Regressor} r.
Arguments self_RF_train_df {Regressor} r.
Arguments self_mask {Regressor} r.
Arguments self_RFModel {Regressor} r.
Arguments w_rng {Regressor} w.
Arguments w_self {Regressor} w.
Arguments w_saved {Regressor} w.

Arguments with_rng {Regressor A} m.
Arguments get_self {Regressor}.
Arguments set_self {Regressor} f.
Arguments np_save {Regressor} file arr.
Arguments init glob {Regressor St} path name map_size.
Arguments split_data_crop gdal_read {Regressor} n pixels flight subset crop acc.
Arguments split_data_loops gdal_read {Regressor} self pixels train_flights.
Arguments split_data gdal_read {Regressor} pixels train_set_maps.
Arguments trainRF {Regressor} rf_fit rf_predict.
Arguments test_crop gdal_read {Regressor} rf_predict self path subset crop
  sub_flight.
Arguments test_flight gdal_read {Regressor} rf_predict self path flight.
Arguments test gdal_read {Regressor} rf_predict path.

(** ** Vocabulary of the statements *)

(** [gdal.Open(subset[col][crop]).ReadAsArray().flatten()[rand]] *)
Definition sampled (gdal_read : string -> option (list cell))
    (subset : DataFrame string) (col : string) (crop : Z) (rand : list Z)
  : outcome (list cell) :=
  a <~ crop_raster gdal_read subset col crop ;; np_take a rand.

(** [prior - truth - 273.16] for one pixel. *)
Definition residual (prior truth : cell) : cell :=
  cell_sub (cell_sub prior truth) (Some kelvin_offset).

(** The rows a crop adds to column [col] of [dctRF]. *)
Definition grows_by {A} (col : string) (rows : list A)
    (before after : pydict (list A)) : Prop :=
  exists old, dict_get col before = Some old /\
              dict_get col after = Some (old ++ rows).

(** The number of cells of a mask that are set. *)
Definition ones (m : list (list Z)) : nat :=
  length (filter (fun v => v = 1) (concat m)).

(** The entry of row [r] and column [c] of a grid. *)
Definition grid_at {A} (m : list (list A)) (r c : nat) : option A :=
  m !! r ≫= fun row => row !! c.

(** The raster roles a crop of the training set reads, and what makes a
    crop readable: every role has a file that opens and holds at least
    [n * n] cells. *)
Definition raster_roles : list string :=
  ["TGI"; "height"; "shade"; "real_solar"; "skyview"; "M1"; "IR"]%string.

Definition crop_readable (gdal_read : string -> option (list cell))
    (subset : DataFrame string) (crop n : Z) : Prop :=
  forall col, col ∈ raster_roles ->
    exists a, crop_raster gdal_read subset col crop = Ok a /\ n * n <= len a.

(** ** A small catalog for the examples

    Two flights, [A] and [B], of five crops each, laid out as [__init__]
    expects; every raster is 2 x 2. *)

Definition example_crops : list string := ["0"; "1"; "2"; "3"; "4"]%string.

Definition example_m1 (flight : string) : list string :=
  (fun c => "/data/Output data/" +:+ flight +:+ "_" +:+ c
              +:+ "_physical_model_v001.tif") <$> example_crops.

Definition example_feature (flight feature : string) : list string :=
  (fun c => "/data/Input data/cropped_" +:+ flight +:+ "/" +:+ feature
              +:+ "_" +:+ c +:+ ".tif") <$> example_crops.

Definition example_ir (flight : string) : list string :=
  (fun c => "/data/Input data/cropped_" +:+ flight +:+ "/" +:+ flight
              +:+ "_thermal_ir_" +:+ c +:+ ".tif") <$> example_crops.

Definition example_fs : pydict (list string) :=
  ("/data/Output data/*.tif"%string, example_m1 "B" ++ example_m1 "A")
  :: (["A"; "B"]%string ≫= fun f =>
        ("/data/Input data/cropped_" +:+ f +:+ "/*thermal_ir_*.tif",
         example_ir f)
        :: ((fun feature =>
               ("/data/Input data/cropped_" +:+ f +:+ "/" +:+ feature
                  +:+ "_*.tif", example_feature f feature))
              <$> ["TGI"; "height"; "shade"; "real_solar"; "skyview"]%string)).

Definition example_glob (pattern : string) : list string :=
  default [] (dict_get pattern example_fs).

Definition Qcell (z : Z) : cell := Some (Qc_of_Z z).

Definition example_gdal (file : string) : option (list cell) :=
  if String.prefix "/data/Output data/" file
  then Some [Qcell 280; Qcell 281; Qcell 282; Qcell 283]
  else if String.prefix "TGI_" (last_component file)
  then Some [Qcell 1; Qcell 2; Qcell 3; Qcell 4]
  else if String.prefix "/data/Input data/" file
  then Some [Qcell 5; Qcell 6; Qcell 7; Qcell 9]
  else None.

(** A stand-in for the fitted forest: it remembers the columns it was
    fitted on and predicts the prior-model column back. *)
Definition example_fit (X : DataFrame cell) (y : list (entry cell))
  : outcome (list string) := Ok (df_names X).

Definition example_predict (model : list string) (X : DataFrame cell)
  : outcome (list cell) :=
  if bool_decide (df_names X = model)
  then c <~ df_col "PredM1" X ;;
       Ok ((fun e => match e with Val v => v | Idx z => Qcell z end) <$> c)
  else Raise ValueError.

Definition example_rng : rng := {| rng_draws := fun k => Z.of_nat k; rng_pos := 0 |}.

Definition example_init : outcome (RF_Correction_Model (list string)) :=
  (init example_glob (St := unit) "/data" "afterML" 2 tt).1.

Definition empty_model : RF_Correction_Model (list string) :=
  {| self_name := ""; self_N := 0; self_features := [];
     self_unique_flights := [];
     self_files_df := {| df_index := []; df_columns := [] |};
     self_train_flights := None; self_len_of_random_pix := None;
     self_RF_train_df := None; self_mask := None; self_RFModel := None |}.

(** The object [__init__] builds on the example catalog, and the rows of
    flight [A]. *)
Definition example_self : RF_Correction_Model (list string) :=
  Eval vm_compute in
  match example_init with
  | Ok o => o
  | _ => empty_model
  end.

Definition example_subset : DataFrame string :=
  Eval vm_compute in
  match flight_subset (self_files_df example_self) "A" with
  | Ok d => d
  | _ => {| df_index := []; df_columns := [] |}
  end.

Definition example_world : world (list string) :=
  {| w_rng := example_rng; w_self := example_self; w_saved := [] |}.

(** A statement that leaves the object and the saved files alone. *)
Definition keeps {R A} (m : M (world R) A) : Prop :=
  forall w, w_self (m w).2 = w_self w /\ w_saved (m w).2 = w_saved w.

(** Every role of the crop has a file that opens, whatever its size. *)
Definition crop_opens (gdal_read : string -> option (list cell))
    (subset : DataFrame string) (crop : Z) : Prop :=
  forall col, col ∈ raster_roles ->
    exists a, crop_raster gdal_read subset col crop = Ok a.

(** The object once [split_data] has recorded its arguments (lines
    102-103). *)
Definition split_data_begin {R} (pixels : Z) (train_set_maps : list string)
    (w : world R) : world R :=
  {| w_rng := w_rng w;
     w_self :=
       {| self_name := self_name (w_self w); self_N := self_N (w_self w);
          self_features := self_features (w_self w);
          self_unique_flights := self_unique_flights (w_self w);
          self_files_df := self_files_df (w_self w);
          self_train_flights := Some train_set_maps;
          self_len_of_random_pix := Some pixels;
          self_RF_train_df := self_RF_train_df (w_self w);
          self_mask := self_mask (w_self w);
          self_RFModel := self_RFModel (w_self w) |};
     w_saved := w_saved w |}.

(** The example catalog with one raster of the wrong shape: the texture
    raster of crop 0 of flight [A] has three cells. *)
Definition example_gdal_short (file : string) : option (list cell) :=
  if String.eqb file "/data/Input data/cropped_A/TGI_0.tif"
  then Some [Qcell 1; Qcell 2; Qcell 3]
  else example_gdal file.

(** ** What [__init__] finds *)

Section Catalog.

Variable glob : string -> list string.
Variable path : string.

(** [temp_list], [self.unique_flights] and the files found for a feature
    role and for the ground truth, flight after flight. *)
Definition m1_files : list string :=
  sorted (glob (path +:+ "/Output data/*.tif")).

Definition init_flights : list string :=
  basename_cut 26 <$> every_nth 5 m1_files.

Definition feature_files (feature : string) : list string :=
  init_flights ≫= fun name =>
    sorted (glob (path +:+ "/Input data/cropped_" +:+ name +:+ "/"
                    +:+ feature +:+ "_*.tif")).

Definition ir_files : list string :=
  init_flights ≫= fun name =>
    sorted (glob (path +:+ "/Input data/cropped_" +:+ name
                    +:+ "/*thermal_ir_*.tif")).

(** The lists [pd.DataFrame] is given, in the order of the keys. *)
Definition files_dict_final : pydict (list string) :=
  [("IR", ir_files); ("TGI", feature_files "TGI");
   ("height", feature_files "height"); ("shade", feature_files "shade");
   ("real_solar", feature_files "real_solar");
   ("skyview", feature_files "skyview"); ("M1", m1_files);
   ("Flight", basename_cut 24 <$> m1_files);
   ("MainFlight", basename_cut 26 <$> m1_files)]%string.

(** Every role has, in total, as many files as there are prior-model
    files. *)
Definition aligned : Prop :=
  Forall (fun kc : string * list string => length kc.2 = length m1_files)
    files_dict_final.

End Catalog.

(** The example catalog with a gap: flight [A] has no sky-view file, and
    the folder of flight [B] holds ten. *)
Definition example_fs_gap : pydict (list string) :=
  dict_set "/data/Input data/cropped_A/skyview_*.tif" []
    (dict_set "/data/Input data/cropped_B/skyview_*.tif"
       ((fun c => "/data/Input data/cropped_B/skyview_" +:+ c +:+ ".tif")
          <$> ["0"; "1"; "2"; "3"; "4"; "5"; "6"; "7"; "8"; "9"]%string)
       example_fs).

Definition example_glob_gap (pattern : string) : list string :=
  default [] (dict_get pattern example_fs_gap).

(** The columns of [dctRF] all hold [L] values. *)
Definition columns_of_length (L : nat) (dctRF : pydict (list cell)) : Prop :=
  forall col, col ∈ dctRF_empty.*1 ->
    exists v, dict_get col dctRF = Some v /\ length v = L.

(** The crops of a flight can all be read. *)
Definition flight_readable {R} (gdal_read : string -> option (list cell))
    (self : RF_Correction_Model R) (flight : string) : Prop :=
  exists subset,
    flight_subset (self_files_df self) flight = Ok subset /\
    forall crop, crop ∈ py_range (df_len subset) ->
      crop_readable gdal_read subset crop (self_N self).

(** The columns of the feature matrix, at training and at inference. *)
Definition feature_columns : list string :=
  ["PredM1"; "TGI"; "Height"; "Shade"; "RealSolar"; "Skyview"]%string.

(** ** What [test] saves, as a list *)

Fixpoint omapM {A B} (f : A -> outcome B) (l : list A) : outcome (list B) :=
  match l with
  | [] => Ok []
  | a :: l' => b <~ f a ;; k <~ omapM f l' ;; Ok (b :: k)
  end.

Section HeldOut.

Variable gdal_read : string -> option (list cell).
Variable Regressor : Type.
Variable rf_predict : Regressor -> DataFrame cell -> outcome (list cell).
Variable self : RF_Correction_Model Regressor.
Variable path : string.

(** The file and the correction map of one crop (lines 175-188, without
    the write). *)
Definition crop_map (subset : DataFrame string) (crop : Z)
    (sub_flight : entry string) : outcome (string * list (list cell)) :=
  sub_flight <~ match sub_flight with
                | Val f => Ok f
                | Idx _ => Raise AttributeError
                end ;;
  tgi <~ crop_raster gdal_read subset "TGI" crop ;;
  height <~ crop_raster gdal_read subset "height" crop ;;
  shade <~ crop_raster gdal_read subset "shade" crop ;;
  real_solar <~ crop_raster gdal_read subset "real_solar" crop ;;
  skyview <~ crop_raster gdal_read subset "skyview" crop ;;
  pred_m1 <~ crop_raster gdal_read subset "M1" crop ;;
  dataRF <~ pd_DataFrame
              (test_table pred_m1 tgi height shade real_solar skyview) ;;
  RFModel <~ attr (self_RFModel self) ;;
  prediction <~ rf_predict RFModel dataRF ;;
  m2_map <~ np_reshape (self_N self) prediction ;;
  Ok (correction_file path sub_flight, m2_map).

(** The files and maps of one flight: none for a training flight. *)
Definition flight_maps (flight : string)
  : outcome (list (string * list (list cell))) :=
  train_flights <~ attr (self_train_flights self) ;;
  if bool_decide (flight ∈ train_flights) then Ok []
  else
    subset <~ flight_subset (self_files_df self) flight ;;
    m1 <~ df_col "M1" subset ;;
    omapM (fun cs => crop_map subset cs.1 cs.2) (enumerate m1).

Definition held_out_maps : outcome (list (string * list (list cell))) :=
  per_flight <~ omapM flight_maps (self_unique_flights self) ;;
  Ok (concat per_flight).

End HeldOut.

Arguments crop_map gdal_read {Regressor} rf_predict self path subset crop
  sub_flight.
Arguments flight_maps gdal_read {Regressor} rf_predict self path flight.
Arguments held_out_maps gdal_read {Regressor} rf_predict self path.

(** The world after [np.save] has written [maps]. *)
Definition saved_more {R} (w : world R)
    (maps : list (string * list (list cell))) : world R :=
  {| w_rng := w_rng w; w_self := w_self w; w_saved := w_saved w ++ maps |}.

(** [fm] is the file and the map of crop [cs]: the file is named after the
    prior-model file, and the map is the prediction for the full rasters of
    the crop, laid out row by row. *)
Definition is_correction_map {R} (gdal_read : string -> option (list cell))
    (rf_predict : R -> DataFrame cell -> outcome (list cell))
    (self : RF_Correction_Model R) (path : string)
    (subset : DataFrame string) (cs : Z * entry string)
    (fm : string * list (list cell)) : Prop :=
  exists f tgi height shade real_solar skyview pred_m1 dataRF model prediction,
    cs.2 = Val f /\ fm.1 = correction_file path f /\
    crop_raster gdal_read subset "TGI" cs.1 = Ok tgi /\
    crop_raster gdal_read subset "height" cs.1 = Ok height /\
    crop_raster gdal_read subset "shade" cs.1 = Ok shade /\
    crop_raster gdal_read subset "real_solar" cs.1 = Ok real_solar /\
    crop_raster gdal_read subset "skyview" cs.1 = Ok skyview /\
    crop_raster gdal_read subset "M1" cs.1 = Ok pred_m1 /\
    pd_DataFrame (test_table pred_m1 tgi height shade real_solar skyview)
      = Ok dataRF /\
    self_RFModel self = Some model /\
    rf_predict model dataRF = Ok prediction /\
    len prediction = self_N self * self_N self /\
    length fm.2 = Z.to_nat (self_N self) /\
    forall r c, (r < Z.to_nat (self_N self))%nat ->
      (c < Z.to_nat (self_N self))%nat ->
      grid_at fm.2 r c = prediction !! (r * Z.to_nat (self_N self) + c)%nat.

(** The maps of a flight: none for a training flight, one per catalog row
    of the flight otherwise, in the order of the rows. *)
Definition is_flight_maps {R} (gdal_read : string -> option (list cell))
    (rf_predict : R -> DataFrame cell -> outcome (list cell))
    (self : RF_Correction_Model R) (path : string) (flight : string)
    (maps : list (string * list (list cell))) : Prop :=
  exists train, self_train_flights self = Some train /\
    (flight ∈ train -> maps = []) /\
    (flight ∉ train ->
     exists subset m1,
       flight_subset (self_files_df self) flight = Ok subset /\
       df_col "M1" subset = Ok m1 /\
       Forall2 (is_correction_map gdal_read rf_predict self path subset)
         (enumerate m1) maps).

(** The example object once flight [A] has been used for training. *)
Definition example_trained_self : RF_Correction_Model (list string) :=
  {| self_name := self_name example_self; self_N := self_N example_self;
     self_features := self_features example_self;
     self_unique_flights := self_unique_flights example_self;
     self_files_df := self_files_df example_self;
     self_train_flights := Some ["A"%string];
     self_len_of_random_pix := Some 4;
     self_RF_train_df := None; self_mask := None;
     self_RFModel := Some feature_columns |}.

Definition example_trained : world (list string) :=
  {| w_rng := example_rng; w_self := example_trained_self; w_saved := [] |}.

Definition example_maps : list (string * list (list cell)) :=
  Eval vm_compute in
  match held_out_maps example_gdal example_predict example_trained_self
          "/out" with
  | Ok l => l
  | _ => []
  end.

(** The example object with a grid side that the rasters do not have. *)
Definition example_trained_self_3 : RF_Correction_Model (list string) :=
  {| self_name := self_name example_self; self_N := 3;
     self_features := self_features example_self;
     self_unique_flights := self_unique_flights example_self;
     self_files_df := self_files_df example_self;
     self_train_flights := Some ["A"%string];
     self_len_of_random_pix := Some 4;
     self_RF_train_df := None; self_mask := None;
     self_RFModel := Some feature_columns |}.

Definition example_subset_B : DataFrame string :=
  Eval vm_compute in
  match flight_subset (self_files_df example_self) "B" with
  | Ok d => d
  | _ => {| df_index := []; df_columns := [] |}
  end.

(** The example object when every flight of the catalog is a training
    flight, and when a training table of one row is stored. *)
Definition example_all_trained : world (list string) :=
  {| w_rng := example_rng;
     w_self :=
       {| self_name := self_name example_self; self_N := self_N example_self;
          self_features := self_features example_self;
          self_unique_flights := self_unique_flights example_self;
          self_files_df := self_files_df example_self;
          self_train_flights := Some (self_unique_flights example_self);
          self_len_of_random_pix := Some 4;
          self_RF_train_df := None; self_mask := None;
          self_RFModel := Some feature_columns |};
     w_saved := [] |}.

Definition example_train_df : DataFrame cell :=
  {| df_index := [0];
     df_columns :=
       ("index"%string, [Idx 0])
       :: ((fun kc : string * list cell => (kc.1, [Val (Qcell 1)]))
             <$> dctRF_empty) |}.

Definition example_with_table : world (list string) :=
  {| w_rng := example_rng;
     w_self :=
       {| self_name := self_name example_self; self_N := self_N example_self;
          self_features := self_features example_self;
          self_unique_flights := self_unique_flights example_self;
          self_files_df := self_files_df example_self;
          self_train_flights := Some ["A"%string];
          self_len_of_random_pix := Some 4;
          self_RF_train_df := Some example_train_df; self_mask := None;
          self_RFModel := None |};
     w_saved := [] |}.

(** The generator [g'] is [g] after [k] more draws. *)
Definition rng_advanced (g : rng) (k : nat) (g' : rng) : Prop :=
  rng_draws g' = rng_draws g /\ rng_pos g' = (rng_pos g + k)%nat.

(** A statement that leaves the generator and the object alone, and only
    adds files to the saved ones, whatever its outcome. *)
Definition appends_only {R A} (m : M (world R) A) : Prop :=
  forall w, w_rng (m w).2 = w_rng w /\ w_self (m w).2 = w_self w /\
            exists maps, w_saved (m w).2 = w_saved w ++ maps.

(** A flat index whose row and column are both below [bound]. *)
Definition within (N bound p : Z) : Prop :=
  exists x y, p = x * N + y /\ 0 <= x < bound /\ 0 <= y < bound.
(** * Properties *)

(** ** The monad *)

Lemma bind_ok {St A B} (m : M St A) (k : A -> M St B) s a s' :
  m s = (Ok a, s') -> bind m k s = k a s'.
Proof. intros H. unfold bind. by rewrite H. Qed.

Lemma bind_ret {St A B} (a : A) (k : A -> M St B) s :
  bind (ret a) k s = k a s.
Proof. reflexivity. Qed.

Lemma bind_raise {St A B} (m : M St A) (k : A -> M St B) s e s' :
  m s = (Raise e, s') -> bind m k s = (Raise e, s').
Proof. intros H. unfold bind. by rewrite H. Qed.

Lemma bind_ok_inv {St A B} (m : M St A) (k : A -> M St B) s b s2 :
  bind m k s = (Ok b, s2) ->
  exists a s1, m s = (Ok a, s1) /\ k a s1 = (Ok b, s2).
Proof.
  unfold bind. destruct (m s) as [[a|e|] s1]; intros H; try discriminate.
  by exists a, s1.
Qed.

(** A loop whose body always returns, returns; [P k] is the invariant after
    [k] rounds. *)
Lemma for_each_inv {St A V} (P : nat -> V -> Prop) (l : list A)
    (body : A -> V -> M St V) (v0 : V) (s0 : St) :
  P 0%nat v0 ->
  (forall k a v s, l !! k = Some a -> P k v ->
     exists v' s', body a v s = (Ok v', s') /\ P (S k) v') ->
  exists v' s', for_each l body v0 s0 = (Ok v', s') /\ P (length l) v'.
Proof.
  revert P v0 s0. induction l as [|a l IH]; intros P v0 s0 H0 Hstep.
  - by exists v0, s0.
  - destruct (Hstep 0%nat a v0 s0 eq_refl H0) as (v1 & s1 & E1 & H1).
    destruct (IH (fun k => P (S k)) v1 s1 H1) as (v2 & s2 & E2 & H2).
    { intros k b v s Hk Hv. exact (Hstep (S k) b v s Hk Hv). }
    exists v2, s2. split; [|done]. cbn. by rewrite (bind_ok _ _ _ _ _ E1).
Qed.

Lemma py_range_length n : length (py_range n) = Z.to_nat n.
Proof. unfold py_range. by rewrite length_fmap, length_seq. Qed.

Lemma py_range_lookup n k a :
  py_range n !! k = Some a -> a = Z.of_nat k /\ (k < Z.to_nat n)%nat.
Proof.
  unfold py_range. rewrite list_lookup_fmap.
  destruct (seq 0 (Z.to_nat n) !! k) as [m|] eqn:E; [|done].
  apply lookup_seq in E as [-> ?]. intros [= <-]. done.
Qed.

(** ** randint *)

Lemma randint_ok low high g :
  low < high ->
  exists v, randint low high g = (Ok v, snd (rng_next g)) /\ low <= v < high.
Proof.
  intros H. unfold randint.
  destruct (Z.leb_spec high low) as [?|_]; [lia|].
  cbn. eexists; split; [reflexivity|].
  pose proof (Z.mod_pos_bound (rng_draws g (rng_pos g)) (high - low)). lia.
Qed.

Lemma randint_empty low high g :
  high <= low -> randint low high g = (Raise ValueError, g).
Proof.
  intros H. unfold randint. by destruct (Z.leb_spec high low) as [_|?]; [|lia].
Qed.

(** Every pixel of the range is drawn by some generator: the draw is not
    biased towards a part of the range by the model. *)
Lemma randint_onto low high v pos :
  low <= v < high ->
  fst (randint low high {| rng_draws := fun _ => v - low; rng_pos := pos |})
  = Ok v.
Proof.
  intros H. unfold randint.
  destruct (Z.leb_spec high low) as [?|_]; [lia|].
  cbn. rewrite Z.mod_small by lia. f_equal. lia.
Qed.

(** ** The blocked phase *)

Lemma in_block_in_grid N sz steps i j p :
  0 < sz -> 0 <= i < steps -> 0 <= j < steps -> steps * sz <= N ->
  in_block N sz i j p -> in_grid N p.
Proof.
  intros Hsz Hi Hj HN (x & y & -> & Hx & Hy). unfold in_grid.
  assert ((i + 1) * sz <= steps * sz) by nia.
  assert ((j + 1) * sz <= steps * sz) by nia.
  assert (0 <= i * sz) by nia. assert (0 <= j * sz) by nia.
  nia.
Qed.

(** One row of blocks: the inner loop appends one pixel of each block
    [(i, 0)], ..., [(i, steps - 1)]. *)
Lemma blocked_row N sz steps i points g :
  0 < sz ->
  exists row g',
    for_each (py_range steps) (fun j points =>
      x <- randint (i * sz) ((i + 1) * sz) ;;
      y <- randint (j * sz) ((j + 1) * sz) ;;
      ret (points ++ [x * N + y])) points g = (Ok (points ++ row), g') /\
    length row = Z.to_nat steps /\
    forall j, (j < Z.to_nat steps)%nat ->
      exists p, row !! j = Some p /\ in_block N sz i (Z.of_nat j) p.
Proof.
  intros Hsz.
  destruct (for_each_inv
    (fun k pts => exists row, pts = points ++ row /\ length row = k /\
       forall j, (j < k)%nat ->
         exists p, row !! j = Some p /\ in_block N sz i (Z.of_nat j) p)
    (py_range steps)
    (fun j points =>
      x <- randint (i * sz) ((i + 1) * sz) ;;
      y <- randint (j * sz) ((j + 1) * sz) ;;
      ret (points ++ [x * N + y])) points g) as (pts & g' & E & row & -> & Hl & Hrow).
  - exists []. rewrite app_nil_r. split; [done|]. split; [done|]. intros; lia.
  - intros k a v s Hk (row & -> & Hl & Hrow).
    apply py_range_lookup in Hk as [-> Hk].
    destruct (randint_ok (i * sz) ((i + 1) * sz) s) as (x & Ex & Hx); [lia|].
    destruct (randint_ok (Z.of_nat k * sz) ((Z.of_nat k + 1) * sz)
                (rng_next s).2) as (y & Ey & Hy); [lia|].
    eexists _, _. split.
    { rewrite (bind_ok _ _ _ _ _ Ex), (bind_ok _ _ _ _ _ Ey). reflexivity. }
    exists (row ++ [x * N + y]). rewrite length_app, <- app_assoc. cbn.
    split; [done|]. split; [lia|]. intros j Hj.
    destruct (decide (j = length row)) as [->|Hne].
    + exists (x * N + y). split.
      * by rewrite lookup_app_r, Nat.sub_diag by lia.
      * subst k. by exists x, y.
    + destruct (Hrow j) as (p & Hp & Hb); [lia|].
      exists p. split; [|done]. by rewrite lookup_app_l by lia.
  - rewrite py_range_length in Hl, Hrow. by exists row, g'.
Qed.

(** The blocked phase returns one pixel per block pair, whatever the
    generator. *)
Lemma blocked_phase_ok N sz steps g :
  0 < sz ->
  exists points g',
    blocked_phase N sz steps g = (Ok points, g') /\
    one_per_block N sz (Z.to_nat steps) points.
Proof.
  intros Hsz. unfold blocked_phase. set (n := Z.to_nat steps).
  destruct (for_each_inv
    (fun k pts => length pts = (k * n)%nat /\
       forall i j, (i < k)%nat -> (j < n)%nat ->
         exists p, pts !! (i * n + j)%nat = Some p /\
                   in_block N sz (Z.of_nat i) (Z.of_nat j) p)
    (py_range steps)
    (fun i points =>
      for_each (py_range steps) (fun j points =>
        x <- randint (i * sz) ((i + 1) * sz) ;;
        y <- randint (j * sz) ((j + 1) * sz) ;;
        ret (points ++ [x * N + y])) points) [] g) as (pts & g' & E & Hl & Hp).
  - split; [done|]. intros; lia.
  - intros k a v s Hk [Hl Hp]. apply py_range_lookup in Hk as [-> Hk].
    destruct (blocked_row N sz steps (Z.of_nat k) v s Hsz)
      as (row & s' & E & Hrl & Hrow).
    exists (v ++ row), s'. split; [exact E|]. fold n in Hrl, Hrow.
    rewrite length_app. split; [lia|]. intros i j Hi Hj.
    destruct (decide (i = k)) as [->|Hne].
    + destruct (Hrow j Hj) as (p & Hpj & Hb). exists p. split; [|done].
      rewrite lookup_app_r by lia. by replace (k * n + j - length v)%nat with j by lia.
    + destruct (Hp i j) as (p & Hpj & Hb); [lia|done|].
      exists p. split; [|done]. rewrite lookup_app_l; [done|]. nia.
  - rewrite py_range_length in Hl, Hp. fold n in Hl, Hp. by exists pts, g'.
Qed.

Lemma one_per_block_in_grid N sz steps points :
  0 < sz -> Z.of_nat steps * sz <= N ->
  one_per_block N sz steps points -> Forall (in_grid N) points.
Proof.
  intros Hsz HN [Hl Hp]. apply Forall_lookup. intros k p Hk.
  assert (k < steps * steps)%nat as Hlt by (rewrite <- Hl; by eapply lookup_lt_Some).
  assert (0 < steps)%nat by lia.
  destruct (Hp (k / steps)%nat (k mod steps)%nat) as (p' & Hk' & Hb).
  { apply Nat.Div0.div_lt_upper_bound. lia. }
  { apply Nat.mod_upper_bound. lia. }
  replace (k / steps * steps + k mod steps)%nat with k in Hk'.
  2:{ rewrite (Nat.div_mod_eq k steps) at 1. lia. }
  assert (p' = p) as -> by congruence.
  eapply (in_block_in_grid N sz (Z.of_nat steps)); [done| | |done|exact Hb].
  - split; [lia|]. apply Nat2Z.inj_lt, Nat.Div0.div_lt_upper_bound. lia.
  - split; [lia|]. apply Nat2Z.inj_lt, Nat.mod_upper_bound. lia.
Qed.

(** ** Block arithmetic *)

Lemma block_size_pos N K : in_domain N K -> 1 <= block_size N K.
Proof.
  intros [H1 H2]. unfold block_size.
  apply Z.div_le_lower_bound; lia.
Qed.

Lemma block_count_div N K :
  in_domain N K -> block_count N K = N / block_size N K.
Proof.
  intros H. pose proof (block_size_pos N K H). destruct H.
  unfold block_count. rewrite Z.quot_div_nonneg; lia.
Qed.

Lemma block_count_fits N K :
  in_domain N K -> block_count N K * block_size N K <= N.
Proof.
  intros H. rewrite (block_count_div N K H).
  pose proof (block_size_pos N K H).
  pose proof (Z.mul_div_le N (block_size N K)). lia.
Qed.

Lemma block_count_ge N K : in_domain N K -> Z.sqrt K <= block_count N K.
Proof.
  intros H. rewrite (block_count_div N K H).
  pose proof (block_size_pos N K H). destruct H as [H1 H2].
  apply Z.div_le_lower_bound; [lia|].
  unfold block_size. pose proof (Z.mul_div_le N (Z.sqrt K)). lia.
Qed.

Lemma block_count_exact N K :
  in_domain N K -> N `mod` Z.sqrt K = 0 -> block_count N K = Z.sqrt K.
Proof.
  intros H Hm. rewrite (block_count_div N K H).
  pose proof (block_size_pos N K H). destruct H as [H1 H2].
  unfold block_size in *.
  pose proof (Z.div_mod N (Z.sqrt K)) as E. rewrite Hm in E.
  remember (N / Z.sqrt K) as q.
  replace N with (Z.sqrt K * q) by lia. apply Z.div_mul. lia.
Qed.

(** ** The top-up loop *)

Lemma top_up_ok fuel N points g :
  0 < N -> (1000 - length points <= fuel)%nat ->
  exists extra g',
    top_up fuel N points g = (Ok (points ++ extra), g') /\
    length (points ++ extra) = Nat.max (length points) 1000 /\
    Forall (in_grid N) extra.
Proof.
  intros HN. revert points g.
  induction fuel as [|fuel IH]; intros points g Hf; cbn [top_up]; unfold len;
    destruct (Z.ltb_spec (Z.of_nat (length points)) 1000) as [Hlt|Hge].
  - lia.
  - exists [], g. rewrite app_nil_r. split; [done|]. split; [lia|done].
  - destruct (randint_ok 0 N g HN) as (x & Ex & Hx).
    destruct (randint_ok 0 N (rng_next g).2 HN) as (y & Ey & Hy).
    rewrite (bind_ok _ _ _ _ _ Ex), (bind_ok _ _ _ _ _ Ey).
    destruct (IH (points ++ [x * N + y]) (rng_next (rng_next g).2).2)
      as (extra & g' & E & Hl & Hin).
    { rewrite length_app. cbn. lia. }
    exists ((x * N + y) :: extra), g'.
    rewrite <- app_assoc in E, Hl. cbn in E, Hl.
    split; [done|]. split.
    + rewrite Hl, length_app. cbn. lia.
    + constructor; [|done]. unfold in_grid. nia.
  - exists [], g. rewrite app_nil_r. split; [done|]. split; [lia|done].
Qed.

(** ** The sampler on its domain *)

(** What [semi_random_sample] returns: the points of the blocked phase,
    followed by the top-up draws. *)
Lemma semi_random_sample_spec N K g :
  in_domain N K ->
  exists blocked extra g1 g',
    blocked_phase N (block_size N K) (block_count N K) g = (Ok blocked, g1) /\
    top_up 1000 N blocked g1 = (Ok (blocked ++ extra), g') /\
    semi_random_sample N K g = (Ok (blocked ++ extra), g') /\
    one_per_block N (block_size N K) (Z.to_nat (block_count N K)) blocked /\
    length (blocked ++ extra) = Nat.max (length blocked) 1000 /\
    Forall (in_grid N) (blocked ++ extra).
Proof.
  intros H. pose proof (block_size_pos N K H) as Hsz.
  pose proof (block_count_fits N K H) as Hfit.
  pose proof (block_count_ge N K H) as Hge.
  destruct (blocked_phase_ok N (block_size N K) (block_count N K) g)
    as (blocked & g1 & Eb & Hb); [lia|].
  destruct (top_up_ok 1000 N blocked g1) as (extra & g' & Et & Hl & Hin);
    [destruct H; lia|lia|].
  exists blocked, extra, g1, g'. split; [done|]. split; [done|].
  assert (Forall (in_grid N) blocked) as Hbg.
  { eapply one_per_block_in_grid; [| |exact Hb]; [lia|].
    rewrite Z2Nat.id; [done|]. destruct H; lia. }
  split; [|split; [done|split; [done|by apply Forall_app]]].
  unfold semi_random_sample, semi_random_sample_fuel, int_sqrt, floordiv,
    int_truediv.
  destruct H as [H1 H2].
  assert (0 <= K) by (destruct (Z.le_gt_cases 0 K); [done|]; rewrite Z.sqrt_neg in H1; lia).
  destruct (Z.ltb_spec K 0); [lia|].
  rewrite bind_ret.
  destruct (Z.eqb_spec (Z.sqrt K) 0); [lia|].
  rewrite bind_ret. fold (block_size N K).
  destruct (Z.eqb_spec (block_size N K) 0); [lia|].
  rewrite bind_ret. fold (block_count N K).
  by rewrite (bind_ok _ _ _ _ _ Eb).
Qed.

(** Outside the domain the sampler raises, and where. *)
Lemma semi_random_sample_negative_count N K g :
  K < 0 -> semi_random_sample N K g = (Raise ValueError, g).
Proof.
  intros H. unfold semi_random_sample, semi_random_sample_fuel, int_sqrt.
  by destruct (Z.ltb_spec K 0); [|lia].
Qed.

Lemma semi_random_sample_zero_root N K g :
  0 <= K -> Z.sqrt K = 0 ->
  semi_random_sample N K g = (Raise ZeroDivisionError, g).
Proof.
  intros H H0. unfold semi_random_sample, semi_random_sample_fuel, int_sqrt.
  destruct (Z.ltb_spec K 0); [lia|].
  rewrite bind_ret. unfold floordiv. by rewrite H0.
Qed.

Lemma semi_random_sample_zero_block N K g :
  0 <= N < Z.sqrt K ->
  block_size N K = 0 /\
  semi_random_sample N K g = (Raise ZeroDivisionError, g).
Proof.
  intros H.
  assert (0 <= K) by (destruct (Z.le_gt_cases 0 K); [done|]; rewrite Z.sqrt_neg in H; lia).
  assert (block_size N K = 0) as E by (unfold block_size; apply Z.div_small; lia).
  split; [done|].
  unfold semi_random_sample, semi_random_sample_fuel, int_sqrt.
  destruct (Z.ltb_spec K 0); [lia|].
  rewrite bind_ret. unfold floordiv.
  destruct (Z.eqb_spec (Z.sqrt K) 0); [lia|].
  rewrite bind_ret. fold (block_size N K).
  unfold int_truediv. by rewrite E.
Qed.

(** A negative side: the block size is negative, there is at least one
    block, and its first draw is from an empty range. *)
Lemma semi_random_sample_negative_side N K g :
  N < 0 -> 1 <= Z.sqrt K ->
  semi_random_sample N K g = (Raise ValueError, g).
Proof.
  intros HN Hs.
  assert (0 <= K) by (destruct (Z.le_gt_cases 0 K); [done|]; rewrite Z.sqrt_neg in Hs; lia).
  unfold semi_random_sample, semi_random_sample_fuel, int_sqrt.
  destruct (Z.ltb_spec K 0); [lia|].
  rewrite bind_ret. unfold floordiv.
  destruct (Z.eqb_spec (Z.sqrt K) 0); [lia|].
  rewrite bind_ret.
  set (sz := N / Z.sqrt K).
  assert (sz < 0) as Hsz by (apply Z.div_lt_upper_bound; lia).
  assert (N <= sz) as Hle.
  { apply Z.div_le_lower_bound; [lia|]. nia. }
  unfold int_truediv. destruct (Z.eqb_spec sz 0); [lia|].
  rewrite bind_ret.
  set (steps := Z.quot N sz).
  assert (1 <= steps) as Hst.
  { unfold steps. rewrite <- (Z.quot_opp_opp N sz) by lia.
    rewrite Z.quot_div_nonneg by lia. apply Z.div_le_lower_bound; lia. }
  unfold blocked_phase, py_range.
  destruct (Z.to_nat steps) as [|m] eqn:En; [lia|]. cbn [seq fmap list_fmap for_each].
  erewrite bind_raise; [reflexivity|].
  erewrite bind_raise; [reflexivity|].
  erewrite bind_raise; [reflexivity|].
  erewrite bind_raise; [reflexivity|].
  apply randint_empty. cbn. lia.
Qed.

Lemma in_domain_dec N K : {in_domain N K} + {~ in_domain N K}.
Proof. unfold in_domain. destruct (decide (1 <= Z.sqrt K <= N)); [by left|by right]. Qed.

Lemma one_per_block_len N sz steps points :
  0 <= steps -> one_per_block N sz (Z.to_nat steps) points ->
  len points = steps * steps.
Proof. intros H [Hl _]. unfold len. rewrite Hl. nia. Qed.









(** ** Statements that leave the state alone *)

Lemma bind_call_inv {St A B} (r : outcome A) (k : A -> M St B) s b s2 :
  bind (call r) k s = (Ok b, s2) -> exists a, r = Ok a /\ k a s = (Ok b, s2).
Proof.
  unfold bind, call. destruct r as [a|e|]; intros H; try discriminate.
  by exists a.
Qed.

Lemma bind_call_ok {St A B} (r : outcome A) (k : A -> M St B) s a :
  r = Ok a -> bind (call r) k s = k a s.
Proof. by intros ->. Qed.

Lemma bind_call_raise {St A B} (r : outcome A) (k : A -> M St B) s e :
  r = Raise e -> bind (call r) k s = (Raise e, s).
Proof. by intros ->. Qed.

Lemma obind_ok_inv {A B} (r : outcome A) (k : A -> outcome B) b :
  obind r k = Ok b -> exists a, r = Ok a /\ k a = Ok b.
Proof. destruct r as [a|e|]; intros H; try discriminate. by exists a. Qed.

(** ** Dicts *)

Lemma dict_get_set {A} (k k' : string) (v : A) (d : pydict A) :
  dict_get k (dict_set k' v d) =
  if String.eqb k k' then Some v else dict_get k d.
Proof.
  induction d as [|[kd vd] d IH]; cbn.
  - by destruct (String.eqb_spec k k').
  - destruct (String.eqb_spec k' kd) as [->|Hne]; cbn.
    + by destruct (String.eqb_spec k kd).
    + destruct (String.eqb_spec k kd) as [->|Hne'].
      * destruct (String.eqb_spec kd k'); [congruence|done].
      * exact IH.
Qed.

Lemma dict_extend_get {A} (k k' : string) (l : list A) d d' :
  dict_extend k' l d = Ok d' ->
  dict_get k d' =
  if String.eqb k k' then (fun old => old ++ l) <$> dict_get k d
  else dict_get k d.
Proof.
  unfold dict_extend. destruct (dict_get k' d) as [old|] eqn:E; [|done].
  intros [= <-]. rewrite dict_get_set.
  destruct (String.eqb_spec k k') as [->|]; [|done]. by rewrite E.
Qed.

Lemma dict_set_keys {A} (k : string) (v : A) (d : pydict A) :
  is_Some (dict_get k d) -> (dict_set k v d).*1 = d.*1.
Proof.
  induction d as [|[kd vd] d IH]; cbn; [by intros [? ?]|].
  destruct (String.eqb_spec k kd) as [->|Hne]; [done|].
  intros H. cbn. f_equal. by apply IH.
Qed.

Lemma dict_extend_keys {A} (k : string) (l : list A) d d' :
  dict_extend k l d = Ok d' -> d'.*1 = d.*1.
Proof.
  unfold dict_extend. destruct (dict_get k d) as [old|] eqn:E; [|done].
  intros [= <-]. apply dict_set_keys. by rewrite E.
Qed.

(** ** Sums and means of rationals *)

Lemma Qc_sum_cons (x : Qc) (l : list Qc) :
  Qc_sum (x :: l) = (x + Qc_sum l)%Qc.
Proof. reflexivity. Qed.

Lemma len_cons {A} (x : A) (l : list A) : len (x :: l) = 1 + len l.
Proof. unfold len. cbn [length]. lia. Qed.

Lemma Qc_sum_shift (l : list Qc) (c : Qc) :
  Qc_sum ((fun x => x - c)%Qc <$> l) = (Qc_sum l - Qc_of_Z (len l) * c)%Qc.
Proof.
  induction l as [|x l IH].
  - replace (len (@nil Qc)) with 0 by reflexivity. rewrite Z2Qc_inj_0.
    rewrite fmap_nil. change (Qc_sum []) with 0%Qc. ring.
  - rewrite fmap_cons, !Qc_sum_cons, IH, len_cons, Z2Qc_inj_add, Z2Qc_inj_1.
    ring.
Qed.

Lemma valid_values_sub_scalar (e : list cell) (c : Qc) :
  valid_values (np_sub_scalar e (Some c)) =
  (fun x => x - c)%Qc <$> valid_values e.
Proof.
  unfold valid_values, np_sub_scalar.
  induction e as [|[x|] e IH]; cbn; [done| |done]. by rewrite IH.
Qed.

Lemma len_nonzero_Qc {A} (x : A) (l : list A) :
  Qc_of_Z (len (x :: l)) <> 0%Qc.
Proof.
  change 0%Qc with (Q2Qc 0). rewrite <- Z2Qc_inj_0.
  intros H%Z2Qc_inj. unfold len in H. cbn in H. lia.
Qed.

Lemma np_nanmean_valid (e : list cell) (x : Qc) (v : list Qc) :
  valid_values e = x :: v -> np_nanmean e = Some (mean_of (x :: v)).
Proof. intros H. unfold np_nanmean. by rewrite H. Qed.

(** The centred values sum to zero, and their mean is 0, as soon as one
    value is not NaN. *)
Lemma centered_sum (e : list cell) :
  valid_values e <> [] ->
  Qc_sum (valid_values (centered e)) = 0%Qc /\
  np_nanmean (centered e) = Some 0%Qc.
Proof.
  intros Hne. destruct (valid_values e) as [|x v] eqn:Ev; [done|].
  unfold centered. rewrite (np_nanmean_valid e x v Ev).
  set (m := mean_of (x :: v)).
  assert (valid_values (np_sub_scalar e (Some m)) =
          (x - m)%Qc :: ((fun y => y - m)%Qc <$> v)) as Hv.
  { by rewrite valid_values_sub_scalar, Ev. }
  assert (Qc_sum ((x - m)%Qc :: ((fun y => y - m)%Qc <$> v)) = 0%Qc) as Hs.
  { rewrite <- (fmap_cons (fun y => y - m)%Qc), Qc_sum_shift.
    unfold m, mean_of. field. apply len_nonzero_Qc. }
  split; [by rewrite Hv|].
  rewrite (np_nanmean_valid _ _ _ Hv). f_equal.
  unfold mean_of. rewrite Hs. unfold Qcdiv. ring.
Qed.

(** Without a value that is not NaN the centred values are all NaN. *)
Lemma centered_all_nan (e : list cell) :
  valid_values e = [] -> centered e = e /\ np_nanmean (centered e) = None.
Proof.
  intros Hv. assert (Forall (fun x => x = None) e) as Hall.
  { unfold valid_values in Hv. induction e as [|[x|] e IH]; [done|done|].
    constructor; [done|]. by apply IH. }
  assert (centered e = e) as ->.
  { unfold centered, np_nanmean. rewrite Hv. unfold np_sub_scalar.
    induction Hall as [|x e -> _ IH]; [done|]. cbn. by rewrite IH. }
  split; [done|]. unfold np_nanmean. by rewrite Hv.
Qed.

(** ** One crop of the training set *)

Lemma bind_with_rng_inv {R A B} (m : M rng A) (k : A -> M (world R) B)
    (w : world R) b w2 :
  bind (with_rng m) k w = (Ok b, w2) ->
  exists a g, m (w_rng w) = (Ok a, g) /\
    k a {| w_rng := g; w_self := w_self w; w_saved := w_saved w |}
      = (Ok b, w2).
Proof.
  unfold bind, with_rng. destruct (m (w_rng w)) as [[a|e|] g]; intros H;
    try discriminate. by exists a, g.
Qed.

Lemma grows_by_extend {A} (col : string) (rows : list A) d d' :
  dict_extend col rows d = Ok d' -> grows_by col rows d d'.
Proof.
  unfold dict_extend. destruct (dict_get col d) as [old|] eqn:E; [|done].
  intros [= <-]. exists old. split; [done|].
  by rewrite dict_get_set, String.eqb_refl.
Qed.

Lemma grows_by_frame {A} (col k : string) (rows l : list A) d d' d'' :
  String.eqb col k = false ->
  dict_extend k l d' = Ok d'' -> grows_by col rows d d' ->
  grows_by col rows d d''.
Proof.
  intros Hne He (old & H1 & H2). exists old. split; [done|].
  by rewrite (dict_extend_get col k l d' d'' He), Hne.
Qed.

Lemma grows_by_frame_l {A} (col k : string) (rows l : list A) d d' d'' :
  String.eqb col k = false ->
  dict_extend k l d = Ok d' -> grows_by col rows d' d'' ->
  grows_by col rows d d''.
Proof.
  intros Hne He (old & H1 & H2). exists old. split; [|done].
  by rewrite (dict_extend_get col k l d d' He), Hne in H1.
Qed.

Ltac grow_tac :=
  match goal with
  | H : dict_extend ?k ?l ?d = Ok ?d' |- grows_by ?k ?l ?d ?d' =>
      exact (grows_by_extend k l d d' H)
  | H : dict_extend ?k ?l ?d1 = Ok ?d' |- grows_by ?col _ _ ?d' =>
      apply (grows_by_frame col k _ l _ d1 d' eq_refl H); grow_tac
  | H : dict_extend ?k ?l ?d = Ok ?d1 |- grows_by ?col _ ?d _ =>
      apply (grows_by_frame_l col k _ l d d1 _ eq_refl H); grow_tac
  end.

Lemma sampled_intro gdal_read subset col crop rand a l :
  crop_raster gdal_read subset col crop = Ok a -> np_take a rand = Ok l ->
  sampled gdal_read subset col crop rand = Ok l.
Proof. intros H1 H2. unfold sampled. by rewrite H1. Qed.

(** What a crop that is processed without an exception does: it draws one
    index sequence, stores its mask, and appends to every column of
    [dctRF] the values of one raster at the sampled indices. *)
Lemma split_data_crop_inv gdal_read {R} n pixels flight subset crop
    masks dctRF (w w' : world R) masks' dctRF' :
  split_data_crop gdal_read n pixels flight subset crop (masks, dctRF) w
    = (Ok (masks', dctRF'), w') ->
  exists rand m tgi height shade real_solar skyview m1 ir e,
    semi_random_sample n pixels (w_rng w) = (Ok rand, w_rng w') /\
    w_self w' = w_self w /\ w_saved w' = w_saved w /\
    sample_mask n rand = Ok m /\
    masks' = <[mask_key flight crop := m]> masks /\
    sampled gdal_read subset "TGI" crop rand = Ok tgi /\
    sampled gdal_read subset "height" crop rand = Ok height /\
    sampled gdal_read subset "shade" crop rand = Ok shade /\
    sampled gdal_read subset "real_solar" crop rand = Ok real_solar /\
    sampled gdal_read subset "skyview" crop rand = Ok skyview /\
    sampled gdal_read subset "M1" crop rand = Ok m1 /\
    sampled gdal_read subset "IR" crop rand = Ok ir /\
    pred_error m1 ir = Ok e /\
    grows_by "TGI" tgi dctRF dctRF' /\
    grows_by "Height" height dctRF dctRF' /\
    grows_by "Shade" shade dctRF dctRF' /\
    grows_by "RealSolar" real_solar dctRF dctRF' /\
    grows_by "Skyview" skyview dctRF dctRF' /\
    grows_by "PredM1" m1 dctRF dctRF' /\
    grows_by "PredErrorM1" (centered e) dctRF dctRF' /\
    dctRF'.*1 = dctRF.*1.
Proof.
  unfold split_data_crop. intros H.
  apply bind_with_rng_inv in H as (rand & g & Hrand & H).
  apply bind_call_inv in H as (m & Hm & H).
  apply bind_call_inv in H as (a1 & Ha1 & H).
  apply bind_call_inv in H as (tgi & Htgi & H).
  apply bind_call_inv in H as (d1 & Hd1 & H).
  apply bind_call_inv in H as (a2 & Ha2 & H).
  apply bind_call_inv in H as (height & Hheight & H).
  apply bind_call_inv in H as (d2 & Hd2 & H).
  apply bind_call_inv in H as (a3 & Ha3 & H).
  apply bind_call_inv in H as (shade & Hshade & H).
  apply bind_call_inv in H as (d3 & Hd3 & H).
  apply bind_call_inv in H as (a4 & Ha4 & H).
  apply bind_call_inv in H as (real_solar & Hreal_solar & H).
  apply bind_call_inv in H as (d4 & Hd4 & H).
  apply bind_call_inv in H as (a5 & Ha5 & H).
  apply bind_call_inv in H as (skyview & Hskyview & H).
  apply bind_call_inv in H as (d5 & Hd5 & H).
  apply bind_call_inv in H as (a6 & Ha6 & H).
  apply bind_call_inv in H as (pred_m1 & Hpred_m1 & H).
  apply bind_call_inv in H as (d6 & Hd6 & H).
  apply bind_call_inv in H as (a7 & Ha7 & H).
  apply bind_call_inv in H as (m1 & Hm1 & H).
  apply bind_call_inv in H as (a8 & Ha8 & H).
  apply bind_call_inv in H as (ir & Hir & H).
  apply bind_call_inv in H as (e & He & H).
  apply bind_call_inv in H as (d7 & Hd7 & H).
  unfold ret in H. injection H as <- <- <-.
  assert (a7 = a6) as -> by congruence.
  assert (pred_m1 = m1) as -> by congruence.
  exists rand, m, tgi, height, shade, real_solar, skyview, m1, ir, e.
  cbn [w_rng w_self w_saved].
  repeat (split; [first [done | by eapply sampled_intro | grow_tac]|]).
  rewrite (dict_extend_keys _ _ _ _ Hd7), (dict_extend_keys _ _ _ _ Hd6),
    (dict_extend_keys _ _ _ _ Hd5), (dict_extend_keys _ _ _ _ Hd4),
    (dict_extend_keys _ _ _ _ Hd3), (dict_extend_keys _ _ _ _ Hd2).
  exact (dict_extend_keys _ _ _ _ Hd1).
Qed.

(** ** numpy indexing *)

Lemma norm_index_in_range n i :
  0 <= i < n -> norm_index n i = Some (Z.to_nat i).
Proof.
  intros H. unfold norm_index.
  destruct (Z.leb_spec 0 i); [|lia]. by destruct (Z.ltb_spec i n); [|lia].
Qed.

Lemma norm_index_beyond n i : 0 <= n <= i -> norm_index n i = None.
Proof.
  intros H. unfold norm_index.
  destruct (Z.leb_spec 0 i); [|lia]. destruct (Z.ltb_spec i n); [lia|].
  cbn. destruct (Z.ltb_spec i 0); [lia|]. by rewrite andb_false_r.
Qed.

Lemma norm_index_lt n i k : norm_index n i = Some k -> (k < Z.to_nat n)%nat.
Proof.
  unfold norm_index.
  destruct (Z.leb_spec 0 i); destruct (Z.ltb_spec i n); cbn;
    try (intros [= <-]; lia);
    destruct (Z.leb_spec (- n) i); destruct (Z.ltb_spec i 0); cbn;
    try discriminate; intros [= <-]; lia.
Qed.

Lemma np_take_length {A} (arr : list A) rand l :
  np_take arr rand = Ok l -> length l = length rand.
Proof.
  unfold np_take. destruct (mapM _ rand) as [l'|] eqn:E; [|done].
  intros [= <-]. symmetry. by eapply length_mapM.
Qed.

Lemma np_take_ok {A} (arr : list A) rand :
  Forall (fun i => 0 <= i < len arr) rand ->
  exists l, np_take arr rand = Ok l /\
    Forall2 (fun i x => arr !! Z.to_nat i = Some x) rand l.
Proof.
  intros H. unfold np_take. induction H as [|i rand Hi H IH].
  - exists []. split; [done|constructor].
  - destruct IH as (l & E & F).
    destruct (mapM _ rand) as [l'|] eqn:E'; [|done]. injection E as <-.
    destruct (arr !! Z.to_nat i) as [x|] eqn:Ex.
    2:{ apply lookup_ge_None in Ex. unfold len in Hi. lia. }
    exists (x :: l'). split; [|by constructor].
    cbn. rewrite (norm_index_in_range _ _ Hi). cbn. rewrite Ex. cbn.
    by rewrite E'.
Qed.

(** An index at or beyond the end of the array raises [IndexError]. *)
Lemma np_take_beyond {A} (arr : list A) rand :
  Exists (fun i => len arr <= i) rand -> np_take arr rand = Raise IndexError.
Proof.
  intros H. unfold np_take.
  destruct (mapM _ rand) as [l|] eqn:E; [|done].
  apply mapM_Some_1 in E. apply Exists_exists in H as (i & Hi & Hge).
  apply list_elem_of_lookup in Hi as [k Hk].
  destruct (Forall2_lookup_l _ _ _ _ _ E Hk) as (x & _ & Hx).
  rewrite norm_index_beyond in Hx; [done|]. unfold len in *. lia.
Qed.

(** [np_take] returns or raises [IndexError], nothing else. *)
Lemma np_take_cases {A} (arr : list A) rand :
  (exists l, np_take arr rand = Ok l) \/ np_take arr rand = Raise IndexError.
Proof. unfold np_take. destruct (mapM _ rand); eauto. Qed.

(** ** Masks and grids *)

Lemma foldl_insert_length {A} (ks : list nat) (v : A) (arr : list A) :
  length (foldl (fun a k => <[k := v]> a) arr ks) = length arr.
Proof.
  revert arr. induction ks as [|k ks IH]; intros arr; cbn; [done|].
  by rewrite IH, length_insert.
Qed.

Lemma foldl_insert_lookup {A} (ks : list nat) (v : A) (arr : list A) k :
  (k < length arr)%nat ->
  foldl (fun a k => <[k := v]> a) arr ks !! k =
  if bool_decide (k ∈ ks) then Some v else arr !! k.
Proof.
  revert arr. induction ks as [|k' ks IH]; intros arr Hk; cbn.
  - by rewrite bool_decide_eq_false_2 by set_solver.
  - rewrite IH by (by rewrite length_insert).
    destruct (decide (k ∈ ks)) as [Hin|Hnin].
    + by rewrite !bool_decide_eq_true_2 by set_solver.
    + rewrite (bool_decide_eq_false_2 (k ∈ ks)) by done.
      destruct (decide (k = k')) as [->|Hne].
      * rewrite bool_decide_eq_true_2 by set_solver.
        by apply list_lookup_insert_eq.
      * rewrite bool_decide_eq_false_2 by set_solver.
        by apply list_lookup_insert_ne.
Qed.

Lemma length_chunks {A} rows w (l : list A) : length (chunks rows w l) = rows.
Proof. revert l. induction rows as [|r IH]; intros l; cbn; [done|]. by rewrite IH. Qed.

(** [reshape] is row-major: entry [(r, c)] is element [r * w + c]. *)
Lemma chunks_lookup {A} rows w (l : list A) r c :
  (r < rows)%nat -> (c < w)%nat ->
  grid_at (chunks rows w l) r c = l !! (r * w + c)%nat.
Proof.
  unfold grid_at. revert l r. induction rows as [|rows IH]; intros l r Hr Hc; [lia|].
  destruct r as [|r]; cbn.
  - by apply lookup_take_lt.
  - rewrite IH by lia. rewrite lookup_drop. f_equal. lia.
Qed.

Lemma concat_chunks {A} rows w (l : list A) :
  length l = (rows * w)%nat -> concat (chunks rows w l) = l.
Proof.
  revert l. induction rows as [|rows IH]; intros l Hl; cbn.
  - by destruct l.
  - rewrite IH by (rewrite length_drop; lia). apply take_drop.
Qed.

Lemma np_put_ok {A} (arr : list A) rand v :
  Forall (fun i => 0 <= i < len arr) rand ->
  np_put arr rand v = Ok (foldl (fun a k => <[k := v]> a) arr (Z.to_nat <$> rand)).
Proof.
  intros H. unfold np_put.
  assert (mapM (norm_index (len arr)) rand = Some (Z.to_nat <$> rand)) as ->; [|done].
  apply mapM_Some_2. induction H as [|i rand Hi Hrest IH]; cbn; constructor;
    [by apply norm_index_in_range|done].
Qed.

(** The mask of lines 114-116: an [n] x [n] grid with 1 at the sampled
    positions and 0 elsewhere. *)
Lemma sample_mask_spec n rand :
  0 <= n -> Forall (in_grid n) rand ->
  exists m, sample_mask n rand = Ok m /\
    length m = Z.to_nat n /\
    concat m = foldl (fun a k => <[k := 1]> a)
                 (replicate (Z.to_nat (n * n)) 0) (Z.to_nat <$> rand) /\
    forall r c, (r < Z.to_nat n)%nat -> (c < Z.to_nat n)%nat ->
      grid_at m r c =
      Some (if bool_decide (Z.of_nat r * n + Z.of_nat c ∈ rand) then 1 else 0).
Proof.
  intros Hn Hin. unfold sample_mask, np_zeros_flat.
  destruct (Z.ltb_spec n 0); [lia|]. cbn [obind].
  set (zeros := replicate (Z.to_nat (n * n)) 0).
  assert (len zeros = n * n) as Hz by (unfold len, zeros; rewrite length_replicate; nia).
  rewrite np_put_ok by (by rewrite Hz). cbn [obind].
  set (flat := foldl _ zeros _).
  assert (length flat = (Z.to_nat n * Z.to_nat n)%nat) as Hfl.
  { unfold flat. rewrite foldl_insert_length. unfold zeros.
    rewrite length_replicate. nia. }
  unfold np_reshape.
  destruct (Z.leb_spec 0 n); [|lia].
  destruct (Z.eqb_spec (len flat) (n * n)) as [_|Hne]; [|unfold len in Hne; nia].
  cbn. eexists. split; [reflexivity|]. split; [apply length_chunks|].
  split; [by apply concat_chunks|].
  intros r c Hr Hc. rewrite chunks_lookup by done.
  unfold flat. rewrite foldl_insert_lookup.
  2:{ unfold zeros. rewrite length_replicate. nia. }
  assert ((r * Z.to_nat n + c)%nat ∈ Z.to_nat <$> rand <->
          Z.of_nat r * n + Z.of_nat c ∈ rand) as Hiff.
  { rewrite list_elem_of_fmap. split.
    - intros (i & Hi & Hel). rewrite Forall_forall in Hin.
      pose proof (Hin i Hel) as [? ?].
      replace (Z.of_nat r * n + Z.of_nat c) with i by nia. done.
    - intros Hel. eexists. split; [|exact Hel]. nia. }
  destruct (decide (Z.of_nat r * n + Z.of_nat c ∈ rand)) as [Hel|Hnel].
  - rewrite !bool_decide_eq_true_2; [done|done|by apply Hiff].
  - rewrite !bool_decide_eq_false_2; [|done|by rewrite Hiff].
    unfold zeros. apply lookup_replicate_2. nia.
Qed.

(** ** A crop that can be read is processed *)

Lemma bind_with_rng_ok {R A B} (m : M rng A) (k : A -> M (world R) B)
    (w : world R) a g :
  m (w_rng w) = (Ok a, g) ->
  bind (with_rng m) k w =
  k a {| w_rng := g; w_self := w_self w; w_saved := w_saved w |}.
Proof. intros H. unfold bind, with_rng. by rewrite H. Qed.

Lemma dict_get_is_Some {A} (k : string) (d : pydict A) :
  k ∈ d.*1 -> is_Some (dict_get k d).
Proof.
  induction d as [|[kd vd] d IH]; cbn; [by intros ?%elem_of_nil|].
  destruct (String.eqb_spec k kd) as [->|Hne]; [by eexists|].
  intros [?|?]%elem_of_cons; [done|by apply IH].
Qed.

Lemma dict_get_None {A} (k : string) (d : pydict A) :
  k ∉ d.*1 -> dict_get k d = None.
Proof.
  induction d as [|[kd vd] d IH]; cbn; [done|].
  destruct (String.eqb_spec k kd) as [->|Hne]; [set_solver|].
  intros H. apply IH. set_solver.
Qed.

Lemma dict_extend_ok {A} (k : string) (l : list A) (d : pydict (list A)) :
  k ∈ d.*1 -> exists d', dict_extend k l d = Ok d' /\ d'.*1 = d.*1.
Proof.
  intros [old E]%dict_get_is_Some. unfold dict_extend. rewrite E.
  eexists. split; [done|]. apply dict_set_keys. by rewrite E.
Qed.

Lemma sampled_ok gdal_read subset crop n rand col :
  crop_readable gdal_read subset crop n -> col ∈ raster_roles ->
  Forall (in_grid n) rand ->
  exists l, sampled gdal_read subset col crop rand = Ok l /\
            length l = length rand.
Proof.
  intros Hr Hc Hin. destruct (Hr col Hc) as (a & Ha & Hl).
  destruct (np_take_ok a rand) as (l & El & _).
  { eapply Forall_impl; [exact Hin|]. unfold in_grid. intros; lia. }
  exists l. split; [by eapply sampled_intro|by eapply np_take_length].
Qed.

Lemma pred_error_spec (m1 ir : list cell) :
  length m1 = length ir -> pred_error m1 ir = Ok (zip_with residual m1 ir).
Proof.
  intros Hl. unfold pred_error, np_sub, len. rewrite Hl, Z.eqb_refl. cbn.
  f_equal. unfold np_sub_scalar, residual. clear Hl. revert ir.
  induction m1 as [|a m1 IH]; intros [|b ir]; cbn; [done..|]. by rewrite IH.
Qed.

Lemma pred_error_inv (m1 ir e : list cell) :
  pred_error m1 ir = Ok e ->
  length m1 = length ir /\ e = zip_with residual m1 ir.
Proof.
  intros H. assert (length m1 = length ir) as Hl.
  { unfold pred_error, np_sub, len in H.
    destruct (Z.eqb_spec (Z.of_nat (length m1)) (Z.of_nat (length ir)));
      [lia|done]. }
  split; [done|]. rewrite (pred_error_spec _ _ Hl) in H. congruence.
Qed.

Ltac role_tac := unfold raster_roles; repeat constructor.

(** A crop whose rasters can be read is processed without an exception,
    whatever the generator draws. *)
Lemma split_data_crop_ok gdal_read {R} n pixels flight subset crop
    masks dctRF (w : world R) :
  in_domain n pixels ->
  crop_readable gdal_read subset crop n ->
  dctRF.*1 = dctRF_empty.*1 ->
  exists masks' dctRF' w',
    split_data_crop gdal_read n pixels flight subset crop (masks, dctRF) w
      = (Ok (masks', dctRF'), w') /\
    dctRF'.*1 = dctRF_empty.*1.
Proof.
  intros Hdom Hread Hkeys.
  destruct (semi_random_sample_spec n pixels (w_rng w) Hdom)
    as (blocked & extra & g1 & g' & _ & _ & Erand & _ & _ & Hin).
  set (rand := blocked ++ extra) in *.
  assert (0 <= n) as Hn by (destruct Hdom; lia).
  destruct (sample_mask_spec n rand Hn Hin) as (m & Em & _).
  unfold crop_readable in Hread.
  destruct (Hread "TGI"%string ltac:(role_tac)) as (a1 & Ea1 & Hl1).
  destruct (Hread "height"%string ltac:(role_tac)) as (a2 & Ea2 & Hl2).
  destruct (Hread "shade"%string ltac:(role_tac)) as (a3 & Ea3 & Hl3).
  destruct (Hread "real_solar"%string ltac:(role_tac)) as (a4 & Ea4 & Hl4).
  destruct (Hread "skyview"%string ltac:(role_tac)) as (a5 & Ea5 & Hl5).
  destruct (Hread "M1"%string ltac:(role_tac)) as (a6 & Ea6 & Hl6).
  destruct (Hread "IR"%string ltac:(role_tac)) as (a7 & Ea7 & Hl7).
  assert (forall a : list cell, n * n <= len a ->
            exists l, np_take a rand = Ok l /\ length l = length rand) as Htake.
  { intros a Hl. destruct (np_take_ok a rand) as (l & El & _).
    - eapply Forall_impl; [exact Hin|]. unfold in_grid. intros; lia.
    - exists l. split; [done|by eapply np_take_length]. }
  destruct (Htake a1 Hl1) as (tgi & Etgi & _).
  destruct (Htake a2 Hl2) as (height & Eheight & _).
  destruct (Htake a3 Hl3) as (shade & Eshade & _).
  destruct (Htake a4 Hl4) as (real_solar & Ereal_solar & _).
  destruct (Htake a5 Hl5) as (skyview & Eskyview & _).
  destruct (Htake a6 Hl6) as (m1 & Em1 & Hlm1).
  destruct (Htake a7 Hl7) as (ir & Eir & Hlir).
  destruct (dict_extend_ok "TGI" tgi dctRF) as (d1 & Ed1 & K1);
    [rewrite Hkeys; cbn; repeat constructor|]. rewrite Hkeys in K1.
  destruct (dict_extend_ok "Height" height d1) as (d2 & Ed2 & K2);
    [rewrite K1; cbn; repeat constructor|]. rewrite K1 in K2.
  destruct (dict_extend_ok "Shade" shade d2) as (d3 & Ed3 & K3);
    [rewrite K2; cbn; repeat constructor|]. rewrite K2 in K3.
  destruct (dict_extend_ok "RealSolar" real_solar d3) as (d4 & Ed4 & K4);
    [rewrite K3; cbn; repeat constructor|]. rewrite K3 in K4.
  destruct (dict_extend_ok "Skyview" skyview d4) as (d5 & Ed5 & K5);
    [rewrite K4; cbn; repeat constructor|]. rewrite K4 in K5.
  destruct (dict_extend_ok "PredM1" m1 d5) as (d6 & Ed6 & K6);
    [rewrite K5; cbn; repeat constructor|]. rewrite K5 in K6.
  pose proof (pred_error_spec m1 ir ltac:(congruence)) as Ee.
  destruct (dict_extend_ok "PredErrorM1"
              (centered (zip_with residual m1 ir)) d6) as (d7 & Ed7 & K7);
    [rewrite K6; cbn; repeat constructor|]. rewrite K6 in K7.
  eexists _, d7, _. split; [|exact K7].
  unfold split_data_crop.
  rewrite (bind_with_rng_ok _ _ _ _ _ Erand).
  rewrite (bind_call_ok _ _ _ _ Em).
  rewrite (bind_call_ok _ _ _ _ Ea1), (bind_call_ok _ _ _ _ Etgi),
    (bind_call_ok _ _ _ _ Ed1).
  rewrite (bind_call_ok _ _ _ _ Ea2), (bind_call_ok _ _ _ _ Eheight),
    (bind_call_ok _ _ _ _ Ed2).
  rewrite (bind_call_ok _ _ _ _ Ea3), (bind_call_ok _ _ _ _ Eshade),
    (bind_call_ok _ _ _ _ Ed3).
  rewrite (bind_call_ok _ _ _ _ Ea4), (bind_call_ok _ _ _ _ Ereal_solar),
    (bind_call_ok _ _ _ _ Ed4).
  rewrite (bind_call_ok _ _ _ _ Ea5), (bind_call_ok _ _ _ _ Eskyview),
    (bind_call_ok _ _ _ _ Ed5).
  rewrite (bind_call_ok _ _ _ _ Ea6), (bind_call_ok _ _ _ _ Em1),
    (bind_call_ok _ _ _ _ Ed6).
  rewrite (bind_call_ok _ _ _ _ Ea6), (bind_call_ok _ _ _ _ Em1).
  rewrite (bind_call_ok _ _ _ _ Ea7), (bind_call_ok _ _ _ _ Eir).
  rewrite (bind_call_ok _ _ _ _ Ee), (bind_call_ok _ _ _ _ Ed7).
  reflexivity.
Qed.

(** A sampler run that returned was run on the domain, and returned at
    least 1000 indices of the grid. *)
Lemma semi_random_sample_ok_inv N K g rand g' :
  semi_random_sample N K g = (Ok rand, g') ->
  in_domain N K /\ (1000 <= length rand)%nat /\ Forall (in_grid N) rand.
Proof.
  intros E. assert (in_domain N K) as Hdom.
  { destruct (in_domain_dec N K) as [|Hn]; [done|]. exfalso.
    destruct (Z.lt_ge_cases K 0) as [HK|HK].
    { rewrite semi_random_sample_negative_count in E by done. discriminate E. }
    destruct (Z.eq_dec (Z.sqrt K) 0) as [H0|H0].
    { rewrite semi_random_sample_zero_root in E by done. discriminate E. }
    pose proof (Z.sqrt_nonneg K).
    destruct (Z.lt_ge_cases N 0) as [HN|HN].
    { rewrite semi_random_sample_negative_side in E by lia. discriminate E. }
    destruct (semi_random_sample_zero_block N K g) as [_ E'].
    { unfold in_domain in Hn. lia. }
    rewrite E' in E. discriminate E. }
  split; [done|].
  destruct (semi_random_sample_spec N K g Hdom)
    as (blocked & extra & g1 & g2 & _ & _ & E' & _ & Hl & Hin).
  rewrite E' in E. injection E as <- <-. split; [lia|done].
Qed.

Lemma all_valid_values (e : list cell) :
  Forall is_Some e -> e = Some <$> valid_values e.
Proof.
  unfold valid_values. induction 1 as [|x e [v ->] _ IH]; cbn; [done|].
  by rewrite <- IH.
Qed.

Lemma centered_all_valid (e : list cell) :
  Forall is_Some e -> e <> [] ->
  exists vals, centered e = Some <$> vals /\ mean_of vals = 0%Qc.
Proof.
  intros Hall Hne. pose proof (all_valid_values e Hall) as He.
  assert (valid_values e <> []) as Hv.
  { intros Hnil. rewrite Hnil in He. by destruct e. }
  destruct (centered_sum e Hv) as [_ Hm].
  exists (valid_values (centered e)). split.
  - apply all_valid_values. unfold centered, np_sub_scalar.
    destruct (valid_values e) as [|x v] eqn:Ev; [done|].
    rewrite (np_nanmean_valid e x v Ev). apply Forall_fmap.
    eapply Forall_impl; [exact Hall|]. intros ? [y ->]. cbn. by eexists.
  - destruct (valid_values (centered e)) as [|x v] eqn:Ev.
    + unfold np_nanmean in Hm. by rewrite Ev in Hm.
    + rewrite (np_nanmean_valid _ x v Ev) in Hm. congruence.
Qed.

(** C3.  For a crop processed by [split_data], the rows appended to the
    target column [PredErrorM1] are [prior - truth - 273.16] at the sampled
    indices, minus the mean of those values over the crop (the mean of the
    values that are not NaN, as [np.nanmean] takes it); the appended values
    sum to 0 and their mean is 0 as soon as one of them is not NaN, and when
    none is NaN they are all numbers with plain mean 0. *)
Theorem residual_centered gdal_read {R} n pixels flight subset crop
    masks dctRF (w w' : world R) masks' dctRF' :
  split_data_crop gdal_read n pixels flight subset crop (masks, dctRF) w
    = (Ok (masks', dctRF'), w') ->
  exists rand prior truth,
    semi_random_sample n pixels (w_rng w) = (Ok rand, w_rng w') /\
    sampled gdal_read subset "M1" crop rand = Ok prior /\
    sampled gdal_read subset "IR" crop rand = Ok truth /\
    let res := zip_with residual prior truth in
    let rows := (fun r => cell_sub r (np_nanmean res)) <$> res in
    grows_by "PredErrorM1" rows dctRF dctRF' /\
    length rows = length rand /\ (1000 <= length rows)%nat /\
    (valid_values res <> [] ->
     Qc_sum (valid_values rows) = 0%Qc /\ np_nanmean rows = Some 0%Qc) /\
    (Forall is_Some res ->
     exists vals, rows = Some <$> vals /\ mean_of vals = 0%Qc).
Proof.
  intros H. apply split_data_crop_inv in H
    as (rand & m & tgi & height & shade & real_solar & skyview & m1 & ir & e
        & Hrand & _ & _ & _ & _ & _ & _ & _ & _ & _ & Hm1 & Hir & He & _ & _
        & _ & _ & _ & _ & Hgrow & _).
  apply pred_error_inv in He as [Hl ->].
  exists rand, m1, ir. split; [done|]. split; [done|]. split; [done|].
  cbn zeta. fold (np_sub_scalar (zip_with residual m1 ir)
                    (np_nanmean (zip_with residual m1 ir))).
  fold (centered (zip_with residual m1 ir)).
  split; [done|].
  assert (length m1 = length rand) as Hl1.
  { unfold sampled in Hm1. apply obind_ok_inv in Hm1 as (a & _ & Ht).
    by eapply np_take_length. }
  assert (length (centered (zip_with residual m1 ir)) = length rand) as Hlen.
  { unfold centered, np_sub_scalar.
    rewrite length_fmap, length_zip_with. lia. }
  apply semi_random_sample_ok_inv in Hrand as (_ & H1000 & _).
  split; [done|]. split; [lia|]. split; [apply centered_sum|].
  intros Hall. apply centered_all_valid; [done|].
  intros Hnil. rewrite Hnil in Hlen. unfold centered in Hlen. cbn in Hlen. lia.
Qed.

(** ** The example catalog *)

Lemma example_init_ok :
  init example_glob (St := unit) "/data" "afterML" 2 tt = (Ok example_self, tt).
Proof. vm_compute. reflexivity. Qed.

Lemma example_subset_ok :
  flight_subset (self_files_df example_self) "A" = Ok example_subset.
Proof. vm_compute. reflexivity. Qed.

Lemma example_in_domain : in_domain 2 4.
Proof. unfold in_domain. vm_compute. split; discriminate. Qed.

Lemma example_crop_readable crop :
  crop ∈ py_range 5 -> crop_readable example_gdal example_subset crop 2.
Proof.
  intros Hc col H. unfold raster_roles in H.
  vm_compute in Hc.
  repeat (apply elem_of_cons in Hc as [->|Hc]);
    [..|by apply elem_of_nil in Hc];
    repeat (apply elem_of_cons in H as [->|H]);
    try (by apply elem_of_nil in H);
    (eexists; split; [lazy; reflexivity|lazy; discriminate]).
Qed.

Lemma residual_centered_witness :
  exists masks' dctRF' w',
    split_data_crop example_gdal 2 4 "A" example_subset 0
      (∅, dctRF_empty) example_world = (Ok (masks', dctRF'), w') /\
    exists rand prior truth,
      semi_random_sample 2 4 (w_rng example_world) = (Ok rand, w_rng w') /\
      sampled example_gdal example_subset "M1" 0 rand = Ok prior /\
      sampled example_gdal example_subset "IR" 0 rand = Ok truth /\
      let res := zip_with residual prior truth in
      let rows := (fun r => cell_sub r (np_nanmean res)) <$> res in
      grows_by "PredErrorM1" rows dctRF_empty dctRF' /\
      length rows = length rand /\ (1000 <= length rows)%nat /\
      (valid_values res <> [] ->
       Qc_sum (valid_values rows) = 0%Qc /\ np_nanmean rows = Some 0%Qc) /\
      (Forall is_Some res ->
       exists vals, rows = Some <$> vals /\ mean_of vals = 0%Qc).
Proof.
  destruct (split_data_crop_ok example_gdal 2 4 "A" example_subset 0
              ∅ dctRF_empty example_world example_in_domain)
    as (masks' & dctRF' & w' & E & _).
  - apply example_crop_readable. vm_compute. repeat constructor.
  - reflexivity.
  - exists masks', dctRF', w'. split; [exact E|].
    exact (residual_centered _ _ _ _ _ _ _ _ _ _ _ _ E).
Defined.

(** ** Counting the cells of a mask *)

Lemma length_filter_fmap {A B} (P : B -> Prop) `{!forall x, Decision (P x)}
    (f : A -> B) (l : list A) :
  length (filter P (f <$> l)) = length (filter (fun x => P (f x)) l).
Proof.
  induction l as [|a l IH]; [done|]. rewrite fmap_cons, !filter_cons.
  destruct (decide (P (f a))); cbn; by rewrite IH.
Qed.

Lemma length_remove_dups_le {A} `{!EqDecision A} (l : list A) :
  (length (remove_dups l) <= length l)%nat.
Proof.
  induction l as [|a l IH]; cbn; [done|].
  destruct (decide_rel elem_of a l); cbn; lia.
Qed.

Lemma length_remove_dups_lt {A} `{!EqDecision A} (l : list A) :
  ~ NoDup l -> (length (remove_dups l) < length l)%nat.
Proof.
  induction l as [|a l IH]; cbn; intros Hn; [destruct Hn; constructor|].
  pose proof (length_remove_dups_le l).
  destruct (decide_rel elem_of a l) as [Hin|Hnin]; cbn; [lia|].
  assert (~ NoDup l) by (intros Hnd; apply Hn; by constructor).
  specialize (IH H0). lia.
Qed.

(** The cells set to 1 are as many as the distinct sampled indices. *)
Lemma ones_foldl_insert (L : nat) (rand : list Z) :
  Forall (fun i => 0 <= i < Z.of_nat L) rand ->
  length (filter (fun v => v = 1)
            (foldl (fun a k => <[k := 1]> a) (replicate L 0)
               (Z.to_nat <$> rand)))
  = length (remove_dups rand).
Proof.
  intros Hin. set (ks := Z.to_nat <$> rand).
  assert (foldl (fun a k => <[k := 1]> a) (replicate L 0) ks =
          (fun k => if bool_decide (k ∈ ks) then 1 else 0) <$> seq 0 L) as ->.
  { apply list_eq. intros k. rewrite list_lookup_fmap.
    destruct (decide (k < L)%nat) as [Hk|Hk].
    - rewrite foldl_insert_lookup by (by rewrite length_replicate).
      rewrite lookup_seq_lt by done. cbn.
      destruct (bool_decide (k ∈ ks)); [done|]. by apply lookup_replicate_2.
    - rewrite lookup_ge_None_2
        by (rewrite foldl_insert_length, length_replicate; lia).
      by rewrite lookup_seq_ge by lia. }
  rewrite length_filter_fmap.
  rewrite <- (length_fmap Z.to_nat (remove_dups rand)).
  apply Permutation_length, NoDup_Permutation.
  - apply NoDup_filter, NoDup_seq.
  - apply NoDup_fmap_2_strong; [|apply NoDup_remove_dups].
    intros x y Hx Hy Heq. rewrite elem_of_remove_dups in Hx, Hy.
    rewrite Forall_forall in Hin.
    pose proof (Hin x Hx). pose proof (Hin y Hy). lia.
  - intros k. rewrite list_elem_of_filter, elem_of_seq, list_elem_of_fmap.
    split.
    + intros [Hone _]. destruct (decide (k ∈ ks)) as [Hel|Hnel].
      * unfold ks in Hel. apply list_elem_of_fmap in Hel as (i & -> & Hi).
        exists i. split; [done|]. by apply elem_of_remove_dups.
      * by rewrite bool_decide_eq_false_2 in Hone.
    + intros (i & -> & Hi). rewrite elem_of_remove_dups in Hi.
      rewrite Forall_forall in Hin. pose proof (Hin i Hi).
      split; [|lia]. rewrite bool_decide_eq_true_2; [done|].
      unfold ks. apply list_elem_of_fmap. by exists i.
Qed.

Lemma sample_mask_ones n rand m :
  0 <= n -> Forall (in_grid n) rand -> sample_mask n rand = Ok m ->
  ones m = length (remove_dups rand).
Proof.
  intros Hn Hin Hm.
  destruct (sample_mask_spec n rand Hn Hin) as (m' & Em & _ & Hc & _).
  assert (m' = m) as -> by congruence.
  unfold ones. rewrite Hc. apply ones_foldl_insert.
  eapply Forall_impl; [exact Hin|]. unfold in_grid. intros i ?.
  rewrite Z2Nat.id; nia.
Qed.

Lemma sample_mask_ones_le n rand m :
  0 <= n -> Forall (in_grid n) rand -> sample_mask n rand = Ok m ->
  (ones m <= Z.to_nat (n * n))%nat.
Proof.
  intros Hn Hin Hm.
  destruct (sample_mask_spec n rand Hn Hin) as (m' & Em & _ & Hc & _).
  assert (m' = m) as -> by congruence.
  unfold ones. etrans; [apply length_filter|].
  by rewrite Hc, foldl_insert_length, length_replicate.
Qed.

(** C10.  For a crop processed by [split_data], the mask stored under the
    crop's key is an [n] x [n] grid whose entry [(r, c)] is 1 when the flat
    index [r * n + c] occurs in the sampled sequence and 0 otherwise.  The
    number of ones is the number of distinct sampled indices: it is at most
    the number of rows the crop contributes, and strictly smaller as soon as
    an index is sampled twice (always so when the grid has fewer than 1000
    pixels). *)
Theorem sample_mask_stored gdal_read {R} n pixels flight subset crop
    masks dctRF (w w' : world R) masks' dctRF' :
  split_data_crop gdal_read n pixels flight subset crop (masks, dctRF) w
    = (Ok (masks', dctRF'), w') ->
  exists rand m rows,
    semi_random_sample n pixels (w_rng w) = (Ok rand, w_rng w') /\
    masks' !! mask_key flight crop = Some m /\
    length m = Z.to_nat n /\
    (forall r c, (r < Z.to_nat n)%nat -> (c < Z.to_nat n)%nat ->
       grid_at m r c =
       Some (if bool_decide (Z.of_nat r * n + Z.of_nat c ∈ rand)
             then 1 else 0)) /\
    grows_by "PredM1" rows dctRF dctRF' /\
    length rows = length rand /\
    ones m = length (remove_dups rand) /\
    (ones m <= length rows)%nat /\
    (~ NoDup rand -> (ones m < length rows)%nat) /\
    (n * n < 1000 -> (ones m < length rows)%nat).
Proof.
  intros H. apply split_data_crop_inv in H
    as (rand & m & tgi & height & shade & real_solar & skyview & m1 & ir & e
        & Hrand & _ & _ & Hm & -> & _ & _ & _ & _ & _ & Hm1 & _ & _ & _ & _
        & _ & _ & _ & Hgrow & _).
  pose proof (semi_random_sample_ok_inv _ _ _ _ _ Hrand) as (Hdom & H1000 & Hin).
  assert (0 <= n) as Hn by (destruct Hdom; lia).
  destruct (sample_mask_spec n rand Hn Hin) as (m' & Em & Hlen & _ & Hcells).
  assert (m' = m) as -> by congruence.
  assert (length m1 = length rand) as Hl1.
  { unfold sampled in Hm1. apply obind_ok_inv in Hm1 as (a & _ & Ht).
    by eapply np_take_length. }
  pose proof (sample_mask_ones n rand m Hn Hin Hm) as Hones.
  pose proof (sample_mask_ones_le n rand m Hn Hin Hm) as Hle.
  pose proof (length_remove_dups_le rand).
  exists rand, m, m1. split; [done|]. split; [by rewrite lookup_insert_eq|].
  split; [done|]. split; [done|]. split; [done|]. split; [done|].
  split; [done|]. split; [lia|]. split.
  - intros Hdup. pose proof (length_remove_dups_lt rand Hdup). lia.
  - intros Hsmall. lia.
Qed.

Lemma sample_mask_stored_witness :
  exists masks' dctRF' w',
    split_data_crop example_gdal 2 4 "A" example_subset 0
      (∅, dctRF_empty) example_world = (Ok (masks', dctRF'), w') /\
    2 * 2 < 1000 /\
    exists rand m rows,
      semi_random_sample 2 4 (w_rng example_world) = (Ok rand, w_rng w') /\
      masks' !! mask_key "A" 0 = Some m /\
      length m = Z.to_nat 2 /\
      (forall r c, (r < Z.to_nat 2)%nat -> (c < Z.to_nat 2)%nat ->
         grid_at m r c =
         Some (if bool_decide (Z.of_nat r * 2 + Z.of_nat c ∈ rand)
               then 1 else 0)) /\
      grows_by "PredM1" rows dctRF_empty dctRF' /\
      length rows = length rand /\
      ones m = length (remove_dups rand) /\
      (ones m <= length rows)%nat /\
      (~ NoDup rand -> (ones m < length rows)%nat) /\
      (2 * 2 < 1000 -> (ones m < length rows)%nat).
Proof.
  destruct (split_data_crop_ok example_gdal 2 4 "A" example_subset 0
              ∅ dctRF_empty example_world example_in_domain)
    as (masks' & dctRF' & w' & E & _).
  - apply example_crop_readable. vm_compute. repeat constructor.
  - reflexivity.
  - exists masks', dctRF', w'. split; [exact E|]. split; [reflexivity|].
    exact (sample_mask_stored _ _ _ _ _ _ _ _ _ _ _ _ E).
Defined.

(** ** What the methods leave alone *)

Lemma keeps_ret {R A} (a : A) : keeps (R := R) (ret a).
Proof. by intros w. Qed.

Lemma keeps_call {R A} (r : outcome A) : keeps (R := R) (call r).
Proof. by intros w. Qed.

Lemma keeps_with_rng {R A} (m : M rng A) : keeps (R := R) (with_rng m).
Proof. intros w. unfold with_rng. by destruct (m (w_rng w)). Qed.

Lemma keeps_bind {R A B} (m : M (world R) A) (k : A -> M (world R) B) :
  keeps m -> (forall a, keeps (k a)) -> keeps (bind m k).
Proof.
  intros Hm Hk w. unfold bind. specialize (Hm w).
  destruct (m w) as [[a|e|] w1]; cbn in *; [|done..].
  destruct (Hk a w1) as [H1 H2]. destruct Hm as [H3 H4]. split; congruence.
Qed.

Lemma keeps_for_each {R A V} (l : list A) (body : A -> V -> M (world R) V) v :
  (forall a v, keeps (body a v)) -> keeps (for_each l body v).
Proof.
  intros Hb. revert v. induction l as [|a l IH]; intros v; cbn.
  - apply keeps_ret.
  - apply keeps_bind; [apply Hb|apply IH].
Qed.

Lemma keeps_split_data_crop gdal_read {R} n pixels flight subset crop acc :
  keeps (R := R) (split_data_crop gdal_read n pixels flight subset crop acc).
Proof.
  unfold split_data_crop. destruct acc as [masks dctRF].
  repeat first [apply keeps_ret | apply keeps_call | apply keeps_with_rng
               | apply keeps_bind; [|intros ?]].
Qed.

Lemma keeps_split_data_loops gdal_read {R} (self : RF_Correction_Model R)
    pixels train :
  keeps (split_data_loops gdal_read self pixels train).
Proof.
  unfold split_data_loops. apply keeps_for_each. intros flight acc.
  apply keeps_bind; [apply keeps_call|]. intros subset.
  apply keeps_for_each. intros crop acc'. apply keeps_split_data_crop.
Qed.

(** ** Loops that raise *)

Lemma for_each_app {St A V} (l1 l2 : list A) (body : A -> V -> M St V) v s :
  for_each (l1 ++ l2) body v s =
  bind (for_each l1 body v) (for_each l2 body) s.
Proof.
  revert v s. induction l1 as [|a l1 IH]; intros v s; [reflexivity|].
  cbn [app for_each]. unfold bind.
  destruct (body a v s) as [[v1|e|] s1]; [|reflexivity..].
  rewrite IH. reflexivity.
Qed.

(** A round that raises ends the loop: the rounds after it are not run. *)
Lemma for_each_raise_at {St A V} (l1 l2 : list A) a
    (body : A -> V -> M St V) v s v1 s1 e s2 :
  for_each l1 body v s = (Ok v1, s1) -> body a v1 s1 = (Raise e, s2) ->
  for_each (l1 ++ a :: l2) body v s = (Raise e, s2).
Proof.
  intros H1 H2. rewrite for_each_app, (bind_ok _ _ _ _ _ H1). cbn.
  by rewrite (bind_raise _ _ _ _ _ H2).
Qed.

(** What holds before a loop and is kept by every round that returns,
    holds after the loop when it returns. *)
Lemma for_each_ok_preserves {St A V} (P : V -> St -> Prop) (l : list A)
    (body : A -> V -> M St V) v s v' s' :
  (forall a v s v1 s1, a ∈ l -> body a v s = (Ok v1, s1) -> P v s -> P v1 s1) ->
  for_each l body v s = (Ok v', s') -> P v s -> P v' s'.
Proof.
  revert v s. induction l as [|a l IH]; intros v s Hb H HP; cbn in H.
  - unfold ret in H. by injection H as <- <-.
  - apply bind_ok_inv in H as (v1 & s1 & H1 & H2).
    eapply IH; [|exact H2|].
    + intros b ? ? ? ? Hin. apply Hb. by right.
    + eapply Hb; [by left|exact H1|exact HP].
Qed.

(** ** A raster that is too small *)

Ltac take_or_fail rand a Ea l El :=
  rewrite (bind_call_ok _ _ _ _ Ea);
  destruct (np_take_cases a rand) as [[l El]|El];
  [rewrite (bind_call_ok _ _ _ _ El)
  |rewrite (bind_call_raise _ _ _ _ El); reflexivity].

Ltac extend_ok k l d d' Ed K Kprev :=
  destruct (dict_extend_ok k l d) as (d' & Ed & K);
  [rewrite Kprev; cbn; repeat constructor|];
  rewrite Kprev in K; rewrite (bind_call_ok _ _ _ _ Ed).

(** When the rasters of a crop open and one of them has no cell at a
    sampled index, processing the crop raises [IndexError]. *)
Lemma split_data_crop_index_error gdal_read {R} n pixels flight subset crop
    masks dctRF (w : world R) rand g' col a :
  semi_random_sample n pixels (w_rng w) = (Ok rand, g') ->
  crop_opens gdal_read subset crop ->
  dctRF.*1 = dctRF_empty.*1 ->
  col ∈ raster_roles -> crop_raster gdal_read subset col crop = Ok a ->
  Exists (fun i => len a <= i) rand ->
  split_data_crop gdal_read n pixels flight subset crop (masks, dctRF) w
  = (Raise IndexError,
     {| w_rng := g'; w_self := w_self w; w_saved := w_saved w |}).
Proof.
  intros Hrand Hopen Hkeys Hcol Ha Hbad.
  pose proof (semi_random_sample_ok_inv _ _ _ _ _ Hrand) as (Hdom & _ & Hin).
  assert (0 <= n) as Hn by (destruct Hdom; lia).
  destruct (sample_mask_spec n rand Hn Hin) as (m & Em & _).
  pose proof (np_take_beyond a rand Hbad) as Hfail.
  destruct (Hopen "TGI"%string ltac:(role_tac)) as (a1 & Ea1).
  destruct (Hopen "height"%string ltac:(role_tac)) as (a2 & Ea2).
  destruct (Hopen "shade"%string ltac:(role_tac)) as (a3 & Ea3).
  destruct (Hopen "real_solar"%string ltac:(role_tac)) as (a4 & Ea4).
  destruct (Hopen "skyview"%string ltac:(role_tac)) as (a5 & Ea5).
  destruct (Hopen "M1"%string ltac:(role_tac)) as (a6 & Ea6).
  destruct (Hopen "IR"%string ltac:(role_tac)) as (a7 & Ea7).
  unfold split_data_crop.
  rewrite (bind_with_rng_ok _ _ _ _ _ Hrand), (bind_call_ok _ _ _ _ Em).
  take_or_fail rand a1 Ea1 tgi Etgi.
  extend_ok "TGI"%string tgi dctRF d1 Ed1 K1 Hkeys.
  take_or_fail rand a2 Ea2 height Eheight.
  extend_ok "Height"%string height d1 d2 Ed2 K2 K1.
  take_or_fail rand a3 Ea3 shade Eshade.
  extend_ok "Shade"%string shade d2 d3 Ed3 K3 K2.
  take_or_fail rand a4 Ea4 real_solar Ereal_solar.
  extend_ok "RealSolar"%string real_solar d3 d4 Ed4 K4 K3.
  take_or_fail rand a5 Ea5 skyview Eskyview.
  extend_ok "Skyview"%string skyview d4 d5 Ed5 K5 K4.
  take_or_fail rand a6 Ea6 m1 Em1.
  extend_ok "PredM1"%string m1 d5 d6 Ed6 K6 K5.
  rewrite (bind_call_ok _ _ _ _ Ea6), (bind_call_ok _ _ _ _ Em1).
  take_or_fail rand a7 Ea7 ir Eir.
  exfalso. unfold raster_roles in Hcol.
  repeat (apply elem_of_cons in Hcol as [->|Hcol]);
    [..|by apply elem_of_nil in Hcol]; congruence.
Qed.

(** ** split_data as a whole *)

Lemma split_data_raise gdal_read {R} pixels train (w : world R) e w1 :
  split_data_loops gdal_read (w_self (split_data_begin pixels train w))
    pixels train (split_data_begin pixels train w) = (Raise e, w1) ->
  split_data gdal_read pixels train w = (Raise e, w1).
Proof.
  intros H. unfold split_data.
  unfold bind at 1. unfold set_self at 1. cbn [fst snd].
  fold (split_data_begin pixels train w).
  unfold bind at 1. unfold get_self at 1.
  by rewrite (bind_raise _ _ _ _ _ H).
Qed.

Lemma split_data_crop_keys gdal_read {R} n pixels flight subset crop
    acc (w : world R) acc' w' :
  split_data_crop gdal_read n pixels flight subset crop acc w = (Ok acc', w') ->
  acc'.2.*1 = acc.2.*1.
Proof.
  destruct acc as [masks dctRF], acc' as [masks' dctRF']. intros H.
  apply split_data_crop_inv in H
    as (? & ? & ? & ? & ? & ? & ? & ? & ? & ? & H).
  repeat match type of H with _ /\ _ => destruct H as [_ H] end. exact H.
Qed.

Lemma crops_loop_keys gdal_read {R} n pixels flight subset crops
    acc (w : world R) acc' w' :
  for_each crops (split_data_crop gdal_read n pixels flight subset) acc w
    = (Ok acc', w') ->
  acc.2.*1 = dctRF_empty.*1 -> acc'.2.*1 = dctRF_empty.*1.
Proof.
  intros H. revert H.
  apply (for_each_ok_preserves (fun a _ => a.2.*1 = dctRF_empty.*1)).
  intros crop a s a1 s1 _ Hb Ha.
  by rewrite (split_data_crop_keys _ _ _ _ _ _ _ _ _ _ Hb).
Qed.

Lemma split_data_loops_keys gdal_read {R} (self : RF_Correction_Model R)
    pixels train (w : world R) acc w' :
  split_data_loops gdal_read self pixels train w = (Ok acc, w') ->
  acc.2.*1 = dctRF_empty.*1.
Proof.
  unfold split_data_loops. intros H.
  eapply (for_each_ok_preserves (fun a _ => a.2.*1 = dctRF_empty.*1));
    [|exact H|done].
  intros flight a s a1 s1 _ Hb Ha.
  apply bind_call_inv in Hb as (subset & _ & Hb).
  by eapply crops_loop_keys.
Qed.

(** The exception of a crop is the exception of [split_data]: nothing
    catches it, the crops and flights after it are not processed, and
    [RF_train_df] and [mask] are not assigned. *)
Lemma split_data_index_error gdal_read {R} pixels before flight rest
    (w : world R) acc1 w1 subset done crop left acc2 w2 rand g' col a :
  let w0 := split_data_begin pixels (before ++ flight :: rest) w in
  let self := w_self w0 in
  split_data_loops gdal_read self pixels before w0 = (Ok acc1, w1) ->
  flight_subset (self_files_df self) flight = Ok subset ->
  py_range (df_len subset) = done ++ crop :: left ->
  for_each done
    (split_data_crop gdal_read (self_N self) pixels flight subset) acc1 w1
    = (Ok acc2, w2) ->
  semi_random_sample (self_N self) pixels (w_rng w2) = (Ok rand, g') ->
  crop_opens gdal_read subset crop ->
  col ∈ raster_roles -> crop_raster gdal_read subset col crop = Ok a ->
  Exists (fun i => len a <= i) rand ->
  exists w',
    split_data gdal_read pixels (before ++ flight :: rest) w
      = (Raise IndexError, w') /\
    self_RF_train_df (w_self w') = self_RF_train_df (w_self w) /\
    self_mask (w_self w') = self_mask (w_self w).
Proof.
  intros w0 self Hbefore Hsub Hcrops Hdone Hrand Hopen Hcol Ha Hbad.
  pose proof (split_data_loops_keys _ _ _ _ _ _ _ Hbefore) as K1.
  pose proof (crops_loop_keys _ _ _ _ _ _ _ _ _ _ Hdone K1) as K2.
  destruct acc2 as [masks dctRF].
  pose proof (split_data_crop_index_error gdal_read (self_N self) pixels
                flight subset crop masks dctRF w2 rand g' col a
                Hrand Hopen K2 Hcol Ha Hbad) as Hcrop.
  set (w3 := {| w_rng := g'; w_self := w_self w2; w_saved := w_saved w2 |}) in *.
  assert (split_data_loops gdal_read self pixels (before ++ flight :: rest) w0
          = (Raise IndexError, w3)) as Hloops.
  { unfold split_data_loops in *.
    eapply for_each_raise_at; [exact Hbefore|].
    rewrite (bind_call_ok _ _ _ _ Hsub), Hcrops.
    eapply for_each_raise_at; [exact Hdone|exact Hcrop]. }
  exists w3. split; [by apply split_data_raise|].
  destruct (keeps_split_data_loops gdal_read self pixels before w0) as [S1 _].
  rewrite Hbefore in S1. cbn in S1.
  destruct (keeps_for_each done
              (split_data_crop gdal_read (self_N self) pixels flight subset)
              acc1 (fun c a' => keeps_split_data_crop _ _ _ _ _ _ _) w1)
    as [S2 _].
  rewrite Hdone in S2. cbn in S2.
  unfold w3. cbn [w_self]. rewrite S2, S1. done.
Qed.

Lemma example_rand_hits_last g rand g' :
  semi_random_sample 2 4 g = (Ok rand, g') -> 3 ∈ rand.
Proof.
  intros H.
  destruct (semi_random_sample_spec 2 4 g example_in_domain)
    as (blocked & extra & g1 & g2 & _ & _ & E & [_ Hb] & _).
  rewrite E in H. injection H as <- _. clear E.
  change (block_size 2 4) with 1 in Hb.
  change (Z.to_nat (block_count 2 4)) with 2%nat in Hb.
  destruct (Hb 1%nat 1%nat) as (p & Hp & x & y & -> & Hx & Hy); [lia..|].
  assert (x * 2 + y = 3) as Hp3 by lia. rewrite Hp3 in Hp.
  apply elem_of_app. left. by eapply list_elem_of_lookup_2.
Qed.

Lemma example_short_opens :
  crop_opens example_gdal_short example_subset 0.
Proof.
  intros col H. unfold raster_roles in H.
  repeat (apply elem_of_cons in H as [->|H]);
    [..|by apply elem_of_nil in H]; (eexists; lazy; reflexivity).
Qed.

(** C8, as stated, fails: on the example catalog, with one raster of
    flight [A] holding three cells instead of four, the build of the
    training set for flights [A] and [B] is not continued without that
    crop: [split_data] raises [IndexError] and assigns neither the table nor
    the masks. *)
Lemma mismatched_crop_aborts_build :
  exists w',
    split_data example_gdal_short 4 ["A"; "B"]%string example_world
      = (Raise IndexError, w') /\
    self_RF_train_df (w_self w') = None /\ self_mask (w_self w') = None.
Proof.
  destruct (semi_random_sample_spec 2 4 example_rng example_in_domain)
    as (blocked & extra & g1 & g' & _ & _ & E & _).
  pose proof (example_rand_hits_last _ _ _ E) as Hhit.
  pose proof (split_data_index_error example_gdal_short 4 [] "A" ["B"]%string
    example_world (∅, dctRF_empty)
    (split_data_begin 4 ["A"; "B"]%string example_world)
    example_subset [] 0 [1; 2; 3; 4] (∅, dctRF_empty)
    (split_data_begin 4 ["A"; "B"]%string example_world)
    (blocked ++ extra) g' "TGI" [Qcell 1; Qcell 2; Qcell 3]) as H.
  cbn zeta in H. apply H; clear H.
  - reflexivity.
  - exact example_subset_ok.
  - reflexivity.
  - reflexivity.
  - exact E.
  - exact example_short_opens.
  - role_tac.
  - lazy. reflexivity.
  - apply Exists_exists. exists 3. split; [exact Hhit|]. clear. by vm_compute.
Qed.

(** C8, amended.  No [RasterShapeMismatch] is signalled and no crop is
    skipped: when the rasters of a crop open and one of them has no cell at
    a sampled index, indexing raises [IndexError], [split_data] raises it
    too, the crops and flights after it are not processed, and
    [RF_train_df] and [mask] are left as they were. *)
Theorem raster_too_small_aborts gdal_read {R} pixels before flight rest
    (w : world R) acc1 w1 subset done crop left acc2 w2 rand g' col a :
  let w0 := split_data_begin pixels (before ++ flight :: rest) w in
  let self := w_self w0 in
  split_data_loops gdal_read self pixels before w0 = (Ok acc1, w1) ->
  flight_subset (self_files_df self) flight = Ok subset ->
  py_range (df_len subset) = done ++ crop :: left ->
  for_each done
    (split_data_crop gdal_read (self_N self) pixels flight subset) acc1 w1
    = (Ok acc2, w2) ->
  semi_random_sample (self_N self) pixels (w_rng w2) = (Ok rand, g') ->
  crop_opens gdal_read subset crop ->
  col ∈ raster_roles -> crop_raster gdal_read subset col crop = Ok a ->
  Exists (fun i => len a <= i) rand ->
  exists w',
    split_data gdal_read pixels (before ++ flight :: rest) w
      = (Raise IndexError, w') /\
    self_RF_train_df (w_self w') = self_RF_train_df (w_self w) /\
    self_mask (w_self w') = self_mask (w_self w).
Proof. exact (split_data_index_error gdal_read pixels before flight rest
                w acc1 w1 subset done crop left acc2 w2 rand g' col a). Qed.

Lemma raster_too_small_aborts_witness :
  exists rand g',
    semi_random_sample 2 4 example_rng = (Ok rand, g') /\
    Exists (fun i => len [Qcell 1; Qcell 2; Qcell 3] <= i) rand /\
    exists w',
      split_data example_gdal_short 4 ["A"; "B"]%string example_world
        = (Raise IndexError, w') /\
      self_RF_train_df (w_self w') = self_RF_train_df (w_self example_world) /\
      self_mask (w_self w') = self_mask (w_self example_world).
Proof.
  destruct (semi_random_sample_spec 2 4 example_rng example_in_domain)
    as (blocked & extra & g1 & g' & _ & _ & E & _).
  pose proof (example_rand_hits_last _ _ _ E) as Hhit.
  assert (Exists (fun i => len [Qcell 1; Qcell 2; Qcell 3] <= i)
            (blocked ++ extra)) as Hbad.
  { apply Exists_exists. exists 3. split; [exact Hhit|]. clear. by vm_compute. }
  exists (blocked ++ extra), g'. split; [exact E|]. split; [exact Hbad|].
  exact (raster_too_small_aborts example_gdal_short 4 [] "A" ["B"]%string
    example_world (∅, dctRF_empty)
    (split_data_begin 4 ["A"; "B"]%string example_world)
    example_subset [] 0 [1; 2; 3; 4] (∅, dctRF_empty)
    (split_data_begin 4 ["A"; "B"]%string example_world)
    (blocked ++ extra) g' "TGI" [Qcell 1; Qcell 2; Qcell 3]
    eq_refl example_subset_ok eq_refl eq_refl E example_short_opens
    ltac:(role_tac) eq_refl Hbad).
Defined.

(** ** The catalog *)

Lemma pd_DataFrame_same_length {A} (k : string) (c : list A) d :
  Forall (fun kc : string * list A => length kc.2 = length c) d ->
  pd_DataFrame ((k, c) :: d) =
  Ok {| df_index := py_range (len c);
        df_columns :=
          (fun kc : string * list A => (kc.1, Val <$> kc.2)) <$> (k, c) :: d |}.
Proof.
  intros H. unfold pd_DataFrame.
  assert (forallb (fun kc : string * list A => len kc.2 =? len c)
            ((k, c) :: d) = true) as ->; [|done].
  apply forallb_forall. intros kc Hin. apply Z.eqb_eq. unfold len.
  apply list_elem_of_In, elem_of_cons in Hin as [->|Hin]; [done|].
  rewrite Forall_forall in H. by rewrite (H kc Hin).
Qed.

Lemma pd_DataFrame_ragged {A} (k : string) (c : list A) d :
  Exists (fun kc : string * list A => length kc.2 <> length c) d ->
  pd_DataFrame ((k, c) :: d) = Raise ValueError.
Proof.
  intros H. unfold pd_DataFrame.
  destruct (forallb _ ((k, c) :: d)) eqn:E; [|done]. exfalso.
  apply Exists_exists in H as (kc & Hin & Hne). apply Hne.
  pose proof (proj1 (forallb_forall _ _) E kc) as Hkc.
  assert (len kc.2 = len c) as Hlen.
  { apply Z.eqb_eq, Hkc, list_elem_of_In. by right. }
  unfold len in Hlen. lia.
Qed.

(** One round of the loop over the flights (lines 85-91). *)
Lemma catalog_step {St} (F : string -> string -> list string)
    (I : string -> list string) (name : string)
    (ir t h s r k m fl mf : list string) (st : St) :
  (files_dict <-
     for_each ["TGI"; "height"; "shade"; "real_solar"; "skyview"]%string
       (fun feature files_dict =>
          call (dict_extend feature (F feature name) files_dict))
       [("IR", ir); ("TGI", t); ("height", h); ("shade", s);
        ("real_solar", r); ("skyview", k); ("M1", m); ("Flight", fl);
        ("MainFlight", mf)] ;;
   call (dict_extend "IR" (I name) files_dict)) st
  = (Ok [("IR", ir ++ I name); ("TGI", t ++ F "TGI" name);
         ("height", h ++ F "height" name); ("shade", s ++ F "shade" name);
         ("real_solar", r ++ F "real_solar" name);
         ("skyview", k ++ F "skyview" name); ("M1", m);
         ("Flight", fl); ("MainFlight", mf)], st).
Proof. reflexivity. Qed.

(** The loop over the flights. *)
Lemma catalog_loops {St} (F : string -> string -> list string)
    (I : string -> list string) (flights : list string)
    (ir t h s r k m fl mf : list string) (st : St) :
  for_each flights (fun name files_dict =>
    files_dict <-
      for_each ["TGI"; "height"; "shade"; "real_solar"; "skyview"]%string
        (fun feature files_dict =>
           call (dict_extend feature (F feature name) files_dict))
        files_dict ;;
    call (dict_extend "IR" (I name) files_dict))
    [("IR", ir); ("TGI", t); ("height", h); ("shade", s);
     ("real_solar", r); ("skyview", k); ("M1", m); ("Flight", fl);
     ("MainFlight", mf)] st
  = (Ok [("IR", ir ++ (flights ≫= I)); ("TGI", t ++ (flights ≫= F "TGI"));
         ("height", h ++ (flights ≫= F "height"));
         ("shade", s ++ (flights ≫= F "shade"));
         ("real_solar", r ++ (flights ≫= F "real_solar"));
         ("skyview", k ++ (flights ≫= F "skyview")); ("M1", m);
         ("Flight", fl); ("MainFlight", mf)], st).
Proof.
  revert ir t h s r k. induction flights as [|a flights IH]; intros.
  - cbn. by rewrite !app_nil_r.
  - cbn [for_each].
    rewrite (bind_ok _ _ _ _ _ (catalog_step F I a ir t h s r k m fl mf st)).
    rewrite IH. cbn [mbind list_bind]. by rewrite <- !app_assoc.
Qed.

Lemma init_spec glob {R St} path name map_size (s : St) :
  init glob (Regressor := R) path name map_size s =
  match pd_DataFrame (files_dict_final glob path) with
  | Ok files_df =>
      (Ok {| self_name := name; self_N := map_size;
             self_features :=
               ["TGI"; "height"; "shade"; "real_solar"; "skyview"]%string;
             self_unique_flights := init_flights glob path;
             self_files_df := files_df;
             self_train_flights := None; self_len_of_random_pix := None;
             self_RF_train_df := None; self_mask := None;
             self_RFModel := None |}, s)
  | Raise e => (Raise e, s)
  | Timeout => (Timeout, s)
  end.
Proof.
  unfold init. cbn zeta. cbn [dict_set String.eqb Ascii.eqb Bool.eqb].
  erewrite bind_ok.
  2:{ apply (catalog_loops
        (fun feature name0 =>
           sorted (glob (path +:+ "/Input data/cropped_" +:+ name0 +:+ "/"
                           +:+ feature +:+ "_*.tif")))
        (fun name0 =>
           sorted (glob (path +:+ "/Input data/cropped_" +:+ name0
                           +:+ "/*thermal_ir_*.tif")))). }
  cbn [app]. unfold bind, call, ret.
  fold (m1_files glob path). fold (init_flights glob path).
  change (pd_DataFrame _) with (pd_DataFrame (files_dict_final glob path)).
  by destruct (pd_DataFrame (files_dict_final glob path)).
Qed.

Lemma aligned_dec glob path : Decision (aligned glob path).
Proof. unfold aligned. apply Forall_dec. intros kc. apply _. Qed.

Lemma init_totals glob {R St} path name map_size (s : St) :
  (aligned glob path ->
   exists o, init glob (Regressor := R) path name map_size s = (Ok o, s) /\
     self_unique_flights o = init_flights glob path /\
     df_len (self_files_df o) = len (m1_files glob path) /\
     df_names (self_files_df o) =
       ["IR"; "TGI"; "height"; "shade"; "real_solar"; "skyview"; "M1";
        "Flight"; "MainFlight"]%string) /\
  (~ aligned glob path ->
   init glob (Regressor := R) path name map_size s = (Raise ValueError, s)).
Proof.
  rewrite init_spec. unfold aligned, files_dict_final. split.
  - intros Hal. apply Forall_cons in Hal as [Hir Hrest]. cbn in Hir.
    rewrite pd_DataFrame_same_length.
    2:{ eapply Forall_impl; [exact Hrest|]. intros kc Hkc. cbn in *. lia. }
    eexists. split; [reflexivity|]. cbn. split; [done|]. split; [|done].
    unfold df_len. cbn. unfold len. rewrite py_range_length. lia.
  - intros Hnal. rewrite pd_DataFrame_ragged; [done|].
    destruct (decide (length (ir_files glob path)
                      = length (m1_files glob path))) as [Heq|Hne].
    + apply not_Forall_Exists in Hnal; [|intros kc; apply _].
      apply Exists_cons in Hnal as [Hbad|Hbad]; [done|].
      eapply Exists_impl; [exact Hbad|]. intros kc Hkc. cbn in *. lia.
    + do 5 apply Exists_cons_tl. apply Exists_cons_hd. cbn. lia.
Qed.

(** C7, as stated, fails: on the example catalog where flight [A] has
    texture files but no sky-view file, and the folder of flight [B] holds
    ten sky-view files, [__init__] raises nothing: it returns a catalog whose
    row of flight [A], crop 0, carries a sky-view file of flight [B]. *)
Lemma catalog_gap_is_silent :
  example_glob_gap "/data/Input data/cropped_A/TGI_*.tif" <> [] /\
  example_glob_gap "/data/Input data/cropped_A/skyview_*.tif" = [] /\
  exists o,
    init example_glob_gap (Regressor := list string) (St := unit)
      "/data" "afterML" 2 tt = (Ok o, tt) /\
    df_at "MainFlight" 0 (self_files_df o) = Ok (Val "A"%string) /\
    df_at "skyview" 0 (self_files_df o)
      = Ok (Val "/data/Input data/cropped_B/skyview_0.tif"%string).
Proof.
  split; [by vm_compute|]. split; [by vm_compute|].
  eexists. split; [lazy; reflexivity|]. split; lazy; reflexivity.
Qed.

(** C7, amended.  [__init__] raises no [CatalogIncomplete] and checks no
    flight by itself: when every role has, over all flights together, as
    many files as there are prior-model files, the catalog is built (with
    these flights and one row per prior-model file); otherwise building the
    [DataFrame] raises [ValueError]. *)
Theorem init_checks_totals_only glob {R St} path name map_size (s : St) :
  (aligned glob path ->
   exists o, init glob (Regressor := R) path name map_size s = (Ok o, s) /\
     self_unique_flights o = init_flights glob path /\
     df_len (self_files_df o) = len (m1_files glob path) /\
     df_names (self_files_df o) =
       ["IR"; "TGI"; "height"; "shade"; "real_solar"; "skyview"; "M1";
        "Flight"; "MainFlight"]%string) /\
  (~ aligned glob path ->
   init glob (Regressor := R) path name map_size s = (Raise ValueError, s)).
Proof. exact (init_totals glob path name map_size s). Qed.

Lemma init_checks_totals_only_witness :
  aligned example_glob_gap "/data" /\
  exists o,
    init example_glob_gap (Regressor := list string) (St := unit)
      "/data" "afterML" 2 tt = (Ok o, tt) /\
    self_unique_flights o = init_flights example_glob_gap "/data" /\
    df_len (self_files_df o) = len (m1_files example_glob_gap "/data") /\
    df_names (self_files_df o) =
      ["IR"; "TGI"; "height"; "shade"; "real_solar"; "skyview"; "M1";
       "Flight"; "MainFlight"]%string.
Proof.
  assert (aligned example_glob_gap "/data") as Hal.
  { unfold aligned. vm_compute. repeat constructor. }
  split; [exact Hal|].
  exact (proj1 (init_checks_totals_only example_glob_gap
                  (R := list string) (St := unit) "/data" "afterML" 2 tt) Hal).
Defined.

(** ** The columns of a DataFrame *)

Lemma fmap_keys {A B} (f : A -> B) (d : pydict A) :
  ((fun kc : string * A => (kc.1, f kc.2)) <$> d).*1 = d.*1.
Proof. induction d as [|[k c] d IH]; cbn; [done|]. by rewrite IH. Qed.

Lemma pd_DataFrame_names {A} (d : pydict (list A)) df :
  pd_DataFrame d = Ok df -> df_names df = d.*1.
Proof.
  unfold pd_DataFrame. destruct d as [|[k c] d]; [by intros [= <-]|].
  destruct (forallb _ _); [|done]. intros [= <-]. unfold df_names.
  cbn. f_equal. apply (fmap_keys (fmap Val)).
Qed.

Lemma df_select_names {A} keep (df : DataFrame A) :
  df_names (df_select keep df) = df_names df.
Proof. unfold df_names, df_select. cbn [df_columns]. apply (fmap_keys (select keep)). Qed.

Lemma df_reset_index_names {A} (df df' : DataFrame A) :
  df_reset_index df = Ok df' -> df_names df' = "index"%string :: df_names df.
Proof.
  unfold df_reset_index. destruct (dict_get _ _); [done|]. by intros [= <-].
Qed.

Lemma df_reset_index_ok {A} (df : DataFrame A) :
  "index"%string ∉ df_names df -> exists df', df_reset_index df = Ok df'.
Proof.
  intros H. unfold df_reset_index, df_names in *.
  rewrite (dict_get_None _ _ H). by eexists.
Qed.

Lemma filter_keys {A} (names : list string) (cols : pydict A) :
  (filter (fun kc : string * A => kc.1 ∉ names) cols).*1 =
  filter (fun k => k ∉ names) cols.*1.
Proof.
  induction cols as [|[k c] cols IH]; [done|].
  rewrite fmap_cons, !filter_cons. cbn [fst].
  destruct (decide (k ∉ names)); cbn; by rewrite IH.
Qed.

(** The feature matrix of the fit has the six feature columns. *)
Lemma train_features_names (df : DataFrame cell) :
  df_names df = "index"%string :: dctRF_empty.*1 ->
  exists X, train_features df = Ok X /\ df_names X = feature_columns.
Proof.
  intros H. unfold train_features, df_drop. rewrite H.
  assert (forallb (fun n => bool_decide (n ∈ "index"%string :: dctRF_empty.*1))
            ["index"; "PredErrorM1"]%string = true) as -> by (by vm_compute).
  eexists. split; [reflexivity|]. unfold df_names in *. cbn [df_columns].
  rewrite filter_keys, H. by vm_compute.
Qed.

(** The feature table of a crop at inference has the same six columns. *)
Lemma test_table_names pred_m1 tgi height shade real_solar skyview dataRF :
  pd_DataFrame (test_table pred_m1 tgi height shade real_solar skyview)
    = Ok dataRF ->
  df_names dataRF = feature_columns.
Proof. intros H. by rewrite (pd_DataFrame_names _ _ H). Qed.

(** ** split_data, when it returns *)

Lemma split_data_ok_inv gdal_read {R} pixels train (w w' : world R) :
  split_data gdal_read pixels train w = (Ok tt, w') ->
  exists acc w1 df0 df,
    split_data_loops gdal_read (w_self (split_data_begin pixels train w))
      pixels train (split_data_begin pixels train w) = (Ok acc, w1) /\
    pd_DataFrame acc.2 = Ok df0 /\
    df_reset_index (df_dropna df0) = Ok df /\
    self_RF_train_df (w_self w') = Some df /\
    self_mask (w_self w') = Some acc.1 /\
    self_train_flights (w_self w') = Some train /\
    self_files_df (w_self w') = self_files_df (w_self w) /\
    self_N (w_self w') = self_N (w_self w) /\
    self_unique_flights (w_self w') = self_unique_flights (w_self w) /\
    self_RFModel (w_self w') = self_RFModel (w_self w) /\
    w_saved w' = w_saved w /\
    df_names df = "index"%string :: dctRF_empty.*1.
Proof.
  unfold split_data. intros H.
  unfold bind at 1 in H. unfold set_self at 1 in H. cbn [fst snd] in H.
  fold (split_data_begin pixels train w) in H.
  unfold bind at 1 in H. unfold get_self at 1 in H.
  apply bind_ok_inv in H as (acc & w1 & Hloops & H).
  apply bind_call_inv in H as (df0 & Hdf0 & H).
  apply bind_call_inv in H as (df & Hdf & H).
  unfold set_self in H. injection H as <-.
  destruct (keeps_split_data_loops gdal_read
              (w_self (split_data_begin pixels train w)) pixels train
              (split_data_begin pixels train w)) as [S1 S2].
  rewrite Hloops in S1, S2. cbn [snd] in S1, S2.
  exists acc, w1, df0, df. cbn [w_self w_saved self_RF_train_df self_mask
    self_train_flights self_files_df self_N self_unique_flights self_RFModel].
  rewrite S1, S2. cbn.
  repeat (split; [done|]).
  rewrite (df_reset_index_names _ _ Hdf). f_equal.
  unfold df_dropna. rewrite df_select_names, (pd_DataFrame_names _ _ Hdf0).
  by eapply split_data_loops_keys.
Qed.

(** C5.  The feature matrix [trainRF] fits on (the training table without
    [index] and [PredErrorM1]) and the feature table [test] builds for a
    crop have the same columns in the same order: [PredM1], [TGI],
    [Height], [Shade], [RealSolar], [Skyview]. *)
Theorem train_test_same_columns gdal_read {R} pixels train (w w' : world R) :
  split_data gdal_read pixels train w = (Ok tt, w') ->
  exists RF_train_df X,
    self_RF_train_df (w_self w') = Some RF_train_df /\
    train_features RF_train_df = Ok X /\
    df_names X = feature_columns /\
    forall pred_m1 tgi height shade real_solar skyview dataRF,
      pd_DataFrame (test_table pred_m1 tgi height shade real_solar skyview)
        = Ok dataRF ->
      df_names dataRF = df_names X.
Proof.
  intros H. apply split_data_ok_inv in H
    as (acc & w1 & df0 & df & _ & _ & _ & Hdf & _ & _ & _ & _ & _ & _ & _ & Hn).
  destruct (train_features_names df Hn) as (X & HX & HXn).
  exists df, X. split; [done|]. split; [done|]. split; [done|].
  intros. rewrite HXn. by eapply test_table_names.
Qed.

(** ** split_data returns when every crop can be read *)

Lemma sampled_length gdal_read subset col crop rand l :
  sampled gdal_read subset col crop rand = Ok l -> length l = length rand.
Proof.
  unfold sampled. intros (a & _ & Ht)%obind_ok_inv. by eapply np_take_length.
Qed.

Lemma grows_by_length (col : string) (rows : list cell) d d' L :
  col ∈ dctRF_empty.*1 -> columns_of_length L d -> grows_by col rows d d' ->
  exists v, dict_get col d' = Some v /\ length v = (L + length rows)%nat.
Proof.
  intros Hcol HL (old & H1 & H2). destruct (HL col Hcol) as (v & Hv & Hlen).
  exists (old ++ rows). split; [done|]. rewrite length_app.
  assert (old = v) as -> by congruence. lia.
Qed.

Lemma split_data_crop_columns gdal_read {R} n pixels flight subset crop
    masks dctRF (w w' : world R) masks' dctRF' L :
  split_data_crop gdal_read n pixels flight subset crop (masks, dctRF) w
    = (Ok (masks', dctRF'), w') ->
  columns_of_length L dctRF ->
  exists rows, columns_of_length (L + rows) dctRF'.
Proof.
  intros H HL. apply split_data_crop_inv in H
    as (rand & m & tgi & height & shade & real_solar & skyview & m1 & ir & e
        & _ & _ & _ & _ & _ & Htgi & Hheight & Hshade & Hreal & Hsky & Hm1
        & Hir & He & G1 & G2 & G3 & G4 & G5 & G6 & G7 & _).
  apply sampled_length in Htgi, Hheight, Hshade, Hreal, Hsky, Hm1, Hir.
  apply pred_error_inv in He as [_ ->].
  assert (length (centered (zip_with residual m1 ir)) = length rand) as Hc.
  { unfold centered, np_sub_scalar. rewrite length_fmap, length_zip_with. lia. }
  exists (length rand). intros col Hcol.
  assert (forall rows, length rows = length rand ->
            grows_by col rows dctRF dctRF' ->
            exists v, dict_get col dctRF' = Some v /\
                      length v = (L + length rand)%nat) as Huse.
  { intros rows Hl Hg. destruct (grows_by_length col rows _ _ L Hcol HL Hg)
      as (v & Hv & Hlen). exists v. split; [done|]. lia. }
  cbn in Hcol.
  repeat (apply elem_of_cons in Hcol as [->|Hcol]);
    [..|by apply elem_of_nil in Hcol]; eauto.
Qed.

Lemma columns_forall (d : pydict (list cell)) L :
  d.*1 = dctRF_empty.*1 -> columns_of_length L d ->
  Forall (fun kc : string * list cell => length kc.2 = L) d.
Proof.
  intros Hk HL. cbn in Hk.
  do 7 (destruct d as [|[? ?] d]; [discriminate Hk|]).
  destruct d; [|discriminate Hk]. injection Hk as -> -> -> -> -> -> ->.
  destruct (HL "PredM1"%string ltac:(cbn; repeat constructor))
    as (v1 & Hv1 & ?). cbn in Hv1. injection Hv1 as <-.
  destruct (HL "PredErrorM1"%string ltac:(cbn; repeat constructor))
    as (v2 & Hv2 & ?). cbn in Hv2. injection Hv2 as <-.
  destruct (HL "TGI"%string ltac:(cbn; repeat constructor))
    as (v3 & Hv3 & ?). cbn in Hv3. injection Hv3 as <-.
  destruct (HL "Height"%string ltac:(cbn; repeat constructor))
    as (v4 & Hv4 & ?). cbn in Hv4. injection Hv4 as <-.
  destruct (HL "Shade"%string ltac:(cbn; repeat constructor))
    as (v5 & Hv5 & ?). cbn in Hv5. injection Hv5 as <-.
  destruct (HL "RealSolar"%string ltac:(cbn; repeat constructor))
    as (v6 & Hv6 & ?). cbn in Hv6. injection Hv6 as <-.
  destruct (HL "Skyview"%string ltac:(cbn; repeat constructor))
    as (v7 & Hv7 & ?). cbn in Hv7. injection Hv7 as <-.
  repeat constructor; assumption.
Qed.

Lemma pd_DataFrame_balanced {A} (d : pydict (list A)) L :
  Forall (fun kc : string * list A => length kc.2 = L) d ->
  exists df, pd_DataFrame d = Ok df.
Proof.
  intros H. destruct d as [|[k c] d]; [by eexists|].
  apply Forall_cons in H as [Hc H]. cbn in Hc.
  rewrite pd_DataFrame_same_length; [by eexists|].
  eapply Forall_impl; [exact H|]. intros kc ?. cbn in *. lia.
Qed.

Lemma crops_loop_ok gdal_read {R} n pixels flight subset crops
    acc (w : world R) :
  in_domain n pixels ->
  (forall crop, crop ∈ crops -> crop_readable gdal_read subset crop n) ->
  acc.2.*1 = dctRF_empty.*1 -> (exists L, columns_of_length L acc.2) ->
  exists acc' w',
    for_each crops (split_data_crop gdal_read n pixels flight subset) acc w
      = (Ok acc', w') /\
    acc'.2.*1 = dctRF_empty.*1 /\ exists L, columns_of_length L acc'.2.
Proof.
  intros Hdom Hread Hk HL.
  destruct (for_each_inv
    (fun _ a => a.2.*1 = dctRF_empty.*1 /\ exists L, columns_of_length L a.2)
    crops (split_data_crop gdal_read n pixels flight subset) acc w)
    as (acc' & w' & E & HP); [done| |by exists acc', w'].
  intros k crop [masks d] s Hcrop [Hkd [L HLd]]. cbn [snd] in *.
  destruct (split_data_crop_ok gdal_read n pixels flight subset crop masks d s
              Hdom) as (masks' & d' & s' & Ec & Kc); [|done|].
  { apply Hread. by eapply list_elem_of_lookup_2. }
  exists (masks', d'), s'. split; [done|]. split; [done|].
  destruct (split_data_crop_columns _ _ _ _ _ _ _ _ _ _ _ _ L Ec HLd)
    as [rows Hrows]. by eexists.
Qed.

Lemma split_data_loops_ok gdal_read {R} (self : RF_Correction_Model R)
    pixels train (w : world R) :
  in_domain (self_N self) pixels ->
  (forall flight, flight ∈ train -> flight_readable gdal_read self flight) ->
  exists acc w',
    split_data_loops gdal_read self pixels train w = (Ok acc, w') /\
    acc.2.*1 = dctRF_empty.*1 /\ exists L, columns_of_length L acc.2.
Proof.
  intros Hdom Hread. unfold split_data_loops.
  destruct (for_each_inv
    (fun _ a => a.2.*1 = dctRF_empty.*1 /\ exists L, columns_of_length L a.2)
    train
    (fun flight acc =>
       subset <- call (flight_subset (self_files_df self) flight) ;;
       for_each (py_range (df_len subset))
         (split_data_crop gdal_read (self_N self) pixels flight subset) acc)
    (∅, dctRF_empty) w) as (acc' & w' & E & HP); [| |by exists acc', w'].
  - split; [done|]. exists 0%nat. intros col Hcol. cbn in Hcol.
    repeat (apply elem_of_cons in Hcol as [->|Hcol]);
      [..|by apply elem_of_nil in Hcol]; by eexists.
  - intros k flight acc s Hfl [Hk HL].
    destruct (Hread flight) as (subset & Hsub & Hcrops);
      [by eapply list_elem_of_lookup_2|].
    rewrite (bind_call_ok _ _ _ _ Hsub).
    destruct (crops_loop_ok gdal_read (self_N self) pixels flight subset
                (py_range (df_len subset)) acc s Hdom Hcrops Hk HL)
      as (acc1 & s1 & E1 & H1). by exists acc1, s1.
Qed.

(** [split_data] returns, for every generator, when the sampler is called
    on its domain and every crop of the training flights can be read. *)
Lemma split_data_ok gdal_read {R} pixels train (w : world R) :
  in_domain (self_N (w_self w)) pixels ->
  (forall flight, flight ∈ train ->
     flight_readable gdal_read (w_self w) flight) ->
  exists w', split_data gdal_read pixels train w = (Ok tt, w').
Proof.
  intros Hdom Hread.
  destruct (split_data_loops_ok gdal_read
              (w_self (split_data_begin pixels train w)) pixels train
              (split_data_begin pixels train w) Hdom Hread)
    as (acc & w1 & Hloops & Hk & L & HL).
  destruct (pd_DataFrame_balanced acc.2 L (columns_forall _ _ Hk HL))
    as (df0 & Hdf0).
  destruct (df_reset_index_ok (df_dropna df0)) as (df & Hdf).
  { unfold df_dropna. rewrite df_select_names, (pd_DataFrame_names _ _ Hdf0), Hk.
    cbn. intros H.
    repeat (apply elem_of_cons in H as [H|H]; [discriminate H|]).
    by apply elem_of_nil in H. }
  eexists. unfold split_data.
  unfold bind at 1. unfold set_self at 1. cbn [fst snd].
  fold (split_data_begin pixels train w).
  unfold bind at 1. unfold get_self at 1.
  rewrite (bind_ok _ _ _ _ _ Hloops), (bind_call_ok _ _ _ _ Hdf0),
    (bind_call_ok _ _ _ _ Hdf).
  reflexivity.
Qed.

(** ** test *)

Lemma bind_call_Ok {St A B} (a : A) (k : A -> M St B) s :
  bind (call (Ok a)) k s = k a s.
Proof. reflexivity. Qed.

Lemma omapM_ok_inv {A B} (f : A -> outcome B) l k :
  omapM f l = Ok k -> Forall2 (fun x y => f x = Ok y) l k.
Proof.
  revert k. induction l as [|a l IH]; intros k H; cbn in H.
  - injection H as <-. constructor.
  - apply obind_ok_inv in H as (b & Hb & H).
    apply obind_ok_inv in H as (k' & Hk & H). injection H as <-.
    constructor; [done|by apply IH].
Qed.

Lemma saved_more_nil {R} (w : world R) : saved_more w [] = w.
Proof. destruct w. unfold saved_more. cbn. by rewrite app_nil_r. Qed.

Lemma saved_more_app {R} (w : world R) l1 l2 :
  saved_more (saved_more w l1) l2 = saved_more w (l1 ++ l2).
Proof. unfold saved_more. cbn. by rewrite app_assoc. Qed.

(** A crop is processed as its map is computed, then saved. *)
Lemma test_crop_eq gdal_read {R} rf_predict (self : RF_Correction_Model R)
    path subset crop sub_flight (w : world R) :
  test_crop gdal_read rf_predict self path subset crop sub_flight w =
  match crop_map gdal_read rf_predict self path subset crop sub_flight with
  | Ok fm => (Ok tt, saved_more w [fm])
  | Raise e => (Raise e, w)
  | Timeout => (Timeout, w)
  end.
Proof.
  unfold test_crop, crop_map.
  repeat match goal with
         | |- bind (call ?r) _ _ = _ =>
             destruct r as [?|?|]; cbn [obind];
             [rewrite bind_call_Ok|reflexivity|reflexivity]
         end.
  reflexivity.
Qed.

Lemma np_reshape_inv {A} n (flat : list A) m :
  np_reshape n flat = Ok m ->
  len flat = n * n /\ length m = Z.to_nat n /\
  forall r c, (r < Z.to_nat n)%nat -> (c < Z.to_nat n)%nat ->
    grid_at m r c = flat !! (r * Z.to_nat n + c)%nat.
Proof.
  unfold np_reshape. destruct (Z.leb_spec 0 n); [|done].
  destruct (Z.eqb_spec (len flat) (n * n)); [|done]. cbn. intros [= <-].
  split; [done|]. split; [apply length_chunks|]. intros. by apply chunks_lookup.
Qed.

Lemma crop_map_inv gdal_read {R} rf_predict (self : RF_Correction_Model R)
    path subset cs fm :
  crop_map gdal_read rf_predict self path subset cs.1 cs.2 = Ok fm ->
  is_correction_map gdal_read rf_predict self path subset cs fm.
Proof.
  unfold crop_map. intros H.
  apply obind_ok_inv in H as (f & Hf & H).
  apply obind_ok_inv in H as (tgi & Htgi & H).
  apply obind_ok_inv in H as (height & Hheight & H).
  apply obind_ok_inv in H as (shade & Hshade & H).
  apply obind_ok_inv in H as (real_solar & Hreal & H).
  apply obind_ok_inv in H as (skyview & Hsky & H).
  apply obind_ok_inv in H as (pred_m1 & Hm1 & H).
  apply obind_ok_inv in H as (dataRF & Hdf & H).
  apply obind_ok_inv in H as (model & Hmodel & H).
  apply obind_ok_inv in H as (prediction & Hpred & H).
  apply obind_ok_inv in H as (m2 & Hm2 & H). injection H as <-.
  apply np_reshape_inv in Hm2 as (Hlen & Hrows & Hcells).
  exists f, tgi, height, shade, real_solar, skyview, pred_m1, dataRF, model,
    prediction.
  destruct (cs.2) as [f'|z]; [|done]. injection Hf as ->.
  unfold attr in Hmodel. destruct (self_RFModel self); [|done].
  injection Hmodel as ->. cbn [fst snd]. done.
Qed.

Lemma test_crops_saved gdal_read {R} rf_predict (self : RF_Correction_Model R)
    path subset items maps (w : world R) :
  omapM (fun cs => crop_map gdal_read rf_predict self path subset cs.1 cs.2)
    items = Ok maps ->
  for_each items
    (fun cs _ => test_crop gdal_read rf_predict self path subset cs.1 cs.2)
    tt w = (Ok tt, saved_more w maps).
Proof.
  revert maps w. induction items as [|cs items IH]; intros maps w H; cbn in H.
  - injection H as <-. cbn. by rewrite saved_more_nil.
  - apply obind_ok_inv in H as (fm & Hfm & H).
    apply obind_ok_inv in H as (maps' & Hmaps & H). injection H as <-.
    cbn [for_each]. unfold bind. rewrite test_crop_eq, Hfm.
    rewrite (IH _ _ Hmaps), saved_more_app. done.
Qed.

Lemma test_flight_saved gdal_read {R} rf_predict
    (self : RF_Correction_Model R) path flight maps (w : world R) :
  flight_maps gdal_read rf_predict self path flight = Ok maps ->
  test_flight gdal_read rf_predict self path flight w
  = (Ok tt, saved_more w maps).
Proof.
  unfold flight_maps, test_flight. intros H.
  apply obind_ok_inv in H as (train & Htrain & H).
  rewrite (bind_call_ok _ _ _ _ Htrain).
  destruct (bool_decide (flight ∈ train)).
  - injection H as <-. by rewrite saved_more_nil.
  - apply obind_ok_inv in H as (subset & Hsub & H).
    apply obind_ok_inv in H as (m1 & Hm1 & H).
    rewrite (bind_call_ok _ _ _ _ Hsub), (bind_call_ok _ _ _ _ Hm1).
    by apply test_crops_saved.
Qed.

Lemma test_flights_saved gdal_read {R} rf_predict
    (self : RF_Correction_Model R) path flights per_flight (w : world R) :
  omapM (flight_maps gdal_read rf_predict self path) flights = Ok per_flight ->
  for_each flights
    (fun flight _ => test_flight gdal_read rf_predict self path flight) tt w
  = (Ok tt, saved_more w (concat per_flight)).
Proof.
  revert per_flight w.
  induction flights as [|fl flights IH]; intros per_flight w H; cbn in H.
  - injection H as <-. cbn. by rewrite saved_more_nil.
  - apply obind_ok_inv in H as (maps & Hmaps & H).
    apply obind_ok_inv in H as (rest & Hrest & H). injection H as <-.
    cbn [for_each concat]. unfold bind.
    rewrite (test_flight_saved _ _ _ _ _ _ _ Hmaps).
    rewrite (IH _ _ Hrest), saved_more_app. done.
Qed.

Lemma flight_maps_inv gdal_read {R} rf_predict
    (self : RF_Correction_Model R) path flight maps :
  flight_maps gdal_read rf_predict self path flight = Ok maps ->
  is_flight_maps gdal_read rf_predict self path flight maps.
Proof.
  unfold flight_maps. intros H.
  apply obind_ok_inv in H as (train & Htrain & H).
  unfold attr in Htrain. destruct (self_train_flights self) as [tr|] eqn:Etr;
    [|done]. injection Htrain as ->.
  exists train. split; [done|].
  destruct (decide (flight ∈ train)) as [Hin|Hnin].
  - rewrite bool_decide_eq_true_2 in H by done. injection H as <-.
    split; [done|]. intros Hn. by destruct Hn.
  - rewrite bool_decide_eq_false_2 in H by done. split; [done|]. intros _.
    apply obind_ok_inv in H as (subset & Hsub & H).
    apply obind_ok_inv in H as (m1 & Hm1 & H).
    exists subset, m1. split; [done|]. split; [done|].
    apply omapM_ok_inv in H. eapply Forall2_impl; [exact H|].
    intros cs fm Hc. by apply crop_map_inv.
Qed.


Lemma example_maps_ok :
  held_out_maps example_gdal example_predict example_trained_self "/out"
  = Ok example_maps.
Proof. vm_compute. reflexivity. Qed.


Lemma example_flight_readable :
  flight_readable example_gdal (w_self example_world) "A".
Proof.
  exists example_subset. split; [exact example_subset_ok|].
  intros crop Hc. by apply example_crop_readable.
Qed.

Lemma train_test_same_columns_witness :
  exists w',
    split_data example_gdal 4 ["A"%string] example_world = (Ok tt, w') /\
    exists RF_train_df X,
      self_RF_train_df (w_self w') = Some RF_train_df /\
      train_features RF_train_df = Ok X /\
      df_names X = feature_columns /\
      forall pred_m1 tgi height shade real_solar skyview dataRF,
        pd_DataFrame (test_table pred_m1 tgi height shade real_solar skyview)
          = Ok dataRF ->
        df_names dataRF = df_names X.
Proof.
  destruct (split_data_ok example_gdal 4 ["A"%string] example_world
              example_in_domain) as [w' E].
  - intros flight Hin. apply list_elem_of_singleton in Hin as ->.
    exact example_flight_readable.
  - exists w'. split; [exact E|].
    exact (train_test_same_columns example_gdal 4 ["A"%string]
             example_world w' E).
Defined.

(** * Further properties *)

Lemma top_up_full fuel N points g :
  (1000 <= length points)%nat -> top_up fuel N points g = (Ok points, g).
Proof.
  intros Hl. destruct fuel as [|fuel]; cbn [top_up]; unfold len;
    by destruct (Z.ltb_spec (Z.of_nat (length points)) 1000); [lia|].
Qed.

Lemma top_up_empty_range fuel N points g :
  N <= 0 -> (length points < 1000)%nat ->
  top_up (S fuel) N points g = (Raise ValueError, g).
Proof.
  intros HN Hl. cbn [top_up]. unfold len.
  destruct (Z.ltb_spec (Z.of_nat (length points)) 1000); [|lia].
  erewrite bind_raise; [reflexivity|]. by apply randint_empty.
Qed.



(** X2.  Outside its domain the sampler raises before it returns anything:
    a negative sample count raises [ValueError] ([int] of a NaN), and a
    negative side with a count of at least 1 raises [ValueError] at the
    first draw, whose range is empty. *)
Theorem semi_random_sample_value_errors N K g :
  (K < 0 -> semi_random_sample N K g = (Raise ValueError, g)) /\
  (N < 0 -> 1 <= Z.sqrt K ->
   semi_random_sample N K g = (Raise ValueError, g)).
Proof.
  split.
  - apply semi_random_sample_negative_count.
  - apply semi_random_sample_negative_side.
Qed.

Lemma semi_random_sample_value_errors_witness :
  -1 < 0 /\ -3 < 0 /\ 1 <= Z.sqrt 4 /\
  semi_random_sample 2 (-1) example_rng = (Raise ValueError, example_rng) /\
  semi_random_sample (-3) 4 example_rng = (Raise ValueError, example_rng).
Proof.
  split; [lia|]. split; [lia|]. split; [by vm_compute|]. split.
  - exact (proj1 (semi_random_sample_value_errors 2 (-1) example_rng)
             ltac:(lia)).
  - exact (proj2 (semi_random_sample_value_errors (-3) 4 example_rng)
             ltac:(lia) ltac:(by vm_compute)).
Defined.

(** X3.  [split_data] (lines 96-136) returns, for every generator, when the
    sampler is called on its domain and every crop of the training flights
    can be read; it then stores a table with the columns [index], [PredM1],
    [PredErrorM1], [TGI], [Height], [Shade], [RealSolar], [Skyview], stores
    the masks and the training flights, and leaves the catalog, the grid
    side, the flight list, the model and the saved files as they were. *)
Theorem split_data_returns gdal_read {R} pixels train (w : world R) :
  in_domain (self_N (w_self w)) pixels ->
  (forall flight, flight ∈ train ->
     flight_readable gdal_read (w_self w) flight) ->
  exists w' df masks,
    split_data gdal_read pixels train w = (Ok tt, w') /\
    self_RF_train_df (w_self w') = Some df /\
    df_names df =
      ["index"; "PredM1"; "PredErrorM1"; "TGI"; "Height"; "Shade";
       "RealSolar"; "Skyview"]%string /\
    self_mask (w_self w') = Some masks /\
    self_train_flights (w_self w') = Some train /\
    self_files_df (w_self w') = self_files_df (w_self w) /\
    self_N (w_self w') = self_N (w_self w) /\
    self_unique_flights (w_self w') = self_unique_flights (w_self w) /\
    self_RFModel (w_self w') = self_RFModel (w_self w) /\
    w_saved w' = w_saved w.
Proof.
  intros Hdom Hread.
  destruct (split_data_ok gdal_read pixels train w Hdom Hread) as [w' E].
  destruct (split_data_ok_inv _ _ _ _ _ E)
    as (acc & w1 & df0 & df & _ & _ & _ & Hdf & Hmask & Htr & Hf & HN & Hu
        & Hm & Hs & Hn).
  exists w', df, acc.1. done.
Qed.

Lemma split_data_returns_witness :
  in_domain (self_N (w_self example_world)) 4 /\
  exists w' df masks,
    split_data example_gdal 4 ["A"%string] example_world = (Ok tt, w') /\
    self_RF_train_df (w_self w') = Some df /\
    df_names df =
      ["index"; "PredM1"; "PredErrorM1"; "TGI"; "Height"; "Shade";
       "RealSolar"; "Skyview"]%string /\
    self_mask (w_self w') = Some masks /\
    self_train_flights (w_self w') = Some ["A"%string] /\
    self_files_df (w_self w') = self_files_df (w_self example_world) /\
    self_N (w_self w') = self_N (w_self example_world) /\
    self_unique_flights (w_self w')
      = self_unique_flights (w_self example_world) /\
    self_RFModel (w_self w') = self_RFModel (w_self example_world) /\
    w_saved w' = w_saved example_world.
Proof.
  split; [exact example_in_domain|].
  apply (split_data_returns example_gdal 4 ["A"%string] example_world
           example_in_domain).
  intros flight Hin. apply list_elem_of_singleton in Hin as ->.
  exact example_flight_readable.
Defined.

(** X4.  An empty prior-model folder (lines 77-94): [__init__] raises
    nothing and returns a catalog without flights and without rows. *)
Theorem init_empty_catalog glob {R St} path name map_size (s : St) :
  glob (path +:+ "/Output data/*.tif") = [] ->
  exists o,
    init glob (Regressor := R) path name map_size s = (Ok o, s) /\
    self_unique_flights o = [] /\ df_len (self_files_df o) = 0.
Proof.
  intros H.
  assert (m1_files glob path = []) as Hm by (unfold m1_files; by rewrite H).
  assert (init_flights glob path = []) as Hf
    by (unfold init_flights; by rewrite Hm).
  assert (aligned glob path) as Hal.
  { unfold aligned, files_dict_final, feature_files, ir_files.
    rewrite Hf, Hm. cbn. repeat constructor. }
  destruct (proj1 (init_totals glob (R := R) path name map_size s) Hal)
    as (o & E & Hu & Hl & _).
  exists o. split; [done|]. split; [congruence|]. by rewrite Hl, Hm.
Qed.

Lemma init_empty_catalog_witness :
  (fun _ : string => @nil string) ("/data" +:+ "/Output data/*.tif") = [] /\
  exists o,
    init (fun _ => []) (Regressor := list string) (St := unit)
      "/data" "afterML" 1024 tt = (Ok o, tt) /\
    self_unique_flights o = [] /\ df_len (self_files_df o) = 0.
Proof.
  split; [reflexivity|].
  exact (init_empty_catalog (fun _ => []) (R := list string) (St := unit)
           "/data" "afterML" 1024 tt eq_refl).
Defined.

(** X5.  [test] (lines 170-172) before [split_data]: with a flight in the
    catalog and no training flights recorded, it raises [AttributeError] and
    saves nothing; when every flight of the catalog is a training flight it
    returns and saves nothing. *)
Theorem test_without_held_out_flights gdal_read {R} rf_predict path
    (w : world R) :
  (self_train_flights (w_self w) = None ->
   self_unique_flights (w_self w) <> [] ->
   test gdal_read rf_predict path w = (Raise AttributeError, w)) /\
  (forall train, self_train_flights (w_self w) = Some train ->
   Forall (fun flight => flight ∈ train) (self_unique_flights (w_self w)) ->
   test gdal_read rf_predict path w = (Ok tt, w)).
Proof.
  split.
  - intros Hnone Hne. unfold test. unfold bind at 1. unfold get_self.
    destruct (self_unique_flights (w_self w)) as [|flight rest]; [done|].
    cbn [for_each]. erewrite bind_raise; [reflexivity|].
    unfold test_flight. apply bind_call_raise. by rewrite Hnone.
  - intros train Htrain Hall. unfold test. unfold bind at 1. unfold get_self.
    induction Hall as [|flight rest Hin Hall IH]; [reflexivity|].
    cbn [for_each]. erewrite bind_ok; [exact IH|].
    unfold test_flight. rewrite (bind_call_ok _ _ _ train) by (by rewrite Htrain).
    by rewrite bool_decide_eq_true_2.
Qed.

Lemma test_without_held_out_flights_witness :
  (self_train_flights (w_self example_world) = None /\
   self_unique_flights (w_self example_world) <> [] /\
   test example_gdal example_predict "/out" example_world
     = (Raise AttributeError, example_world)) /\
  (self_train_flights (w_self example_all_trained)
     = Some (self_unique_flights example_self) /\
   test example_gdal example_predict "/out" example_all_trained
     = (Ok tt, example_all_trained)).
Proof.
  split.
  - split; [reflexivity|]. split; [discriminate|].
    exact (proj1 (test_without_held_out_flights example_gdal example_predict
                    "/out" example_world) eq_refl ltac:(discriminate)).
  - split; [reflexivity|].
    apply (proj2 (test_without_held_out_flights example_gdal example_predict
                    "/out" example_all_trained)
             (self_unique_flights example_self) eq_refl).
    apply Forall_forall. intros flight Hin. exact Hin.
Defined.

(** X6.  [trainRF] (lines 142-151) before [split_data] raises
    [AttributeError] and changes nothing; on a training table with the
    columns [split_data] stores, when the forest is fitted and predicts, it
    returns, stores the forest fitted on the six feature columns and the
    target column, and keeps the training table. *)
Theorem trainRF_needs_training_table {R} rf_fit rf_predict (w : world R) :
  (self_RF_train_df (w_self w) = None ->
   trainRF rf_fit rf_predict w = (Raise AttributeError, w)) /\
  (forall df,
     self_RF_train_df (w_self w) = Some df ->
     df_names df = "index"%string :: dctRF_empty.*1 ->
     exists X y,
       train_features df = Ok X /\ df_col "PredErrorM1" df = Ok y /\
       df_names X = feature_columns /\
       forall model prediction,
         rf_fit X y = Ok model -> rf_predict model X = Ok prediction ->
         exists w',
           trainRF rf_fit rf_predict w = (Ok tt, w') /\
           self_RFModel (w_self w') = Some model /\
           self_RF_train_df (w_self w') = Some df /\
           w_saved w' = w_saved w).
Proof.
  split.
  - intros Hnone. unfold trainRF. unfold bind at 1. unfold get_self.
    apply bind_call_raise. by rewrite Hnone.
  - intros df Hdf Hn. destruct (train_features_names df Hn) as (X & HX & HXn).
    destruct (dict_get_is_Some "PredErrorM1" (df_columns df)) as [y Hy].
    { fold (df_names df). rewrite Hn. cbn. repeat constructor. }
    assert (df_col "PredErrorM1" df = Ok y) as Hcol
      by (unfold df_col; by rewrite Hy).
    exists X, y. split; [done|]. split; [done|]. split; [done|].
    intros model prediction Hfit Hpred. eexists. split.
    + unfold trainRF. unfold bind at 1. unfold get_self.
      rewrite (bind_call_ok _ _ _ df) by (by rewrite Hdf).
      rewrite (bind_call_ok _ _ _ _ HX), (bind_call_ok _ _ _ _ Hcol),
        (bind_call_ok _ _ _ _ Hfit), (bind_call_ok _ _ _ _ Hpred).
      reflexivity.
    + cbn. done.
Qed.

Lemma trainRF_needs_training_table_witness :
  (self_RF_train_df (w_self example_world) = None /\
   trainRF example_fit example_predict example_world
     = (Raise AttributeError, example_world)) /\
  (self_RF_train_df (w_self example_with_table) = Some example_train_df /\
   df_names example_train_df = "index"%string :: dctRF_empty.*1 /\
   exists X y,
     train_features example_train_df = Ok X /\
     df_col "PredErrorM1" example_train_df = Ok y /\
     df_names X = feature_columns /\
     forall model prediction,
       example_fit X y = Ok model -> example_predict model X = Ok prediction ->
       exists w',
         trainRF example_fit example_predict example_with_table = (Ok tt, w') /\
         self_RFModel (w_self w') = Some model /\
         self_RF_train_df (w_self w') = Some example_train_df /\
         w_saved w' = w_saved example_with_table).
Proof.
  split.
  - split; [reflexivity|].
    exact (proj1 (trainRF_needs_training_table example_fit example_predict
                    example_world) eq_refl).
  - split; [reflexivity|]. split; [reflexivity|].
    exact (proj2 (trainRF_needs_training_table example_fit example_predict
                    example_with_table) example_train_df eq_refl eq_refl).
Defined.

(** X7.  A prediction that does not hold [N * N] values (line 187): when
    the rasters of a crop are read and the forest predicts, but the number
    of predictions is not [N * N], [reshape] raises [ValueError] and the
    crop saves nothing. *)
Theorem test_crop_wrong_size gdal_read {R} rf_predict
    (self : RF_Correction_Model R) path subset crop f
    tgi height shade real_solar skyview pred_m1 dataRF model prediction
    (w : world R) :
  crop_raster gdal_read subset "TGI" crop = Ok tgi ->
  crop_raster gdal_read subset "height" crop = Ok height ->
  crop_raster gdal_read subset "shade" crop = Ok shade ->
  crop_raster gdal_read subset "real_solar" crop = Ok real_solar ->
  crop_raster gdal_read subset "skyview" crop = Ok skyview ->
  crop_raster gdal_read subset "M1" crop = Ok pred_m1 ->
  pd_DataFrame (test_table pred_m1 tgi height shade real_solar skyview)
    = Ok dataRF ->
  self_RFModel self = Some model ->
  rf_predict model dataRF = Ok prediction ->
  len prediction <> self_N self * self_N self ->
  test_crop gdal_read rf_predict self path subset crop (Val f) w
  = (Raise ValueError, w).
Proof.
  intros H1 H2 H3 H4 H5 H6 Hdf Hmodel Hpred Hlen.
  rewrite test_crop_eq. unfold crop_map. cbn [obind].
  rewrite H1, H2, H3, H4, H5, H6. cbn [obind]. rewrite Hdf. cbn [obind].
  rewrite Hmodel. cbn [obind attr]. rewrite Hpred. cbn [obind].
  unfold np_reshape.
  destruct (Z.eqb_spec (len prediction) (self_N self * self_N self)); [done|].
  by rewrite andb_false_r.
Qed.

Lemma test_crop_wrong_size_witness :
  exists dataRF,
    pd_DataFrame
      (test_table [Qcell 280; Qcell 281; Qcell 282; Qcell 283]
         [Qcell 1; Qcell 2; Qcell 3; Qcell 4]
         [Qcell 5; Qcell 6; Qcell 7; Qcell 9]
         [Qcell 5; Qcell 6; Qcell 7; Qcell 9]
         [Qcell 5; Qcell 6; Qcell 7; Qcell 9]
         [Qcell 5; Qcell 6; Qcell 7; Qcell 9]) = Ok dataRF /\
    len [Qcell 280; Qcell 281; Qcell 282; Qcell 283]
      <> self_N example_trained_self_3 * self_N example_trained_self_3 /\
    test_crop example_gdal example_predict example_trained_self_3 "/out"
      example_subset_B 0 (Val "/data/Output data/B_0_physical_model_v001.tif")
      example_trained = (Raise ValueError, example_trained).
Proof.
  eexists. split; [lazy; reflexivity|]. split; [by vm_compute|].
  eapply (test_crop_wrong_size example_gdal example_predict
           example_trained_self_3 "/out" example_subset_B 0 _
           [Qcell 1; Qcell 2; Qcell 3; Qcell 4]
           [Qcell 5; Qcell 6; Qcell 7; Qcell 9]
           [Qcell 5; Qcell 6; Qcell 7; Qcell 9]
           [Qcell 5; Qcell 6; Qcell 7; Qcell 9]
           [Qcell 5; Qcell 6; Qcell 7; Qcell 9]
           [Qcell 280; Qcell 281; Qcell 282; Qcell 283]
           _ feature_columns [Qcell 280; Qcell 281; Qcell 282; Qcell 283]);
    try (lazy; reflexivity).
  by vm_compute.
Defined.

(** ** The random draws of the sampler *)

Lemma randint_ok_inv low high g v g' :
  randint low high g = (Ok v, g') -> rng_advanced g 1 g'.
Proof.
  unfold randint, rng_next. destruct (high <=? low); [done|].
  intros [= _ <-]. split; [done|]. cbn. lia.
Qed.

Lemma draw_point_advances lo1 hi1 lo2 hi2 N points g0 g v g' :
  (x <- randint lo1 hi1 ;; y <- randint lo2 hi2 ;;
   ret (points ++ [x * N + y])) g = (Ok v, g') ->
  rng_advanced g0 (2 * length points) g -> rng_advanced g0 (2 * length v) g'.
Proof.
  intros H [Hd Hp].
  apply bind_ok_inv in H as (x & g1 & Hx & H).
  apply bind_ok_inv in H as (y & g2 & Hy & H).
  unfold ret in H. injection H as <- <-.
  apply randint_ok_inv in Hx as [Hd1 Hp1].
  apply randint_ok_inv in Hy as [Hd2 Hp2].
  split; [congruence|]. rewrite length_app. cbn [length]. lia.
Qed.

Lemma blocked_phase_advances N sz steps g points g' :
  blocked_phase N sz steps g = (Ok points, g') ->
  rng_advanced g (2 * length points) g'.
Proof.
  unfold blocked_phase. intros H.
  eapply (for_each_ok_preserves
            (fun pts s => rng_advanced g (2 * length pts) s)); [|exact H|].
  - intros i pts s pts1 s1 _ Hin HP.
    eapply (for_each_ok_preserves
              (fun pts s => rng_advanced g (2 * length pts) s));
      [|exact Hin|exact HP].
    intros j p2 s2 p3 s3 _ Hb HP2. cbn zeta in Hb.
    eapply draw_point_advances; [exact Hb|exact HP2].
  - split; [done|]. cbn. lia.
Qed.

Lemma top_up_advances fuel N points g0 g r g' :
  top_up fuel N points g = (Ok r, g') ->
  rng_advanced g0 (2 * length points) g -> rng_advanced g0 (2 * length r) g'.
Proof.
  revert points g.
  induction fuel as [|fuel IH]; intros points g H HP; cbn [top_up] in H;
    destruct (len points <? 1000).
  - discriminate H.
  - unfold ret in H. by injection H as <- <-.
  - apply bind_ok_inv in H as (x & g1 & Hx & H).
    apply bind_ok_inv in H as (y & g2 & Hy & H).
    eapply IH; [exact H|].
    eapply (draw_point_advances 0 N 0 N N points g0 g); [|exact HP].
    by rewrite (bind_ok _ _ _ _ _ Hx), (bind_ok _ _ _ _ _ Hy).
  - unfold ret in H. by injection H as <- <-.
Qed.

(** X8.  The sampler (lines 43-51) calls [randint] twice for every index
    it returns and nowhere else: a run that returns [rand] leaves the
    generator [2 * len(rand)] draws further. *)
Theorem semi_random_sample_two_draws N K g rand g' :
  semi_random_sample N K g = (Ok rand, g') ->
  rng_advanced g (2 * length rand) g'.
Proof.
  intros E. destruct (semi_random_sample_ok_inv N K g rand g' E) as (Hdom & _).
  destruct (semi_random_sample_spec N K g Hdom)
    as (blocked & extra & g1 & g'' & Eb & Et & E' & _).
  rewrite E' in E. injection E as <- <-.
  eapply top_up_advances; [exact Et|]. apply (blocked_phase_advances _ _ _ _ _ _ Eb).
Qed.

Lemma semi_random_sample_two_draws_witness :
  exists rand g',
    semi_random_sample 2 4 example_rng = (Ok rand, g') /\
    rng_advanced example_rng (2 * length rand) g'.
Proof.
  destruct (semi_random_sample_spec 2 4 example_rng example_in_domain)
    as (blocked & extra & g1 & g' & _ & _ & E & _).
  exists (blocked ++ extra), g'. split; [exact E|].
  exact (semi_random_sample_two_draws 2 4 example_rng _ g' E).
Defined.

(** ** What [test] changes *)

Lemma appends_ret {R A} (a : A) : appends_only (R := R) (ret a).
Proof. intros w. split; [done|]. split; [done|]. exists []. by rewrite app_nil_r. Qed.

Lemma appends_call {R A} (r : outcome A) : appends_only (R := R) (call r).
Proof. intros w. split; [done|]. split; [done|]. exists []. by rewrite app_nil_r. Qed.

Lemma appends_np_save {R} file arr : appends_only (R := R) (np_save file arr).
Proof. intros w. split; [done|]. split; [done|]. by exists [(file, arr)]. Qed.

Lemma appends_bind {R A B} (m : M (world R) A) (k : A -> M (world R) B) :
  appends_only m -> (forall a, appends_only (k a)) -> appends_only (bind m k).
Proof.
  intros Hm Hk w. unfold bind. specialize (Hm w).
  destruct (m w) as [[a|e|] w1]; cbn in *; [|done..].
  destruct (Hk a w1) as (H1 & H2 & maps2 & H3).
  destruct Hm as (H4 & H5 & maps1 & H6).
  split; [congruence|]. split; [congruence|].
  exists (maps1 ++ maps2). by rewrite H3, H6, app_assoc.
Qed.

Lemma appends_for_each {R A V} (l : list A)
    (body : A -> V -> M (world R) V) v :
  (forall a v, appends_only (body a v)) -> appends_only (for_each l body v).
Proof.
  intros Hb. revert v. induction l as [|a l IH]; intros v; cbn.
  - apply appends_ret.
  - apply appends_bind; [apply Hb|apply IH].
Qed.

(** X9.  [test] (lines 165-188) writes and does nothing else: whether it
    returns or raises, the object and the random generator are as before,
    and the files saved before are still there, followed by the maps saved
    until then. *)
Theorem test_only_saves gdal_read {R}
    (rf_predict : R -> DataFrame cell -> outcome (list cell)) path :
  appends_only (test gdal_read rf_predict path).
Proof.
  unfold test. intros w. unfold bind at 1. unfold get_self.
  apply appends_for_each. intros flight []. unfold test_flight.
  apply appends_bind; [apply appends_call|]. intros train.
  destruct (bool_decide _); [apply appends_ret|].
  apply appends_bind; [apply appends_call|]. intros subset.
  apply appends_bind; [apply appends_call|]. intros m1.
  apply appends_for_each. intros cs []. unfold test_crop.
  repeat first [apply appends_np_save | apply appends_call
               | apply appends_bind; [|intros ?]].
Qed.

(** ** [reshape] *)

Lemma chunks_concat {A} rows w (l : list A) :
  length l = (rows * w)%nat ->
  concat (chunks rows w l) = l /\
  Forall (fun row => length row = w) (chunks rows w l).
Proof.
  revert l. induction rows as [|r IH]; intros l Hl; cbn [chunks concat].
  - split; [|done]. symmetry. by apply nil_length_inv.
  - destruct (IH (drop w l)) as [Hc Hf]; [rewrite length_drop; lia|].
    split.
    + rewrite Hc. apply take_drop.
    + constructor; [|done]. rewrite length_take. lia.
Qed.

(** X10.  [reshape((N, N))] (lines 116 and 187) returns exactly when the
    array has [N * N] elements, and is then lossless: there are [N] rows of
    [N] elements, and the rows put end to end are the array. *)
Theorem np_reshape_round_trip {A} n (flat : list A) :
  ((exists m, np_reshape n flat = Ok m) <-> 0 <= n /\ len flat = n * n) /\
  (forall m, np_reshape n flat = Ok m ->
     concat m = flat /\ length m = Z.to_nat n /\
     Forall (fun row => length row = Z.to_nat n) m) /\
  (~ (0 <= n /\ len flat = n * n) -> np_reshape n flat = Raise ValueError).
Proof.
  unfold np_reshape.
  destruct (Z.leb_spec 0 n) as [Hn|Hn];
    [destruct (Z.eqb_spec (len flat) (n * n)) as [Hl|Hl]|]; cbn [andb].
  - split; [split; [done|by eexists]|]. split; [|tauto].
    intros m [= <-].
    destruct (chunks_concat (Z.to_nat n) (Z.to_nat n) flat) as [Hc Hf].
    { unfold len in Hl. nia. }
    split; [done|]. split; [apply length_chunks|done].
  - split; [split; [by intros [m ?]|tauto]|]. split; [done|done].
  - split; [split; [by intros [m ?]|lia]|]. split; [done|done].
Qed.

Lemma np_reshape_round_trip_witness :
  np_reshape 2 [Qcell 1; Qcell 2; Qcell 3; Qcell 4]
    = Ok [[Qcell 1; Qcell 2]; [Qcell 3; Qcell 4]] /\
  concat [[Qcell 1; Qcell 2]; [Qcell 3; Qcell 4]]
    = [Qcell 1; Qcell 2; Qcell 3; Qcell 4] /\
  length [[Qcell 1; Qcell 2]; [Qcell 3; Qcell 4]] = Z.to_nat 2 /\
  Forall (fun row => length row = Z.to_nat 2)
    [[Qcell 1; Qcell 2]; [Qcell 3; Qcell 4]].
Proof.
  split; [reflexivity|].
  exact (proj1 (proj2 (np_reshape_round_trip 2
                         [Qcell 1; Qcell 2; Qcell 3; Qcell 4])) _ eq_refl).
Defined.

(** ** The rows [dropna] keeps *)

Lemma select_seq_Forall {A} (f : nat -> bool) (P : A -> Prop) n s (c : list A) :
  (forall i x, c !! i = Some x -> f (s + i)%nat = true -> P x) ->
  Forall P (select (f <$> seq s n) c).
Proof.
  revert s c. induction n as [|n IH]; intros s c H; cbn; [done|].
  destruct c as [|x c]; [done|].
  assert (Forall P (select (f <$> seq (S s) n) c)) as IHc.
  { apply IH. intros i y Hi Hf. apply (H (S i) y Hi). by rewrite Nat.add_succ_r. }
  destruct (f s) eqn:Efs; [|done]. constructor; [|done].
  apply (H 0%nat x eq_refl). by rewrite Nat.add_0_r.
Qed.

Lemma row_complete_entry cols p (k : string) c e :
  (k, c) ∈ cols -> row_complete cols p = true -> c !! p = Some e ->
  entry_isna e = false.
Proof.
  intros Hin H He. unfold row_complete in H.
  pose proof (proj1 (forallb_forall _ _) H (k, c)
                (proj1 (list_elem_of_In _ _) Hin)) as Hkc.
  cbn in Hkc. rewrite He in Hkc. by apply negb_true_iff.
Qed.

Lemma df_dropna_complete df (k : string) c :
  (k, c) ∈ df_columns (df_dropna df) ->
  Forall (fun e => entry_isna e = false) c.
Proof.
  unfold df_dropna, df_select. cbn [df_columns]. intros H.
  apply list_elem_of_fmap in H as ([k0 c0] & [= -> ->] & Hin). cbn [snd].
  apply (select_seq_Forall (row_complete (df_columns df))). intros i x Hi Hf.
  cbn in Hf. by eapply row_complete_entry.
Qed.

Lemma df_reset_index_complete (df df' : DataFrame cell) :
  df_reset_index df = Ok df' ->
  (forall k c, (k, c) ∈ df_columns df ->
     Forall (fun e => entry_isna e = false) c) ->
  df_index df' = py_range (df_len df') /\
  forall k c, (k, c) ∈ df_columns df' ->
    Forall (fun e => entry_isna e = false) c.
Proof.
  unfold df_reset_index. destruct (dict_get _ _); [done|]. intros [= <-] H.
  split.
  - cbn [df_index]. unfold df_len at 2. cbn [df_index]. unfold len.
    rewrite py_range_length. f_equal. unfold df_len, len. lia.
  - intros k c Hin. cbn [df_columns] in Hin.
    apply elem_of_cons in Hin as [[= -> ->]|Hin]; [|by eapply H].
    apply Forall_fmap. by apply Forall_true.
Qed.

(** X11.  The table [split_data] stores (lines 131-134): after [dropna]
    no entry of any column is missing, and after [reset_index] the rows are
    labelled [0, 1, ...] again. *)
Theorem split_data_table_complete gdal_read {R} pixels train
    (w w' : world R) :
  split_data gdal_read pixels train w = (Ok tt, w') ->
  exists df,
    self_RF_train_df (w_self w') = Some df /\
    df_index df = py_range (df_len df) /\
    forall k c, (k, c) ∈ df_columns df ->
      Forall (fun e => entry_isna e = false) c.
Proof.
  intros H.
  destruct (split_data_ok_inv gdal_read pixels train w w' H)
    as (acc & w1 & df0 & df & _ & _ & Hdf & Hst & _).
  exists df. split; [done|].
  apply (df_reset_index_complete _ _ Hdf). intros k c. apply df_dropna_complete.
Qed.

Lemma split_data_table_complete_witness :
  exists w' df,
    split_data example_gdal 4 ["A"%string] example_world = (Ok tt, w') /\
    self_RF_train_df (w_self w') = Some df /\
    df_index df = py_range (df_len df) /\
    forall k c, (k, c) ∈ df_columns df ->
      Forall (fun e => entry_isna e = false) c.
Proof.
  destruct (split_data_ok example_gdal 4 ["A"%string] example_world
              example_in_domain) as (w' & E).
  { intros flight Hin. apply list_elem_of_singleton in Hin as ->.
    exact example_flight_readable. }
  destruct (split_data_table_complete example_gdal 4 ["A"%string]
              example_world w' E) as (df & H).
  exists w', df. split; [exact E|exact H].
Defined.

(** ** The flights [__init__] lists *)

Lemma omap_seq_None {A} (f : nat -> option A) s n :
  (forall j, (s <= j < s + n)%nat -> f j = None) -> omap f (seq s n) = [].
Proof.
  revert s. induction n as [|n IH]; intros s H; cbn; [done|].
  rewrite (H s) by lia. apply IH. intros j Hj. apply H. lia.
Qed.

Lemma omap_seq_Some {A} (f : nat -> option A) s m :
  (forall j, (s <= j < s + m)%nat -> is_Some (f j)) ->
  length (omap f (seq s m)) = m /\
  forall i, (i < m)%nat -> omap f (seq s m) !! i = f (s + i)%nat.
Proof.
  revert s. induction m as [|m IH]; intros s H; cbn; [split; [done|lia]|].
  destruct (H s) as [x Hx]; [lia|]. rewrite Hx.
  destruct (IH (S s)) as [Hl Hi]; [intros j Hj; apply H; lia|].
  split; [cbn; by rewrite Hl|].
  intros [|i] Hlt; cbn.
  - by rewrite Nat.add_0_r.
  - rewrite Hi by lia. f_equal. lia.
Qed.

Lemma every_nth_5 {A} (l : list A) :
  (length l <= 5 * length (every_nth 5 l) < length l + 5)%nat /\
  forall i, every_nth 5 l !! i = l !! (i * 5)%nat.
Proof.
  unfold every_nth. set (n := length l). set (f := fun i => l !! (i * 5)%nat).
  set (m := ((n + 4) / 5)%nat).
  assert (n <= 5 * m < n + 5)%nat as Hm.
  { pose proof (Nat.div_mod_eq (n + 4) 5) as E.
    pose proof (Nat.mod_upper_bound (n + 4) 5 ltac:(lia)) as B.
    fold m in E. lia. }
  assert (seq 0 n = seq 0 m ++ seq m (n - m)) as ->.
  { replace n with (m + (n - m))%nat at 1 by lia. by rewrite seq_app. }
  rewrite omap_app.
  rewrite (omap_seq_None f m (n - m)), app_nil_r.
  2:{ intros j Hj. apply lookup_ge_None_2. fold n. lia. }
  destruct (omap_seq_Some f 0 m) as [Hl Hi].
  { intros j Hj. apply lookup_lt_is_Some_2. fold n. lia. }
  split; [rewrite Hl; lia|]. intros i.
  destruct (decide (i < m)%nat) as [Hlt|Hge].
  - by rewrite Hi.
  - rewrite (lookup_ge_None_2 (omap f (seq 0 m))) by (rewrite Hl; lia).
    symmetry. apply lookup_ge_None_2. fold n. lia.
Qed.

(** X12.  [self.unique_flights] (line 81) is read off every fifth file of
    the sorted prior-model files: flight [k] is the name of file [5 * k]
    without its last 26 characters, whatever flight the files in between
    belong to, and there is one flight for every started group of five. *)
Theorem init_flight_every_fifth_file glob {R St} path name map_size
    (s s' : St) (self : RF_Correction_Model R) :
  init glob path name map_size s = (Ok self, s') ->
  (length (m1_files glob path) <= 5 * length (self_unique_flights self)
     < length (m1_files glob path) + 5)%nat /\
  forall k, self_unique_flights self !! k
            = basename_cut 26 <$> m1_files glob path !! (k * 5)%nat.
Proof.
  rewrite init_spec. destruct (pd_DataFrame _) as [files_df| |]; [|done..].
  intros [= <- _]. cbn [self_unique_flights]. unfold init_flights.
  destruct (every_nth_5 (m1_files glob path)) as [Hl Hi].
  split; [by rewrite length_fmap|].
  intros k. by rewrite list_lookup_fmap, Hi.
Qed.

Lemma init_flight_every_fifth_file_witness :
  init example_glob (St := unit) "/data" "afterML" 2 tt = (Ok example_self, tt) /\
  (length (m1_files example_glob "/data")
     <= 5 * length (self_unique_flights example_self)
     < length (m1_files example_glob "/data") + 5)%nat /\
  forall k, self_unique_flights example_self !! k
            = basename_cut 26 <$> m1_files example_glob "/data" !! (k * 5)%nat.
Proof.
  split; [exact example_init_ok|].
  exact (init_flight_every_fifth_file example_glob "/data" "afterML" 2 tt tt
           example_self example_init_ok).
Defined.

(** ** The pixels the blocked phase can reach *)

Lemma one_per_block_within N sz steps points :
  0 < sz -> 0 <= steps -> one_per_block N sz (Z.to_nat steps) points ->
  Forall (within N (steps * sz)) points.
Proof.
  intros Hsz Hst [Hlen Hblk]. apply Forall_lookup. intros idx p Hp.
  set (n := Z.to_nat steps) in *.
  assert (idx < n * n)%nat as Hidx
    by (rewrite <- Hlen; by eapply lookup_lt_Some).
  assert (0 < n)%nat as Hn by lia.
  pose proof (Nat.div_mod_eq idx n) as Ediv.
  pose proof (Nat.mod_upper_bound idx n ltac:(lia)) as Hj.
  assert (idx / n < n)%nat as Hi by (apply Nat.Div0.div_lt_upper_bound; lia).
  destruct (Hblk (idx / n)%nat (idx mod n)%nat Hi Hj) as (p' & Hp' & x & y & -> & Hx & Hy).
  replace (idx / n * n + idx mod n)%nat with idx in Hp' by lia.
  rewrite Hp in Hp'. injection Hp' as ->.
  exists x, y. split; [done|].
  assert (Z.of_nat (idx / n) + 1 <= steps) by lia.
  assert (Z.of_nat (idx mod n) + 1 <= steps) by lia.
  split; nia.
Qed.

(** X13.  The blocked phase (lines 38-46) only reaches the rows and the
    columns below [steps * size = N - N mod size]: when the block size does
    not divide [N], the last [N mod size] rows and columns are left to the
    top-up draws. *)
Theorem blocked_phase_stays_in_blocks N K g blocked g1 :
  in_domain N K ->
  blocked_phase N (block_size N K) (block_count N K) g = (Ok blocked, g1) ->
  block_count N K * block_size N K = N - N `mod` block_size N K /\
  Forall (within N (N - N `mod` block_size N K)) blocked.
Proof.
  intros Hdom E. pose proof (block_size_pos N K Hdom) as Hsz.
  assert (block_count N K * block_size N K = N - N `mod` block_size N K) as Hm.
  { rewrite (block_count_div N K Hdom).
    pose proof (Z.div_mod N (block_size N K) ltac:(lia)). lia. }
  split; [done|]. rewrite <- Hm.
  destruct (blocked_phase_ok N (block_size N K) (block_count N K) g)
    as (points & g' & E' & Hb); [lia|].
  rewrite E' in E. injection E as <- <-.
  apply one_per_block_within; [lia| |done].
  pose proof (block_count_ge N K Hdom). destruct Hdom. lia.
Qed.

Lemma blocked_phase_stays_in_blocks_witness :
  in_domain 11 16 /\ 11 - 11 `mod` block_size 11 16 = 10 /\
  exists blocked g1,
    blocked_phase 11 (block_size 11 16) (block_count 11 16) example_rng
      = (Ok blocked, g1) /\
    block_count 11 16 * block_size 11 16 = 11 - 11 `mod` block_size 11 16 /\
    Forall (within 11 (11 - 11 `mod` block_size 11 16)) blocked.
Proof.
  assert (in_domain 11 16) as H
    by (unfold in_domain; vm_compute; split; discriminate).
  split; [exact H|]. split; [reflexivity|].
  destruct (blocked_phase_ok 11 (block_size 11 16) (block_count 11 16)
              example_rng) as (blocked & g1 & E & _); [reflexivity|].
  exists blocked, g1. split; [exact E|].
  exact (blocked_phase_stays_in_blocks 11 16 example_rng blocked g1 H E).
Defined.

(** X14.  [split_data] without training flights (lines 102-136): the
    loops do nothing, so the sampler is never called and no pixel count is
    rejected; the stored table has the eight columns and no row, and the
    stored masks are empty. *)
Theorem split_data_no_flights gdal_read {R} pixels (w : world R) :
  exists w' df,
    split_data gdal_read pixels [] w = (Ok tt, w') /\
    w_rng w' = w_rng w /\ w_saved w' = w_saved w /\
    self_train_flights (w_self w') = Some [] /\
    self_len_of_random_pix (w_self w') = Some pixels /\
    self_mask (w_self w') = Some ∅ /\
    self_RF_train_df (w_self w') = Some df /\
    df_len df = 0 /\
    df_names df = "index"%string :: dctRF_empty.*1.
Proof.
  eexists _, _. split; [lazy; reflexivity|]. repeat split; reflexivity.
Qed.
